(** * Kenya trends automation: the post-generation pipeline

    A shallow embedding of [main.py] (classes [GoogleTrendsKenya],
    [SocialMediaGenerator], [SocialMediaPlatformAPI],
    [TrendsAutomationSystem]) and of the tables and the two class methods of
    [Config] from [config.py], followed by the properties of the pipeline
    stated over that embedding.

    Python values are modelled as follows: [str] as [string] (the UTF-8
    bytes of the text), [dict] as [gmap], [list] as [list], an exception as
    the [Raise] branch of [Result]; code that prints, reads the clock, draws
    random numbers or touches files runs in the state-and-exception monad
    [M] over a [World]. *)

From stdpp Require Import base option list gmap strings.
From Stdlib Require Import Ascii ZArith Lia.

#[local] Open Scope string_scope.
#[local] Open Scope list_scope.
#[local] Open Scope nat_scope.
#[local] Set Warnings "-register-all".

(** ** Python exceptions and results *)

Inductive PyError : Type :=
  | ValueError
  | KeyError (key : string)
  | IndexError
  | AttributeError
  | TypeError
  | FileNotFoundError
  | PermissionError
  | JSONDecodeError.

(** The outcome of a Python expression: a value, an exception, or [Beyond]
    when the expression leaves the fragment of Python that is modelled (it
    is no exception, and no handler catches it). *)
Inductive Result (A : Type) : Type :=
  | Ok (a : A)
  | Raise (e : PyError)
  | Beyond (construct : string).
Arguments Ok {A} a.
Arguments Raise {A} e.
Arguments Beyond {A} construct.

Definition rbind {A B} (r : Result A) (k : A -> Result B) : Result B :=
  match r with
  | Ok a => k a
  | Raise e => Raise e
  | Beyond c => Beyond c
  end.

Definition rmap {A B} (f : A -> B) (r : Result A) : Result B :=
  rbind r (fun a => Ok (f a)).

#[global] Instance Result_ret : MRet Result := fun A a => Ok a.
#[global] Instance Result_bind : MBind Result := fun A B k r => rbind r k.
#[global] Instance Result_fmap : FMap Result := fun A B f r => rmap f r.

Definition is_ok {A} (r : Result A) : bool :=
  match r with Ok _ => true | _ => false end.

(** ** Strings *)

(** [len(s)] of a Python [str]: the number of code points, that is, of the
    bytes of its UTF-8 encoding that are not continuation bytes
    ([0b10xxxxxx]). *)
Definition is_continuation (c : ascii) : bool :=
  let n := nat_of_ascii c in ((128 <=? n) && (n <? 192))%nat.

Fixpoint py_len (s : string) : nat :=
  match s with
  | EmptyString => 0
  | String c rest => (if is_continuation c then 0 else 1) + py_len rest
  end.

(** [sep.join(parts)] *)
Fixpoint join (sep : string) (parts : list string) : string :=
  match parts with
  | [] => ""
  | [p] => p
  | p :: rest => p +:+ sep +:+ join sep rest
  end.

(** [needle in hay]: [needle] occurs in [hay] as a contiguous substring. *)
Definition contains (hay needle : string) : Prop :=
  exists before after, hay = before +:+ needle +:+ after.

Definition char_in (c : ascii) (cs : string) : bool :=
  bool_decide (c ∈ String.list_ascii_of_string cs).

Fixpoint free_of (cs : string) (s : string) : bool :=
  match s with
  | EmptyString => true
  | String c rest => negb (char_in c cs) && free_of cs rest
  end.

(** How [str.format] reads the name of a replacement field (CPython's
    [get_integer] in [field_name_split]): a name of decimal digits only, or
    the empty name, is an index into the positional arguments; reading it
    stops with a [ValueError] as soon as the digits read exceed the largest
    [Py_ssize_t]; any other name is a key of the keyword arguments.  Only
    ASCII digits are known here, so a name with a character outside ASCII
    before its first ASCII character that is not a digit is left unread;
    and so is a number between the largest [Py_ssize_t] of a 32-bit build
    and that of a 64-bit build, which the two read differently. *)
Inductive FieldName : Type :=
  | Index (i : Z)
  | Key
  | TooManyDigits
  | Unread.

Definition SSIZE_T_MAX_32 : Z := 2147483647.
Definition SSIZE_T_MAX_64 : Z := 9223372036854775807.

Fixpoint get_integer (accumulator : Z) (s : string) : FieldName :=
  match s with
  | EmptyString =>
      if (accumulator <=? SSIZE_T_MAX_32)%Z then Index accumulator else Unread
  | String c rest =>
      let n := nat_of_ascii c in
      if (128 <=? n)%nat then Unread
      else if ((48 <=? n)%nat && (n <=? 57)%nat)%bool then
        let accumulator' := (accumulator * 10 + (Z.of_nat n - 48))%Z in
        if (SSIZE_T_MAX_64 <? accumulator')%Z then TooManyDigits
        else get_integer accumulator' rest
      else if (accumulator <=? SSIZE_T_MAX_32)%Z then Key else Unread
  end.

(** ** [str.format]

    [template.format(k1=v1, ...)] with keyword arguments only, for replacement
    fields that are plain names.  A field with a conversion ([!r]), a format
    specification ([:spec]) or an attribute or index lookup ([a.b], [a[0]])
    lies outside the fragment and yields [Beyond].  A keyword argument
    that no field names is ignored, as in Python.  There are no positional
    arguments, so a field that is an index, or is empty, raises
    [IndexError]. *)

Definition field_value (name : string) (kwargs : gmap string string) : Result string :=
  if negb (free_of ".[!:" name) then Beyond "replacement field"
  else match get_integer 0 name with
       | Index _ => Raise IndexError
       | TooManyDigits => Raise ValueError
       | Key => match kwargs !! name with
                | Some v => Ok v
                | None => Raise (KeyError name)
                end
       | Unread => Beyond "field name"
       end.

(** The scanner: [field] is [None] in literal text and [Some name] inside a
    replacement field whose name has been read up to [name].  An opening
    brace inside the name of a field is a [ValueError]; after a [:] or a [!]
    it opens a nested field of the format specification, and after a [[] it
    is part of the index, both outside the fragment. *)
Fixpoint format_go (kwargs : gmap string string) (template : string)
    (field : option string) : Result string :=
  match template, field with
  | EmptyString, None => Ok ""
  | EmptyString, Some _ => Raise ValueError
  | String c rest, None =>
      if Ascii.eqb c "{" then
        match rest with
        | String "{" rest' => rmap (String "{") (format_go kwargs rest' None)
        | _ => format_go kwargs rest (Some "")
        end
      else if Ascii.eqb c "}" then
        match rest with
        | String "}" rest' => rmap (String "}") (format_go kwargs rest' None)
        | _ => Raise ValueError
        end
      else rmap (String c) (format_go kwargs rest None)
  | String c rest, Some name =>
      if Ascii.eqb c "}" then
        rbind (field_value name kwargs) (fun v =>
        rmap (String.append v) (format_go kwargs rest None))
      else if Ascii.eqb c "{" then
        if free_of "[!:" name then Raise ValueError
        else Beyond "replacement field"
      else format_go kwargs rest (Some (name +:+ String c ""))
  end.

Definition format (template : string) (kwargs : gmap string string) : Result string :=
  format_go kwargs template None.

(** The keyword arguments of the one call in the source,
    [template.format(keyword=keyword, context=context)]. *)
Definition post_kwargs (keyword context : string) : gmap string string :=
  <["keyword" := keyword]> (<["context" := context]> ∅).

(** ** Templates as literal text and replacement fields *)

Inductive Segment : Type :=
  | Lit (text : string)
  | Field (name : string).

#[global] Instance Segment_eq_dec : EqDecision Segment.
Proof. solve_decision. Defined.

Definition segment_text (s : Segment) : string :=
  match s with
  | Lit text => text
  | Field name => "{" +:+ name +:+ "}"
  end.

Definition template_of (segs : list Segment) : string :=
  foldr (fun s acc => segment_text s +:+ acc) "" segs.

Definition cons_lit (c : ascii) (segs : list Segment) : list Segment :=
  match segs with
  | Lit text :: rest => Lit (String c text) :: rest
  | _ => Lit (String c "") :: segs
  end.

(** The segments of a template whose only replacement fields are the two
    placeholders: every other character counts as literal text.  [skip] is
    the number of characters still to pass over after a placeholder has been
    recognised at its opening brace. *)
Fixpoint segments_go (skip : nat) (template : string) : list Segment :=
  match template with
  | EmptyString => []
  | String c rest =>
      match skip with
      | S n => segments_go n rest
      | 0 =>
          if String.prefix "{keyword}" template
          then Field "keyword" :: segments_go 8 rest
          else if String.prefix "{context}" template
          then Field "context" :: segments_go 8 rest
          else cons_lit c (segments_go 0 rest)
      end
  end.

Definition segments_of (template : string) : list Segment :=
  segments_go 0 template.

(** A segment the composer's call formats without raising: text with no
    brace, or one of the two placeholders. *)
Definition plain_segment (s : Segment) : bool :=
  match s with
  | Lit text => free_of "{}" text
  | Field name => bool_decide (name = "keyword") || bool_decide (name = "context")
  end.

(** A template made of such segments; either placeholder may be missing. *)
Definition plain_template (template : string) : bool :=
  forallb plain_segment (segments_of template).

Definition has_placeholder (name template : string) : bool :=
  bool_decide (Field name ∈ segments_of template).

(** The text a plain template stands for once its placeholders are filled. *)
Definition render (kw ctx : string) (segs : list Segment) : string :=
  foldr (fun s acc =>
           match s with
           | Lit text => text
           | Field name => if decide (name = "keyword") then kw else ctx
           end +:+ acc) "" segs.

(** ** The data of the trend source *)

(** A row of the frames pytrends returns for related queries. *)
Record QueryRow : Type := { query : string; value : Z }.

(** A pandas [DataFrame] with the columns [query] and [value], as its list
    of rows. *)
Record DataFrame : Type := Frame { rows : list QueryRow }.

(** A value under the keys [top] and [rising] of a keyword's related
    queries.  [TrendReq.related_queries] stores a frame there, or [None]
    when the response had no ranked list; a caller of the generator may as
    well pass a plain list of rows. *)
Inductive Ranked : Type :=
  | NoneValue
  | FrameValue (df : DataFrame)
  | ListValue (items : list QueryRow).

(** [d.get(key)] on such a dictionary: a missing key reads as [None]. *)
Definition get_ranked (d : gmap string Ranked) (key : string) : Ranked :=
  default NoneValue (d !! key).

(** [d[key]] *)
Definition getitem {V} (d : gmap string V) (key : string) : Result V :=
  match d !! key with
  | Some v => Ok v
  | None => Raise (KeyError key)
  end.

(** The truth value an [if] takes of a [Ranked]: [None] is false, a list
    is true when it has an item, and [bool(frame)] raises [ValueError] for
    every frame, empty or not (pandas rejects the truth value of a
    DataFrame as ambiguous). *)
Definition truth (v : Ranked) : Result bool :=
  match v with
  | NoneValue => Ok false
  | FrameValue _ => Raise ValueError
  | ListValue items => Ok (negb (bool_decide (items = [])))
  end.

(** [v.empty], [len(v)] and [v.iloc[0]['query']]; only a frame has the
    attributes [empty] and [iloc]. *)
Definition frame_empty (v : Ranked) : Result bool :=
  match v with
  | FrameValue df => Ok (bool_decide (rows df = []))
  | NoneValue | ListValue _ => Raise AttributeError
  end.

Definition frame_len (v : Ranked) : Result nat :=
  match v with
  | NoneValue => Raise TypeError
  | FrameValue df => Ok (length (rows df))
  | ListValue items => Ok (length items)
  end.

Definition iloc0_query (v : Ranked) : Result string :=
  match v with
  | FrameValue df =>
      match rows df with
      | r :: _ => Ok (query r)
      | [] => Raise IndexError
      end
  | NoneValue | ListValue _ => Raise AttributeError
  end.

(** ** The context builder: [SocialMediaGenerator.generate_context] *)

Definition peak_phrase : string := "Search interest is at its peak!".
Definition growing_phrase : string := "Growing rapidly in search trends.".
Definition momentum_phrase : string := "Gaining momentum in search interest.".
Definition fallback_context : string := "Stay updated with the latest trends!".

Definition related_phrase (related_query : string) : string :=
  "Related searches include '" +:+ related_query +:+ "'".

Definition generate_context (keyword : string) (interest_data : gmap string Z)
    (related_queries : gmap string Ranked) : Result string :=
  let context_parts : list string := [] in
  (* the interest level *)
  let context_parts :=
    match interest_data !! keyword with
    | Some interest_level =>
        if (80 <? interest_level)%Z then context_parts ++ [peak_phrase]
        else if (50 <? interest_level)%Z then context_parts ++ [growing_phrase]
        else context_parts ++ [momentum_phrase]
    | None => context_parts
    end in
  (* the related queries *)
  has_top ← truth (get_ranked related_queries "top");
  context_parts ←
    (if has_top : bool then
       top_queries ← getitem related_queries "top";
       is_empty ← frame_empty top_queries;
       has_rows ← (if is_empty : bool then Ok false
                   else n ← frame_len top_queries; Ok (0 <? n));
       if has_rows : bool then
         related_query ← iloc0_query top_queries;
         Ok (context_parts ++ [related_phrase related_query])
       else Ok context_parts
     else Ok context_parts);
  Ok (match context_parts with
      | [] => fallback_context
      | _ => join " " context_parts
      end).

(** ** The generator's tables: [SocialMediaGenerator.__init__] *)

Record SocialMediaGenerator : Type := {
  post_templates : gmap string (list string);
  hashtags_kenya : list string
}.

Definition trending_templates : list string := [
  "🔥 What's trending in Kenya right now: '{keyword}' is gaining massive attention! {context} #TrendingKenya #Kenya";
  "📈 Kenyans are talking about '{keyword}' - here's what you need to know: {context} #KenyaTrends";
  "🇰🇪 Breaking: '{keyword}' is trending across Kenya! {context} #KenyaNews #Trending";
  "⚡ Hot topic alert: '{keyword}' is the talk of Kenya today! {context} #KenyaTrends #Viral"
].

Definition educational_templates : list string := [
  "📚 Did you know? '{keyword}' is trending in Kenya. Here's why it matters: {context} #LearnSomethingNew #Kenya";
  "🎓 Trending topic breakdown: '{keyword}' explained for Kenyans {context} #Education #KenyaInsights";
  "💡 Understanding the buzz around '{keyword}' in Kenya: {context} #Knowledge #TrendAnalysis"
].

Definition engagement_templates : list string := [
  "🤔 What do you think about '{keyword}' trending in Kenya? Share your thoughts! {context} #KenyaDebate";
  "📊 Poll time! How do you feel about '{keyword}' trending in Kenya? {context} #KenyaOpinion #Vote";
  "💬 Let's discuss: '{keyword}' is trending - what's your take, Kenya? {context} #Discussion"
].

Definition new_generator : SocialMediaGenerator := {|
  post_templates :=
    <["trending" := trending_templates]>
    (<["educational" := educational_templates]>
    (<["engagement" := engagement_templates]> ∅));
  hashtags_kenya := [
    "#Kenya"; "#Nairobi"; "#KenyaTrends"; "#KOT"; "#TukoTogether";
    "#KenyaDaily"; "#EastAfrica"; "#Kenyan"; "#NairobiLife"; "#KenyaNews"
  ]
|}.

(** The list the composer draws the template type from. *)
Definition template_types : list string :=
  ["trending"; "educational"; "engagement"].

(** The category tags of the specification's data model. *)
Definition defined_categories : list string :=
  ["trending"; "educational"; "engagement"; "news"].

(** ** Values written to and read from JSON files *)

Inductive PyValue : Type :=
  | PNone
  | PBool (b : bool)
  | PInt (z : Z)
  | PStr (s : string)
  | PList (items : list PyValue)
  | PDict (entries : list (string * PyValue))
  | PFrame (df : DataFrame).

(** Whether [json.dump] accepts the value: a DataFrame is not JSON
    serializable. *)
Fixpoint serializable (v : PyValue) : bool :=
  match v with
  | PFrame _ => false
  | PList items => forallb serializable items
  | PDict entries => forallb (fun kv => serializable (snd kv)) entries
  | _ => true
  end.

(** [d.get(key, dflt)] on a loaded document; only a dictionary has [get].
    Of several entries with one key the last one counts, as when a JSON
    object is loaded. *)
Fixpoint assoc_last (entries : list (string * PyValue)) (key : string)
    : option PyValue :=
  match entries with
  | [] => None
  | (k, v) :: rest =>
      match assoc_last rest key with
      | Some v' => Some v'
      | None => if String.eqb k key then Some v else None
      end
  end.

Definition value_get (data : PyValue) (key : string) (dflt : PyValue)
    : Result PyValue :=
  match data with
  | PDict entries => Ok (default dflt (assoc_last entries key))
  | _ => Raise AttributeError
  end.

(** The state of a file: a document that [json.load] parses to a value,
    text that it rejects, or what is left when [json.dump] raised after the
    file had been opened for writing. *)
Inductive FileBody : Type :=
  | Document (v : PyValue)
  | Malformed (text : string)
  | Truncated.

(** ** Time *)

Record DateTime : Type := {
  year : nat; month : nat; day : nat;
  hour : nat; minute : nat; second : nat; microsecond : nat
}.

Definition digit (n : nat) : ascii := ascii_of_nat (48 + n mod 10).

Fixpoint digits (width n : nat) : string :=
  match width with
  | 0 => ""
  | S w => digits w (n / 10) +:+ String (digit n) ""
  end.

(** [t.isoformat()]: the fraction is left out when the microsecond is 0. *)
Definition isoformat (t : DateTime) : string :=
  digits 4 (year t) +:+ "-" +:+ digits 2 (month t) +:+ "-" +:+ digits 2 (day t)
  +:+ "T" +:+ digits 2 (hour t) +:+ ":" +:+ digits 2 (minute t) +:+ ":"
  +:+ digits 2 (second t)
  +:+ (if decide (microsecond t = 0) then ""
       else "." +:+ digits 6 (microsecond t)).

(** [t.strftime("%Y%m%d_%H%M%S")] *)
Definition strftime_compact (t : DateTime) : string :=
  digits 4 (year t) +:+ digits 2 (month t) +:+ digits 2 (day t) +:+ "_"
  +:+ digits 2 (hour t) +:+ digits 2 (minute t) +:+ digits 2 (second t).

(** ** Posts *)

Record Post : Type := {
  content : string;
  keyword : string;
  template_type : string;
  timestamp : string;
  platform : string;
  character_count : nat
}.

Definition post_value (p : Post) : PyValue :=
  PDict [("content", PStr (content p)); ("keyword", PStr (keyword p));
         ("template_type", PStr (template_type p));
         ("timestamp", PStr (timestamp p)); ("platform", PStr (platform p));
         ("character_count", PInt (Z.of_nat (character_count p)))].

(** ** The world a run acts on *)

(** The lines the program prints, by the [print] call that writes them. *)
Inductive Message : Type :=
  | MsgStarting (at_time : DateTime)
  | MsgFetchingTrends
  | MsgNoKeywords
  | MsgFound (count : nat) (first_three : list string)
  | MsgAnalyzing
  | MsgFetchingRelated
  | MsgGenerating
  | MsgGenerated (count : nat)
  | MsgPost (index : nat) (post : Post)
  | MsgCompleted (at_time : DateTime)
  | MsgDataSaved (filename : string)
  | MsgErrorSavingData (e : PyError)
  | MsgErrorSavingProcessed (e : PyError)
  | MsgErrorTrending (e : PyError)
  | MsgErrorInterest (e : PyError)
  | MsgErrorRelated (e : PyError)
  | MsgErrorAutomation (e : PyError).

(** The requests sent to the trends service. *)
Inductive Request : Type :=
  | TrendingSearches
  | InterestOverTime (kw_list : list string)
  | RelatedQueriesOf (kw_list : list string).

Inductive OpenMode : Type := ForReading | ForWriting.

Inductive Event : Type :=
  | Printed (m : Message)
  | Requested (r : Request)
  | Opened (path : string) (mode : OpenMode).

(** What a call of the pytrends client comes back with: an answer, or an
    exception (network failure, rate limit, unexpected response). *)
Inductive Response (A : Type) : Type :=
  | Answer (a : A)
  | Failure (e : PyError).
Arguments Answer {A} a.
Arguments Failure {A} e.

Definition outcome {A} (r : Response A) : Result A :=
  match r with
  | Answer a => Ok a
  | Failure e => Raise e
  end.

(** The responses of the pytrends client, one per request.  [trending] is
    column 0 of the trending-searches frame, [interest_rows] the rows of the
    interest-over-time frame (a column per keyword and the column
    [isPartial]), [related] the dictionary [related_queries()] returns for
    the payload. *)
Record TrendSource : Type := {
  trending : Response (list string);
  interest_rows : list string -> Response (list (gmap string Z));
  related : list string -> Response (gmap string (gmap string Ranked))
}.

Record World : Type := {
  randoms : nat -> nat;
  randoms_used : nat;
  clock : nat -> DateTime;
  clock_reads : nat;
  source : TrendSource;
  files : gmap string FileBody;
  write_protected : gset string;
  events : list Event
}.

Definition with_randoms_used (n : nat) (w : World) : World :=
  {| randoms := randoms w; randoms_used := n; clock := clock w;
     clock_reads := clock_reads w; source := source w; files := files w;
     write_protected := write_protected w; events := events w |}.

Definition with_clock_reads (n : nat) (w : World) : World :=
  {| randoms := randoms w; randoms_used := randoms_used w; clock := clock w;
     clock_reads := n; source := source w; files := files w;
     write_protected := write_protected w; events := events w |}.

Definition with_files (fs : gmap string FileBody) (w : World) : World :=
  {| randoms := randoms w; randoms_used := randoms_used w; clock := clock w;
     clock_reads := clock_reads w; source := source w; files := fs;
     write_protected := write_protected w; events := events w |}.

Definition with_events (evs : list Event) (w : World) : World :=
  {| randoms := randoms w; randoms_used := randoms_used w; clock := clock w;
     clock_reads := clock_reads w; source := source w; files := files w;
     write_protected := write_protected w; events := evs |}.

(** ** The monad of effectful code: state passing with exceptions.  The
    world a raising computation leaves behind is kept, as the effects of
    Python code before a [raise] are. *)

Definition M (A : Type) : Type := World -> Result A * World.

Definition ret {A} (a : A) : M A := fun w => (Ok a, w).

Definition raise {A} (e : PyError) : M A := fun w => (Raise e, w).

Definition bind {A B} (m : M A) (k : A -> M B) : M B :=
  fun w =>
    match m w with
    | (Ok a, w') => k a w'
    | (Raise e, w') => (Raise e, w')
    | (Beyond c, w') => (Beyond c, w')
    end.

Definition lift {A} (r : Result A) : M A := fun w => (r, w).

Notation "'do' x <- m ; k" := (bind m (fun x => k))
  (at level 10, x name, m at level 100, k at level 200, only parsing).
Notation "'run' m ; k" := (bind m (fun _ => k))
  (at level 10, m at level 100, k at level 200, only parsing).

(** [try: body except Exception as e: handler] *)
Definition try_except {A} (body : M A) (handler : PyError -> M A) : M A :=
  fun w =>
    match body w with
    | (Raise e, w') => handler e w'
    | other => other
    end.

(** [except FileNotFoundError] *)
Definition try_except_not_found {A} (body : M A) (handler : M A) : M A :=
  fun w =>
    match body w with
    | (Raise FileNotFoundError, w') => handler w'
    | other => other
    end.

Definition emit (ev : Event) : M unit :=
  fun w => (Ok tt, with_events (events w ++ [ev]) w).

Definition print (m : Message) : M unit := emit (Printed m).

(** [datetime.now()] *)
Definition now : M DateTime :=
  fun w => (Ok (clock w (clock_reads w)), with_clock_reads (S (clock_reads w)) w).

(** ** The [random] module *)

(** [_randbelow(n)]: the next outcome of the generator, in [range(n)]. *)
Definition randbelow (n : nat) : M nat :=
  fun w =>
    (Ok (if decide (n = 0) then 0 else randoms w (randoms_used w) mod n),
     with_randoms_used (S (randoms_used w)) w).

(** [seq[i]] *)
Definition index {A} (seq : list A) (i : nat) : Result A :=
  match seq !! i with
  | Some x => Ok x
  | None => Raise IndexError
  end.

(** [random.choice(seq)] *)
Definition choice {A} (seq : list A) : M A :=
  match seq with
  | [] => raise IndexError
  | _ => do i <- randbelow (length seq); lift (index seq i)
  end.

(** The loop of [random.sample] over a copy of the population: [active] is
    [n - i], the length of the part of [pool] not selected yet. *)
Fixpoint sample_pool {A} (pool : list A) (active k : nat) : M (list A) :=
  match k with
  | 0 => ret []
  | S k' =>
      do j <- randbelow active;
      do chosen <- lift (index pool j);
      do moved <- lift (index pool (active - 1));
      do rest <- sample_pool (<[j := moved]> pool) (active - 1) k';
      ret (chosen :: rest)
  end.

(** [random.sample(population, k)].  For [k <= 5] the function selects from
    a copy of the population when it has at most 21 items; the other branch
    (rejection sampling over indices) is outside the fragment. *)
Definition sample {A} (population : list A) (k : nat) : M (list A) :=
  let n := length population in
  if negb (k <=? n)%nat then raise ValueError
  else if ((k <=? 5) && (n <=? 21))%nat then sample_pool population n k
  else lift (Beyond "random.sample over a large population").

(** ** The post composer: [SocialMediaGenerator.create_social_media_posts] *)

Section Composer.
Variable self : SocialMediaGenerator.
Variable interest_data : gmap string Z.
Variable related_queries_data : gmap string (gmap string Ranked).

(** The body of the loop, up to [posts.append(post)]. *)
Definition compose_post (kw : string) : M Post :=
  let related_queries := default ∅ (related_queries_data !! kw) in
  do context <- lift (generate_context kw interest_data related_queries);
  do template_type <- choice template_types;
  do pool <- lift (getitem (post_templates self) template_type);
  do template <- choice pool;
  do post_content <- lift (format template (post_kwargs kw context));
  do hashtags <- sample (hashtags_kenya self) 3;
  let post_content := post_content +:+ " " +:+ join " " hashtags in
  do t <- now;
  ret {| content := post_content;
         keyword := kw;
         template_type := template_type;
         timestamp := isoformat t;
         platform := "multiple";
         character_count := py_len post_content |}.

Fixpoint compose_each (keywords : list string) (posts : list Post)
    : M (list Post) :=
  match keywords with
  | [] => ret posts
  | kw :: rest =>
      do post <- compose_post kw;
      compose_each rest (posts ++ [post])
  end.

Definition create_social_media_posts (trending_keywords : list string)
    : M (list Post) :=
  compose_each (take 5 trending_keywords) [].
End Composer.

(** ** The trend source: [GoogleTrendsKenya] *)

(** One call of the pytrends client: the request is recorded and the
    response read off the world's [source]. *)
Definition request {A} (r : Request) (response : TrendSource -> Response A) : M A :=
  run emit (Requested r);
  fun w => (outcome (response (source w)), w).

Definition get_trending_searches : M (list string) :=
  try_except
    (do trending_searches <- request TrendingSearches trending;
     if negb (bool_decide (trending_searches = []))
     then ret (take 10 trending_searches)
     else ret [])
    (fun e => run print (MsgErrorTrending e); ret []).

Definition get_interest_over_time (keywords : list string) : M (gmap string Z) :=
  try_except
    (match keywords with
     | [] => ret ∅
     | _ =>
         let kw_list := take 5 keywords in
         do interest_data <-
           request (InterestOverTime kw_list) (fun s => interest_rows s kw_list);
         match last interest_data with
         | Some latest_data => ret (delete "isPartial" latest_data)
         | None => ret ∅
         end
     end)
    (fun e => run print (MsgErrorInterest e); ret ∅).

Definition get_related_queries (kw : string) : M (gmap string Ranked) :=
  try_except
    (do related_queries <-
       request (RelatedQueriesOf [kw]) (fun s => related s [kw]);
     ret (default ∅ (related_queries !! kw)))
    (fun e => run print (MsgErrorRelated e); ret ∅).

(** ** Files: [save_data], [load_previous_trends], [save_processed_trends] *)

Definition previous_trends_file : string := "previous_trends.json".

(** [open(filename, 'r')] *)
Definition open_for_reading (filename : string) : M FileBody :=
  run emit (Opened filename ForReading);
  fun w =>
    match files w !! filename with
    | Some body => (Ok body, w)
    | None => (Raise FileNotFoundError, w)
    end.

(** [open(filename, 'w')]: the file is created or emptied. *)
Definition open_for_writing (filename : string) : M unit :=
  run emit (Opened filename ForWriting);
  fun w =>
    if decide (filename ∈ write_protected w) then (Raise PermissionError, w)
    else (Ok tt, with_files (<[filename := Truncated]> (files w)) w).

(** [json.load(f)] *)
Definition json_load (body : FileBody) : Result PyValue :=
  match body with
  | Document v => Ok v
  | Malformed _ | Truncated => Raise JSONDecodeError
  end.

(** [json.dump(data, f)] into the file opened as [filename] *)
Definition json_dump (data : PyValue) (filename : string) : M unit :=
  if serializable data
  then fun w => (Ok tt, with_files (<[filename := Document data]> (files w)) w)
  else raise TypeError.

Definition data_filename (t : DateTime) : string :=
  "kenya_trends_data_" +:+ strftime_compact t +:+ ".json".

Definition save_data (data : PyValue) (filename : option string) : M unit :=
  do filename <-
    (match filename with
     | Some name => if decide (name = "") then
                      do t <- now; ret (data_filename t)
                    else ret name
     | None => do t <- now; ret (data_filename t)
     end);
  try_except
    (run open_for_writing filename;
     run json_dump data filename;
     print (MsgDataSaved filename))
    (fun e => print (MsgErrorSavingData e)).

Definition load_previous_trends (filename : string) : M PyValue :=
  try_except_not_found
    (do f <- open_for_reading filename;
     do data <- lift (json_load f);
     lift (value_get data "processed_keywords" (PList [])))
    (ret (PList [])).

Definition save_processed_trends (keywords : list string) (filename : string)
    : M unit :=
  try_except
    (do t <- now;
     let data := PDict [("processed_keywords", PList (PStr <$> keywords));
                        ("last_updated", PStr (isoformat t))] in
     run open_for_writing filename;
     json_dump data filename)
    (fun e => print (MsgErrorSavingProcessed e)).

(** ** The run: [TrendsAutomationSystem.run_automation] *)

Record TrendsAutomationSystem : Type := {
  post_generator : SocialMediaGenerator
}.

(** [TrendsAutomationSystem()] *)
Definition new_system : TrendsAutomationSystem :=
  {| post_generator := new_generator |}.

Definition row_value (r : QueryRow) : PyValue :=
  PDict [("query", PStr (query r)); ("value", PInt (value r))].

Definition ranked_value (v : Ranked) : PyValue :=
  match v with
  | NoneValue => PNone
  | FrameValue df => PFrame df
  | ListValue items => PList (row_value <$> items)
  end.

Definition dict_value {V} (f : V -> PyValue) (d : gmap string V) : PyValue :=
  PDict (map_to_list (f <$> d)).

(** The dictionary [automation_data] of step 5. *)
Definition automation_data (now_iso : string) (trending_keywords : list string)
    (interest_data : gmap string Z)
    (related_queries_data : gmap string (gmap string Ranked))
    (posts : list Post) : PyValue :=
  PDict [("timestamp", PStr now_iso);
         ("trending_keywords", PList (PStr <$> trending_keywords));
         ("interest_data", dict_value PInt interest_data);
         ("related_queries",
          dict_value (dict_value ranked_value) related_queries_data);
         ("generated_posts", PList (post_value <$> posts))].

(** Step 3: the loop over [trending_keywords[:3]]. *)
Fixpoint fetch_related (keywords : list string)
    (related_queries_data : gmap string (gmap string Ranked))
    : M (gmap string (gmap string Ranked)) :=
  match keywords with
  | [] => ret related_queries_data
  | kw :: rest =>
      do related_queries <- get_related_queries kw;
      fetch_related rest (<[kw := related_queries]> related_queries_data)
  end.

(** Step 6: the loop over [enumerate(posts, 1)]; one message stands for the
    five lines printed per post. *)
Fixpoint print_posts (posts : list Post) (i : nat) : M unit :=
  match posts with
  | [] => ret tt
  | post :: rest => run print (MsgPost i post); print_posts rest (S i)
  end.

Definition run_automation (self : TrendsAutomationSystem) : M unit :=
  do t <- now;
  run print (MsgStarting t);
  try_except
    (run print MsgFetchingTrends;
     do trending_keywords <- get_trending_searches;
     match trending_keywords with
     | [] => print MsgNoKeywords
     | _ =>
         run print (MsgFound (length trending_keywords)
                             (take 3 trending_keywords));
         run print MsgAnalyzing;
         do interest_data <- get_interest_over_time (take 5 trending_keywords);
         run print MsgFetchingRelated;
         do related_queries_data <- fetch_related (take 3 trending_keywords) ∅;
         run print MsgGenerating;
         do posts <- create_social_media_posts (post_generator self)
                       interest_data related_queries_data trending_keywords;
         do t <- now;
         run save_data (automation_data (isoformat t) trending_keywords
                          interest_data related_queries_data posts) None;
         run print (MsgGenerated (length posts));
         run print_posts posts 1;
         do t <- now;
         print (MsgCompleted t)
     end)
    (fun e => print (MsgErrorAutomation e)).

(** ** More of [str]: slices, [lower] and [in] *)

(** [s[:n]]: the first [n] code points of [s], all of [s] when it has
    fewer.  A continuation byte belongs to the code point before it. *)
Fixpoint take_chars (n : nat) (s : string) : string :=
  match s with
  | EmptyString => ""
  | String c rest =>
      if is_continuation c then String c (take_chars n rest)
      else match n with
           | 0 => ""
           | S n' => String c (take_chars n' rest)
           end
  end.

Fixpoint is_ascii (s : string) : bool :=
  match s with
  | EmptyString => true
  | String c rest => (nat_of_ascii c <? 128)%nat && is_ascii rest
  end.

Definition lower_char (c : ascii) : ascii :=
  let n := nat_of_ascii c in
  if ((65 <=? n) && (n <=? 90))%nat then ascii_of_nat (n + 32) else c.

Fixpoint ascii_lower (s : string) : string :=
  match s with
  | EmptyString => ""
  | String c rest => String (lower_char c) (ascii_lower rest)
  end.

(** [s.lower()] on ASCII text: the letters [A] to [Z] become [a] to [z].
    The case mapping of other text is outside the fragment. *)
Definition lower (s : string) : Result string :=
  if is_ascii s then Ok (ascii_lower s)
  else Beyond "str.lower on text that is not ASCII".

(** [needle in hay] on strings, as a test: [needle] is a prefix of [hay] or
    of what follows one of its characters. *)
Fixpoint is_substring (needle hay : string) : bool :=
  String.prefix needle hay ||
  match hay with
  | EmptyString => false
  | String _ rest => is_substring needle rest
  end.

(** ** The platform stubs: [SocialMediaPlatformAPI] *)

Record SocialMediaPlatformAPI : Type := {
  twitter_api_key : option string;
  facebook_token : option string;
  linkedin_token : option string
}.

(** [SocialMediaPlatformAPI()]: [os.getenv] gives [None] for a variable
    that is not set. *)
Definition new_api (environ : gmap string string) : SocialMediaPlatformAPI :=
  {| twitter_api_key := environ !! "TWITTER_API_KEY";
     facebook_token := environ !! "FACEBOOK_ACCESS_TOKEN";
     linkedin_token := environ !! "LINKEDIN_ACCESS_TOKEN" |}.

(** A stub prints one line and returns [True]: the lines it prints, and the
    value. *)
Definition Printing (A : Type) : Type := list string * A.

Definition post_to_twitter (self : SocialMediaPlatformAPI) (content : string)
    : Printing bool :=
  (["[TWITTER] Would post: " +:+ take_chars 100 content +:+ "..."], true).

Definition post_to_facebook (self : SocialMediaPlatformAPI) (content : string)
    : Printing bool :=
  (["[FACEBOOK] Would post: " +:+ take_chars 100 content +:+ "..."], true).

Definition post_to_linkedin (self : SocialMediaPlatformAPI) (content : string)
    : Printing bool :=
  (["[LINKEDIN] Would post: " +:+ take_chars 100 content +:+ "..."], true).

(** ** [config.py]: the tables of [Config] and its two class methods *)

Module Config.

Definition MAX_POSTS_GENERATE : nat := 5.
Definition MAX_HASHTAGS : nat := 5.

Definition POST_TEMPLATES : gmap string (list string) :=
  <["trending" := [
      "🔥 What's hot in Kenya: '{keyword}' is trending! {context} #TrendingKenya";
      "📈 Kenyans can't stop talking about '{keyword}' - {context} #KOT #Kenya";
      "⚡ Breaking trend: '{keyword}' is taking over Kenya! {context} #Viral";
      "🇰🇪 Trending now: '{keyword}' - here's what Kenyans are saying {context}"
    ]]>
  (<["educational" := [
      "📚 Trend explained: Why '{keyword}' is popular in Kenya {context} #Education";
      "💡 Understanding '{keyword}': {context} #LearnSomethingNew #Kenya";
      "🎓 Kenyan trend spotlight: '{keyword}' - {context} #KnowledgeIsWealth";
      "📖 Deep dive: '{keyword}' and its impact in Kenya {context}"
    ]]>
  (<["engagement" := [
      "🤔 What's your take on '{keyword}' trending in Kenya? {context} #KenyaDebate";
      "📊 Quick poll: How do you feel about '{keyword}'? {context} #KenyaOpinion";
      "💬 Let's discuss '{keyword}' - what are your thoughts, KOT? {context}";
      "🗣️ Kenya speaks: Share your opinion on '{keyword}' {context} #Discussion"
    ]]>
  (<["news" := [
      "📰 News update: '{keyword}' making headlines in Kenya {context} #KenyaNews";
      "🚨 Alert: '{keyword}' - here's what Kenyans need to know {context}";
      "📢 Update on '{keyword}': {context} #NewsUpdate #Kenya";
      "⚠️ Important: '{keyword}' trending - stay informed {context}"
    ]]> ∅))).

(** [cls.POST_TEMPLATES.get(category, cls.POST_TEMPLATES['trending'])]:
    the default is an argument of the call, so it is looked up first. *)
Definition get_template_by_category (category : string) : Result (list string) :=
  dflt ← getitem POST_TEMPLATES "trending";
  Ok (default dflt (POST_TEMPLATES !! category)).

Definition MAX_POST_LENGTH : nat := 280.

Definition KENYA_HASHTAGS : list string := [
  "#Kenya"; "#Nairobi"; "#KenyaTrends"; "#KOT";
  "#TukoTogether"; "#KenyaDaily"; "#EastAfrica";
  "#Kenyan"; "#NairobiLife"; "#KenyaNews";
  "#Mombasa"; "#Kisumu"; "#Eldoret"; "#KenyaFirst"
].

(** The dictionary [KENYAN_CONTEXTS] by its items, in the order of the
    source, which is the order [items()] yields them in. *)
Definition KENYAN_CONTEXTS : list (string * list string) := [
  ("politics", [
    "Bunge"; "Parliament"; "Senate"; "National Assembly";
    "County Government"; "Governor"; "MP"; "MCA"; "President";
    "Deputy President"; "Cabinet Secretary"; "State House"
  ]);
  ("sports", [
    "Harambee Stars"; "FKF Premier League"; "Athletics Kenya";
    "Safari Rally"; "Kenyan Premier League"; "Tusker FC";
    "Gor Mahia"; "AFC Leopards"; "Olympics"; "Marathon"
  ]);
  ("entertainment", [
    "Kenyan music"; "Gengetone"; "Benga"; "Kapuka";
    "Churchill Show"; "KTN"; "Citizen TV"; "NTV";
    "Sauti Sol"; "Nyashinski"; "Bahati"; "Diana Marua";
    "Kenyan film"; "Riverwood"; "comedy"; "concert"
  ]);
  ("business", [
    "NSE"; "Nairobi Securities Exchange"; "SMEs"; "M-Pesa";
    "Safaricom"; "Equity Bank"; "KCB"; "Co-op Bank";
    "startup"; "fintech"; "agriculture"; "manufacturing";
    "tourism"; "tea export"; "coffee"; "horticulture"
  ]);
  ("education", [
    "KCSE"; "KCPE"; "CBC"; "university"; "HELB";
    "University of Nairobi"; "Kenyatta University"; "Strathmore";
    "TVET"; "technical training"; "scholarship"; "education CS"
  ]);
  ("technology", [
    "digital transformation"; "internet"; "mobile money";
    "fiber optic"; "5G Kenya"; "tech hub"; "innovation";
    "Silicon Savannah"; "iHub"; "startup ecosystem"
  ]);
  ("health", [
    "Ministry of Health"; "COVID-19 Kenya"; "vaccination";
    "Kenyatta Hospital"; "Moi Teaching Hospital"; "healthcare";
    "medical insurance"; "NHIF"; "public health"
  ]);
  ("culture", [
    "Swahili"; "Kikuyu"; "Luo"; "Kalenjin"; "Luhya";
    "cultural festival"; "heritage"; "traditional dance";
    "Kenyan culture"; "tribal"; "unity"; "diversity"
  ])
].

Definition related_to (category : string) : string :=
  "Related to " +:+ category +:+ " in Kenya".

Definition trending_topic : string := "Trending topic in Kenya".

(** The inner loop of [get_kenyan_context]: whether one of [contexts],
    lowered, occurs in the lowered keyword. *)
Fixpoint search_contexts (keyword_lower : string) (contexts : list string)
    : Result bool :=
  match contexts with
  | [] => Ok false
  | context :: rest =>
      context_lower ← lower context;
      if is_substring context_lower keyword_lower then Ok true
      else search_contexts keyword_lower rest
  end.

(** The outer loop, over the items of the dictionary. *)
Fixpoint search_categories (keyword_lower : string)
    (items : list (string * list string)) : Result string :=
  match items with
  | [] => Ok trending_topic
  | (category, contexts) :: rest =>
      found ← search_contexts keyword_lower contexts;
      if found : bool then Ok (related_to category)
      else search_categories keyword_lower rest
  end.

Definition get_kenyan_context (keyword : string) : Result string :=
  keyword_lower ← lower keyword;
  search_categories keyword_lower KENYAN_CONTEXTS.

End Config.

(** ** Vocabulary of the statements below *)

(** [s[n:]] *)
Fixpoint drop_chars (n : nat) (s : string) : string :=
  match n, s with
  | S n', String _ rest => drop_chars n' rest
  | _, _ => s
  end.

Definition tier_phrases : list string :=
  [peak_phrase; growing_phrase; momentum_phrase].

(** The phrases the first block of [generate_context] emits: the one for
    the tier of the keyword's interest score, none without a score. *)
Definition interest_parts (kw : string) (interest_data : gmap string Z)
    : list string :=
  match interest_data !! kw with
  | Some score =>
      if decide (80 < score)%Z then [peak_phrase]
      else if decide (50 < score)%Z then [growing_phrase]
      else [momentum_phrase]
  | None => []
  end.

(** The dictionary the composer passes to the context builder for a
    keyword: [related_queries_data.get(keyword, {})]. *)
Definition related_queries_for
    (related_queries_data : gmap string (gmap string Ranked)) (kw : string)
    : gmap string Ranked :=
  default ∅ (related_queries_data !! kw).

(** [p] is a post the composer can build for [kw] from the context [ctx]:
    a template of the pool of its type, formatted, followed by three
    hashtags taken from the pool without replacement. *)
Definition composed_from (self : SocialMediaGenerator) (kw ctx : string)
    (p : Post) : Prop :=
  exists pool template body tags t,
    template_type p ∈ template_types /\
    post_templates self !! template_type p = Some pool /\
    template ∈ pool /\
    format template (post_kwargs kw ctx) = Ok body /\
    length tags = 3 /\
    tags ⊆+ hashtags_kenya self /\
    content p = body +:+ " " +:+ join " " tags /\
    keyword p = kw /\
    timestamp p = isoformat t /\
    platform p = "multiple" /\
    character_count p = py_len (content p).

Definition composed (self : SocialMediaGenerator)
    (interest_data : gmap string Z)
    (related_queries_data : gmap string (gmap string Ranked))
    (kw : string) (p : Post) : Prop :=
  exists ctx,
    generate_context kw interest_data
      (related_queries_for related_queries_data kw) = Ok ctx /\
    composed_from self kw ctx p.

(** A generator whose three pools hold plain templates only and whose
    hashtag pool [random.sample] can draw three items from.  Nothing is
    asked about which placeholders a template has. *)
Definition plain_generator (self : SocialMediaGenerator) : Prop :=
  (forall ty, ty ∈ template_types ->
     exists pool, post_templates self !! ty = Some pool /\ pool <> [] /\
       Forall (fun t => plain_template t = true) pool) /\
  3 <= length (hashtags_kenya self) <= 21.

(** The keywords a run works on: what [get_trending_searches] returns. *)
Definition fetched_keywords (src : TrendSource) : list string :=
  match trending src with
  | Answer column => take 10 column
  | Failure _ => []
  end.

(** The payloads of the related-queries requests in a list of events. *)
Definition related_requests (evs : list Event) : list (list string) :=
  omap (fun ev => match ev with
                  | Requested (RelatedQueriesOf kw_list) => Some kw_list
                  | _ => None
                  end) evs.

(** The footprint of a computation from [w] to [w']: it leaves the random
    source, the clock, the trend source and the write protection as they
    are, adds events that satisfy [P] only, and changes files at paths that
    satisfy [Q] only. *)
Definition touches (P : Event -> Prop) (Q : string -> Prop) (w w' : World)
    : Prop :=
  randoms w' = randoms w /\ clock w' = clock w /\ source w' = source w /\
  write_protected w' = write_protected w /\
  (exists evs, events w' = events w ++ evs /\ Forall P evs) /\
  (forall path, ~ Q path -> files w' !! path = files w !! path).

Definition keeps (P : Event -> Prop) (Q : string -> Prop) {A} (m : M A)
    : Prop :=
  forall w, touches P Q w (m w).2.

(** The events [get_trending_searches] adds: the request, and the error
    line when the request failed. *)
Definition trending_events (src : TrendSource) : list Event :=
  Requested TrendingSearches ::
  match trending src with
  | Answer _ => []
  | Failure e => [Printed (MsgErrorTrending e)]
  end.

(** The related queries [get_related_queries] returns for a keyword, and
    the events it adds. *)
Definition related_answer (src : TrendSource) (kw : string)
    : gmap string Ranked :=
  match related src [kw] with
  | Answer d => default ∅ (d !! kw)
  | Failure _ => ∅
  end.

Definition related_events (src : TrendSource) (kw : string) : list Event :=
  Requested (RelatedQueriesOf [kw]) ::
  match related src [kw] with
  | Answer _ => []
  | Failure e => [Printed (MsgErrorRelated e)]
  end.

(** The dictionary step 3 builds and the events it adds. *)
Definition related_data (src : TrendSource) (keywords : list string)
    (acc : gmap string (gmap string Ranked))
    : gmap string (gmap string Ranked) :=
  foldl (fun d kw => <[kw := related_answer src kw]> d) acc keywords.

(** The dictionary of related queries a run started in [w] builds in step
    3: an entry for each of the first three fetched keywords. *)
Definition run_related (w : World) : gmap string (gmap string Ranked) :=
  related_data (source w) (take 3 (fetched_keywords (source w))) ∅.



(** ** Vocabulary for [get_kenyan_context] *)

(** The test of the inner loop, for a context of ASCII text. *)
Definition context_matches (keyword_lower context : string) : bool :=
  is_substring (ascii_lower context) keyword_lower.

(** The items of a table without one context of one category. *)
Definition drop_context (category context : string)
    (items : list (string * list string)) : list (string * list string) :=
  (fun item =>
     (item.1,
      if decide (item.1 = category)
      then filter (fun x => x <> context) item.2
      else item.2)) <$> items.

(** A table all of whose contexts are ASCII text. *)
Definition ascii_table (items : list (string * list string)) : bool :=
  forallb (fun item => forallb is_ascii item.2) items.

(** ** Vocabulary for the fetchers and the files *)

(** What [get_interest_over_time] returns, and the events it adds. *)
Definition interest_answer (src : TrendSource) (keywords : list string)
    : gmap string Z :=
  match keywords with
  | [] => ∅
  | _ =>
      match interest_rows src (take 5 keywords) with
      | Answer frame =>
          match last frame with
          | Some latest_data => delete "isPartial" latest_data
          | None => ∅
          end
      | Failure _ => ∅
      end
  end.

Definition interest_events (src : TrendSource) (keywords : list string)
    : list Event :=
  match keywords with
  | [] => []
  | _ =>
      Requested (InterestOverTime (take 5 keywords)) ::
      match interest_rows src (take 5 keywords) with
      | Answer _ => []
      | Failure e => [Printed (MsgErrorInterest e)]
      end
  end.

(** The file [save_data] writes to: the name it is given, or, when it is
    given none or an empty one, the name made from the clock. *)
Definition target_path (filename : option string) (t : DateTime) : string :=
  match filename with
  | Some name => if decide (name = "") then data_filename t else name
  | None => data_filename t
  end.

Definition reads_clock (filename : option string) : bool :=
  match filename with
  | Some name => bool_decide (name = "")
  | None => true
  end.

(** A date and time [strftime] and [isoformat] print with the widths the
    model gives them. *)
Definition valid_datetime (t : DateTime) : Prop :=
  (1000 <= Z.of_nat (year t) <= 9999)%Z /\
  1 <= month t <= 12 /\ 1 <= day t <= 31 /\
  hour t < 24 /\ minute t < 60 /\ second t < 60 /\
  (Z.of_nat (microsecond t) < 1000000)%Z.

Definition same_second (t1 t2 : DateTime) : Prop :=
  year t1 = year t2 /\ month t1 = month t2 /\ day t1 = day t2 /\
  hour t1 = hour t2 /\ minute t1 = minute t2 /\ second t1 = second t2.

(** The document [save_processed_trends] writes. *)
Definition processed_document (keywords : list string) (t : DateTime)
    : PyValue :=
  PDict [("processed_keywords", PList (PStr <$> keywords));
         ("last_updated", PStr (isoformat t))].

(** ** Vocabulary for the length of a post *)

(** The code points of a template's literal text, and the number of its
    fields of a name. *)
Definition literal_length (segs : list Segment) : nat :=
  foldr (fun s n => match s with
                    | Lit text => py_len text + n
                    | Field _ => n
                    end) 0 segs.

Definition field_count (name : string) (segs : list Segment) : nat :=
  length (filter (fun s => s = Field name) segs).

(** ** Vocabulary for a whole run *)

(** The interest data a run started in [w] works with: what
    [get_interest_over_time] returns for the first five fetched keywords. *)
Definition run_interest (w : World) : gmap string Z :=
  interest_answer (source w) (take 5 (fetched_keywords (source w))).

(** The events of a run with at least one keyword, from its first line to
    the line that announces step 4. *)
Definition run_prefix (w : World) : list Event :=
  [Printed (MsgStarting (clock w (clock_reads w))); Printed MsgFetchingTrends]
  ++ trending_events (source w)
  ++ [Printed (MsgFound (length (fetched_keywords (source w)))
                        (take 3 (fetched_keywords (source w))));
      Printed MsgAnalyzing]
  ++ interest_events (source w) (take 5 (fetched_keywords (source w)))
  ++ [Printed MsgFetchingRelated]
  ++ concat (related_events (source w)
               <$> take 3 (fetched_keywords (source w)))
  ++ [Printed MsgGenerating].

(** The world the composer is called in. *)
Definition before_composer (w : World) : World :=
  with_events (events w ++ run_prefix w)
    (with_clock_reads (S (clock_reads w)) w).

(** The lines of step 6, for posts numbered from [i]. *)
Definition post_events (posts : list Post) (i : nat) : list Event :=
  imap (fun j post => Printed (MsgPost (i + j) post)) posts.

(** Related queries without a frame under any key. *)
Definition is_frame (v : Ranked) : bool :=
  match v with
  | FrameValue _ => true
  | _ => false
  end.

Definition frameless (related_queries : gmap string Ranked) : Prop :=
  map_Forall (fun _ v => is_frame v = false) related_queries.

(** The exceptions the truth test and the attribute access of
    [generate_context] raise. *)
Definition context_errors : list PyError := [ValueError; AttributeError].

(** The requests in a list of events, in their order. *)
Definition requests (evs : list Event) : list Request :=
  omap (fun ev => match ev with
                  | Requested r => Some r
                  | _ => None
                  end) evs.

(** The requests a run works through for the keywords it fetched: none
    after the first when there is no keyword, and else one for the interest
    in the first five and one for the related queries of each of the first
    three. *)
Definition run_requests (keywords : list string) : list Request :=
  TrendingSearches ::
  match keywords with
  | [] => []
  | _ =>
      InterestOverTime (take 5 keywords) ::
      ((fun kw => RelatedQueriesOf [kw]) <$> take 3 keywords)
  end.

(** ** Concrete inputs *)

Definition noon : DateTime :=
  {| year := 2025; month := 6; day := 1;
     hour := 12; minute := 0; second := 0; microsecond := 0 |}.

(** A world at the start of a process: the generator yields [i] as its
    [i]-th outcome, the clock stands at [noon], nothing has happened yet. *)
Definition world_of (src : TrendSource) (fs : gmap string FileBody) : World :=
  {| randoms := fun i => i; randoms_used := 0;
     clock := fun _ => noon; clock_reads := 0;
     source := src; files := fs; write_protected := ∅; events := [] |}.

(** The trend source has nothing to report. *)
Definition no_trends : TrendSource :=
  {| trending := Answer [];
     interest_rows := fun _ => Answer [];
     related := fun _ => Answer ∅ |}.

Definition kenya_keywords : list string :=
  ["NTSA"; "KCSE 2024"; "Harambee Stars"; "Safaricom"; "Gor Mahia"; "HELB"].

(** Six trending keywords, an interest score for the first, and related
    queries without a ranked list for whatever is asked. *)
Definition kenya_trends : TrendSource :=
  {| trending := Answer kenya_keywords;
     interest_rows := fun _ =>
       Answer [<["NTSA" := 85%Z]> (<["isPartial" := 0%Z]> ∅)];
     related := fun kw_list =>
       Answer (list_to_map
                 ((fun kw => (kw, <["top" := NoneValue]>
                                  (<["rising" := NoneValue]> ∅)))
                  <$> kw_list)) |}.

(** Related queries as pytrends returns them when the keyword has some:
    a frame under [top]. *)
Definition ntsa_frame : DataFrame :=
  Frame [{| query := "ntsa tims"; value := 100 |};
         {| query := "ntsa portal"; value := 64 |}].

Definition ntsa_queries : gmap string Ranked :=
  <["top" := FrameValue ntsa_frame]> (<["rising" := NoneValue]> ∅).

Definition ntsa_related : gmap string (gmap string Ranked) :=
  <["NTSA" := ntsa_queries]> ∅.

Definition ntsa_interest : gmap string Z := <["NTSA" := 85%Z]> ∅.

Definition scenario_keywords : list string :=
  ["NTSA"; "KCSE 2024"; "Harambee Stars"].

(** A processed-keyword log that [json.load] rejects, and one it parses. *)
Definition corrupt_log : gmap string FileBody :=
  <[previous_trends_file := Malformed "{'processed_keywords': ["]> ∅.

Definition kept_log : gmap string FileBody :=
  <[previous_trends_file :=
      Document (PDict [("processed_keywords", PList [PStr "NTSA"]);
                       ("last_updated", PStr "2025-05-31T12:00:00")])]> ∅.

(** A generator whose templates have no placeholder at all. *)
Definition bare_template : string := "Something is trending in Kenya today".

Definition bare_generator : SocialMediaGenerator :=
  {| post_templates :=
       <["trending" := [bare_template]]>
       (<["educational" := [bare_template]]>
       (<["engagement" := [bare_template]]> ∅));
     hashtags_kenya := hashtags_kenya new_generator |}.

(** The post the built-in generator composes for the keyword NTSA in
    [world_of no_trends ∅]. *)
Definition ntsa_post : Post :=
  Eval vm_compute in
    match (create_social_media_posts new_generator ntsa_interest ∅ ["NTSA"]
             (world_of no_trends ∅)).1 with
    | Ok (p :: _) => p
    | _ => {| content := ""; keyword := ""; template_type := "";
              timestamp := ""; platform := ""; character_count := 0 |}
    end.

(** The posts of a run of the built-in generator on [kenya_trends]: what
    step 3 fetches and what step 4 composes from it. *)
Definition kenya_related : gmap string (gmap string Ranked) :=
  related_data kenya_trends (take 3 kenya_keywords) ∅.

Definition kenya_posts : list Post :=
  Eval vm_compute in
    match (create_social_media_posts new_generator ntsa_interest
             kenya_related kenya_keywords (world_of kenya_trends ∅)).1 with
    | Ok posts => posts
    | _ => []
    end.

(** The post of [bare_generator] for the keyword NTSA. *)
Definition bare_post : Post :=
  {| content := bare_template +:+ " #KenyaTrends #KOT #TukoTogether";
     keyword := "NTSA";
     template_type := "trending";
     timestamp := "2025-06-01T12:00:00";
     platform := "multiple";
     character_count := 68 |}.

(** A reading of the clock 250 microseconds after [noon]. *)
Definition noon_later : DateTime :=
  {| year := 2025; month := 6; day := 1;
     hour := 12; minute := 0; second := 0; microsecond := 250 |}.

(** Three trending keywords, the first of which has related queries: the
    service answers with a frame under [top] for it. *)
Definition ntsa_trends : TrendSource :=
  {| trending := Answer scenario_keywords;
     interest_rows := fun _ =>
       Answer [<["NTSA" := 85%Z]> (<["isPartial" := 0%Z]> ∅)];
     related := fun _ => Answer ntsa_related |}.

(** The same keywords when the only ranked list the service has is the
    rising one of the first keyword. *)
Definition rising_queries : gmap string Ranked :=
  <["top" := NoneValue]> (<["rising" := FrameValue ntsa_frame]> ∅).

Definition rising_trends : TrendSource :=
  {| trending := Answer scenario_keywords;
     interest_rows := fun _ =>
       Answer [<["NTSA" := 85%Z]> (<["isPartial" := 0%Z]> ∅)];
     related := fun _ => Answer (<["NTSA" := rising_queries]> ∅) |}.

(** A world in which the output file of a run at [noon] cannot be opened
    for writing. *)
Definition read_only_world : World :=
  {| randoms := fun i => i; randoms_used := 0;
     clock := fun _ => noon; clock_reads := 0;
     source := kenya_trends; files := ∅;
     write_protected := {[data_filename noon]}; events := [] |}.

(** A generator whose templates name a field the composer has no argument
    for. *)
Definition tagged_template : string := "{keyword} is trending {hashtag}".

Definition tagged_generator : SocialMediaGenerator :=
  {| post_templates :=
       <["trending" := [tagged_template]]>
       (<["educational" := [tagged_template]]>
       (<["engagement" := [tagged_template]]> ∅));
     hashtags_kenya := hashtags_kenya new_generator |}.


(** A world whose clock moves on by one second from each reading to the
    next. *)
Definition ticking_world : World :=
  {| randoms := fun i => i; randoms_used := 0;
     clock := fun i =>
       {| year := 2025; month := 6; day := 1;
          hour := 12; minute := 0; second := i mod 60; microsecond := 0 |};
     clock_reads := 0;
     source := no_trends; files := ∅; write_protected := ∅; events := [] |}.



(** ** Tactics *)

(** Inversion of a successful run of a sequence of binds: each step
    returned a value, named [a], in a world, named [w]. *)
Ltac ok_inv H :=
  repeat match type of H with
  | bind ?m _ ?w0 = (Ok _, _) =>
      let a := fresh "a" in
      let w := fresh "w" in
      let Hstep := fresh "Hstep" in
      unfold bind at 1 in H;
      destruct (m w0) as [[a | ? | ?] w] eqn:Hstep;
      [| discriminate H | discriminate H]
  end.

(** Case analysis on membership in an explicit list, and membership of an
    explicit item. *)
Ltac list_cases H :=
  repeat match type of H with
  | _ ∈ _ :: _ => apply elem_of_cons in H as [H | H]
  | _ ∈ [] => by apply elem_of_nil in H
  end.

Ltac in_list :=
  repeat first [apply list_elem_of_here | apply list_elem_of_further].

(** * Properties *)

(** ** Results and the monad *)

Lemma rmap_rmap {A B C} (f : A -> B) (g : B -> C) (r : Result A) :
  rmap g (rmap f r) = rmap (fun a => g (f a)) r.
Proof. by destruct r. Qed.

Lemma bind_ok {A B} (m : M A) (k : A -> M B) w a w1 :
  m w = (Ok a, w1) -> bind m k w = k a w1.
Proof. unfold bind. by intros ->. Qed.

Lemma lift_ok_inv {A} (r : Result A) w a w1 :
  lift r w = (Ok a, w1) -> r = Ok a /\ w1 = w.
Proof. unfold lift. by intros [= -> ->]. Qed.

Lemma ret_ok_inv {A} (x : A) w a w1 :
  ret x w = (Ok a, w1) -> a = x /\ w1 = w.
Proof. unfold ret. by intros [= -> ->]. Qed.

(** ** Strings *)

Lemma append_cons (c : ascii) (a b : string) :
  String c a +:+ b = String c (a +:+ b).
Proof. reflexivity. Qed.

Lemma append_nil_l (a : string) : "" +:+ a = a.
Proof. reflexivity. Qed.

Lemma append_assoc (a b c : string) : (a +:+ b) +:+ c = a +:+ (b +:+ c).
Proof.
  induction a as [|x a IH]; [done |]. by rewrite !append_cons, IH.
Qed.

Lemma append_nil_r (a : string) : a +:+ "" = a.
Proof. induction a as [|x a IH]; [done |]. by rewrite append_cons, IH. Qed.

Lemma contains_refl (s : string) : contains s s.
Proof. exists "", "". by rewrite append_nil_l, append_nil_r. Qed.

Lemma contains_append_l (s t needle : string) :
  contains t needle -> contains (s +:+ t) needle.
Proof.
  intros (b & a & ->). exists (s +:+ b), a. by rewrite append_assoc.
Qed.

Lemma contains_append_r (s t needle : string) :
  contains s needle -> contains (s +:+ t) needle.
Proof.
  intros (b & a & ->). exists b, (a +:+ t). by rewrite !append_assoc.
Qed.

Lemma py_len_append (a b : string) : py_len (a +:+ b) = py_len a + py_len b.
Proof.
  induction a as [|x a IH]; [done |].
  rewrite append_cons. simpl. rewrite IH. lia.
Qed.

(** ** [str.format] on plain templates *)

Lemma prefix_drop (p s : string) :
  String.prefix p s = true -> s = p +:+ drop_chars (String.length p) s.
Proof.
  revert s. induction p as [|a p IH]; intros s; [done |].
  destruct s as [|b s]; [done |]. simpl.
  destruct (ascii_dec a b) as [-> | ne]; [| done].
  intros H. by rewrite append_cons, <- (IH s H).
Qed.

Lemma template_of_cons_lit c segs :
  template_of (cons_lit c segs) = String c (template_of segs).
Proof. by destruct segs as [|[text|name] segs]. Qed.

Lemma segments_go_skip n c rest :
  segments_go (S n) (String c rest) = segments_go n rest.
Proof. reflexivity. Qed.

Lemma segments_go_here c rest :
  segments_go 0 (String c rest)
  = if String.prefix "{keyword}" (String c rest)
    then Field "keyword" :: segments_go 8 rest
    else if String.prefix "{context}" (String c rest)
    then Field "context" :: segments_go 8 rest
    else cons_lit c (segments_go 0 rest).
Proof. reflexivity. Qed.

Lemma template_of_segments_go n t :
  template_of (segments_go n t) = drop_chars n t.
Proof.
  revert n. induction t as [|c t IH]; intros [|n]; try done.
  - rewrite segments_go_here.
    destruct (String.prefix "{keyword}" (String c t)) eqn:Ek.
    { apply prefix_drop in Ek.
      change (String c t = "{keyword}" +:+ drop_chars 8 t) in Ek.
      change (template_of (Field "keyword" :: segments_go 8 t))
        with ("{keyword}" +:+ template_of (segments_go 8 t)).
      by rewrite IH. }
    destruct (String.prefix "{context}" (String c t)) eqn:Ec.
    { apply prefix_drop in Ec.
      change (String c t = "{context}" +:+ drop_chars 8 t) in Ec.
      change (template_of (Field "context" :: segments_go 8 t))
        with ("{context}" +:+ template_of (segments_go 8 t)).
      by rewrite IH. }
    by rewrite template_of_cons_lit, IH.
  - rewrite segments_go_skip. apply IH.
Qed.

Lemma template_of_segments t : template_of (segments_of t) = t.
Proof. apply (template_of_segments_go 0). Qed.

Lemma format_go_lit kwargs text rest :
  free_of "{}" text = true ->
  format_go kwargs (text +:+ rest) None
  = rmap (String.append text) (format_go kwargs rest None).
Proof.
  induction text as [|c text IH].
  - intros _. rewrite append_nil_l. by destruct (format_go kwargs rest None).
  - intros [Hc Ht]%andb_prop. rewrite append_cons. simpl. rewrite (IH Ht).
    assert (Ascii.eqb c "{" = false) as ->.
    { apply Ascii.eqb_neq. intros ->. done. }
    assert (Ascii.eqb c "}" = false) as ->.
    { apply Ascii.eqb_neq. intros ->. done. }
    by rewrite rmap_rmap.
Qed.

Lemma format_go_keyword kw ctx rest :
  format_go (post_kwargs kw ctx) ("{keyword}" +:+ rest) None
  = rmap (String.append kw) (format_go (post_kwargs kw ctx) rest None).
Proof. reflexivity. Qed.

Lemma format_go_context kw ctx rest :
  format_go (post_kwargs kw ctx) ("{context}" +:+ rest) None
  = rmap (String.append ctx) (format_go (post_kwargs kw ctx) rest None).
Proof. reflexivity. Qed.

Lemma template_of_cons s segs :
  template_of (s :: segs) = segment_text s +:+ template_of segs.
Proof. reflexivity. Qed.

Lemma render_cons kw ctx s segs :
  render kw ctx (s :: segs)
  = match s with
    | Lit text => text
    | Field name => if decide (name = "keyword") then kw else ctx
    end +:+ render kw ctx segs.
Proof. reflexivity. Qed.

Lemma format_template_of kw ctx segs :
  forallb plain_segment segs = true ->
  format (template_of segs) (post_kwargs kw ctx) = Ok (render kw ctx segs).
Proof.
  unfold format. induction segs as [|s segs IH]; [done |].
  intros [Hs Hsegs]%andb_prop. specialize (IH Hsegs).
  rewrite template_of_cons, render_cons.
  destruct s as [text | name].
  - by rewrite (format_go_lit _ _ _ Hs), IH.
  - apply orb_prop in Hs as [->%bool_decide_eq_true | ->%bool_decide_eq_true].
    + change (segment_text (Field "keyword")) with "{keyword}".
      by rewrite format_go_keyword, IH.
    + change (segment_text (Field "context")) with "{context}".
      by rewrite format_go_context, IH.
Qed.

(** A plain template formats to its text with the placeholders filled;
    nothing is checked about which placeholders it has. *)
Lemma format_plain template kw ctx :
  plain_template template = true ->
  format template (post_kwargs kw ctx)
  = Ok (render kw ctx (segments_of template)).
Proof.
  intros H. rewrite <- (template_of_segments template) at 1.
  by apply format_template_of.
Qed.

Lemma render_contains_keyword kw ctx segs :
  Field "keyword" ∈ segs -> contains (render kw ctx segs) kw.
Proof.
  induction segs as [|s segs IH]; [by intros ?%elem_of_nil |].
  rewrite render_cons. intros [<- | Hin]%elem_of_cons.
  - apply contains_append_r, contains_refl.
  - by apply contains_append_l, IH.
Qed.

(** ** The context builder *)

Lemma interest_parts_length kw (interest_data : gmap string Z) :
  length (interest_parts kw interest_data)
  = if interest_data !! kw is Some _ then 1 else 0.
Proof.
  unfold interest_parts.
  destruct (interest_data !! kw); repeat case_decide; done.
Qed.

(** The function by the value under [top]: the related-queries block never
    appends anything, it leaves the parts as they are or raises. *)
Lemma generate_context_cases kw interest_data (rq : gmap string Ranked) :
  generate_context kw interest_data rq
  = match get_ranked rq "top" with
    | NoneValue | ListValue [] =>
        Ok (match interest_parts kw interest_data with
            | [] => fallback_context
            | parts => join " " parts
            end)
    | FrameValue _ => Raise ValueError
    | ListValue (_ :: _) => Raise AttributeError
    end.
Proof.
  unfold generate_context, interest_parts, get_ranked, getitem.
  destruct (rq !! "top") as [[|df|[|r items]]|];
    destruct (interest_data !! kw) as [score|]; try reflexivity.
  all: destruct (Z.ltb_spec 80 score), (Z.ltb_spec 50 score);
    repeat case_decide; reflexivity || lia.
Qed.

Lemma generate_context_ok_inv kw interest_data (rq : gmap string Ranked) ctx :
  generate_context kw interest_data rq = Ok ctx ->
  truth (get_ranked rq "top") = Ok false /\
  ctx ∈ tier_phrases ++ [fallback_context].
Proof.
  rewrite generate_context_cases. unfold interest_parts.
  destruct (get_ranked rq "top") as [|df|[|r items]]; try discriminate.
  all: intros [= <-]; split; [done |].
  all: unfold tier_phrases;
    destruct (interest_data !! kw); repeat case_decide; in_list.
Qed.

(** ** Random choices *)

Lemma index_lt {A} (seq : list A) i :
  i < length seq -> exists x, index seq i = Ok x /\ seq !! i = Some x.
Proof.
  intros [x Hx]%lookup_lt_is_Some. exists x. unfold index. by rewrite Hx.
Qed.

Lemma randbelow_eq n w :
  randbelow n w
  = (Ok (if decide (n = 0) then 0 else randoms w (randoms_used w) mod n),
     with_randoms_used (S (randoms_used w)) w).
Proof. reflexivity. Qed.

Lemma randbelow_lt n w : 0 < n ->
  exists j, j < n /\
    randbelow n w = (Ok j, with_randoms_used (S (randoms_used w)) w).
Proof.
  intros Hn. rewrite randbelow_eq. case_decide; [lia |].
  eexists; split; [| done]. apply Nat.mod_upper_bound. lia.
Qed.

(** [random.choice] returns the item at the index the generator yields. *)
Lemma choice_eq {A} (seq : list A) w :
  seq <> [] ->
  exists x, seq !! (randoms w (randoms_used w) mod length seq) = Some x /\
    choice seq w = (Ok x, with_randoms_used (S (randoms_used w)) w).
Proof.
  intros Hne. destruct seq as [|a seq]; [done |].
  assert (0 < length (a :: seq)) as Hlen by (simpl; lia).
  destruct (index_lt (a :: seq)
              (randoms w (randoms_used w) mod length (a :: seq)))
    as (x & Hx & Hl); [apply Nat.mod_upper_bound; lia |].
  exists x. split; [done |].
  unfold choice, bind. rewrite randbelow_eq.
  case_decide; [simpl in *; lia |]. unfold lift. by rewrite Hx.
Qed.

Lemma choice_ok_inv {A} (seq : list A) w x w' :
  choice seq w = (Ok x, w') ->
  x ∈ seq /\ w' = with_randoms_used (S (randoms_used w)) w.
Proof.
  destruct seq as [|a seq]; [discriminate |].
  destruct (choice_eq (a :: seq) w) as (y & Hy & E); [done |].
  rewrite E. intros [= <- <-]. split; [| done].
  by eapply list_elem_of_lookup_2.
Qed.

(** One step of the selection loop: the chosen item, put in front of what
    stays selectable, is a rearrangement of what was selectable. *)
Lemma sample_step_perm {A} (pool : list A) active j chosen moved :
  j < active -> active <= length pool ->
  pool !! j = Some chosen -> pool !! (active - 1) = Some moved ->
  chosen :: take (active - 1) (<[j := moved]> pool) ≡ₚ take active pool.
Proof.
  intros Hj Hact Hc Hm.
  assert (take active pool = take (active - 1) pool ++ [moved]) as ->.
  { replace active with (S (active - 1)) at 1 by lia.
    by erewrite take_S_r. }
  destruct (decide (j = active - 1)) as [-> | Hne].
  - assert (chosen = moved) as -> by congruence.
    rewrite list_insert_id by done. by rewrite Permutation_cons_append.
  - assert (j < active - 1) as Hlt by lia.
    rewrite take_insert_lt by done.
    assert (take (active - 1) pool !! j = Some chosen) as Hc'.
    { by rewrite lookup_take_lt. }
    pose proof (lookup_lt_Some _ _ _ Hc') as Hlen.
    rewrite insert_take_drop by done.
    rewrite <- (take_drop_middle _ _ _ Hc') at 3.
    rewrite <- Permutation_cons_append, <- !Permutation_middle.
    apply Permutation_swap.
Qed.

Lemma with_randoms_used_twice n m w :
  with_randoms_used n (with_randoms_used m w) = with_randoms_used n w.
Proof. reflexivity. Qed.

(** [random.sample]: on a pool with enough items the loop returns [k]
    items that form, up to order, a sublist of the selectable part, having
    used [k] outcomes of the generator. *)
Lemma sample_pool_spec {A} k : forall (pool : list A) active w,
  k <= active -> active <= length pool ->
  exists xs,
    sample_pool pool active k w
      = (Ok xs, with_randoms_used (randoms_used w + k) w) /\
    length xs = k /\ xs ⊆+ take active pool.
Proof.
  induction k as [|k IH]; intros pool active w Hk Hact.
  - exists []. simpl. unfold ret. rewrite Nat.add_0_r.
    split; [by destruct w |]. split; [done |]. apply submseteq_nil_l.
  - destruct (randbelow_lt active w) as (j & Hj & Ej); [lia |].
    destruct (index_lt pool j) as (chosen & Ec & Hc); [lia |].
    destruct (index_lt pool (active - 1)) as (moved & Em & Hm); [lia |].
    destruct (IH (<[j := moved]> pool) (active - 1)
                (with_randoms_used (S (randoms_used w)) w))
      as (rest & Er & Hlen & Hsub);
      [lia | rewrite length_insert; lia |].
    exists (chosen :: rest). split; [| split].
    + simpl. unfold bind at 1. rewrite Ej.
      unfold bind at 1, lift at 1. rewrite Ec.
      unfold bind at 1, lift at 1. rewrite Em.
      unfold bind at 1. rewrite Er. unfold ret.
      rewrite with_randoms_used_twice. simpl. do 2 f_equal. lia.
    + simpl. by rewrite Hlen.
    + rewrite <- (sample_step_perm pool active j chosen moved) by done.
      by apply submseteq_skip.
Qed.

Lemma sample_spec {A} (population : list A) k w :
  k <= 5 -> k <= length population <= 21 ->
  exists xs,
    sample population k w
      = (Ok xs, with_randoms_used (randoms_used w + k) w) /\
    length xs = k /\ xs ⊆+ population.
Proof.
  intros Hk [Hlo Hhi]. unfold sample.
  destruct (Nat.leb_spec k (length population)); [| lia].
  destruct (Nat.leb_spec k 5); [| lia].
  destruct (Nat.leb_spec (length population) 21); [| lia]. simpl.
  destruct (sample_pool_spec k population (length population) w)
    as (xs & E & Hlen & Hsub); [done.. |].
  exists xs. by rewrite firstn_all in Hsub.
Qed.

Lemma sample_ok_inv {A} (population : list A) k w xs w' :
  sample population k w = (Ok xs, w') ->
  length xs = k /\ xs ⊆+ population /\
  w' = with_randoms_used (randoms_used w + k) w.
Proof.
  intros E.
  assert (k <= 5 /\ k <= length population <= 21) as [Hk Hn].
  { revert E. unfold sample.
    destruct (Nat.leb_spec k (length population)); [| discriminate].
    destruct (Nat.leb_spec k 5); [| discriminate].
    destruct (Nat.leb_spec (length population) 21); [| discriminate].
    lia. }
  destruct (sample_spec population k w Hk Hn) as (ys & E' & Hlen & Hsub).
  rewrite E' in E. by injection E as <- <-.
Qed.

(** ** Footprints *)

Section Footprint.
Variable P : Event -> Prop.
Variable Q : string -> Prop.

Lemma touches_refl w : touches P Q w w.
Proof.
  repeat split; try done. exists []. by rewrite app_nil_r.
Qed.

Lemma touches_trans w1 w2 w3 :
  touches P Q w1 w2 -> touches P Q w2 w3 -> touches P Q w1 w3.
Proof.
  intros (Hr & Hc & Hs & Hp & (evs & He & HP) & Hf)
         (Hr' & Hc' & Hs' & Hp' & (evs' & He' & HP') & Hf').
  repeat split; try congruence.
  - exists (evs ++ evs'). split.
    + by rewrite He', He, app_assoc.
    + by apply Forall_app.
  - intros path Hq. by rewrite Hf', Hf.
Qed.

Lemma touches_randoms w n : touches P Q w (with_randoms_used n w).
Proof. apply (touches_refl w). Qed.

Lemma touches_clock w n : touches P Q w (with_clock_reads n w).
Proof. apply (touches_refl w). Qed.

Lemma touches_event w ev :
  P ev -> touches P Q w (with_events (events w ++ [ev]) w).
Proof.
  intros Hev. repeat split; try done. exists [ev]. split; [done |].
  by apply Forall_singleton.
Qed.

Lemma touches_file w path body :
  Q path -> touches P Q w (with_files (<[path := body]> (files w)) w).
Proof.
  intros Hq. repeat split; try done.
  - exists []. by rewrite app_nil_r.
  - intros path' Hq'. simpl. apply lookup_insert_ne. by intros ->.
Qed.

Lemma keeps_ret {A} (a : A) : keeps P Q (ret a).
Proof. intros w. apply touches_refl. Qed.

Lemma keeps_raise {A} e : keeps P Q (@raise A e).
Proof. intros w. apply touches_refl. Qed.

Lemma keeps_lift {A} (r : Result A) : keeps P Q (lift r).
Proof. intros w. apply touches_refl. Qed.

Lemma keeps_bind {A B} (m : M A) (k : A -> M B) :
  keeps P Q m -> (forall a, keeps P Q (k a)) -> keeps P Q (bind m k).
Proof.
  intros Hm Hk w. unfold bind. specialize (Hm w).
  destruct (m w) as [[a|e|c] w1]; simpl in *; try done.
  eapply touches_trans; [done | apply Hk].
Qed.

Lemma keeps_try_except {A} (body : M A) handler :
  keeps P Q body -> (forall e, keeps P Q (handler e)) ->
  keeps P Q (try_except body handler).
Proof.
  intros Hm Hk w. unfold try_except. specialize (Hm w).
  destruct (body w) as [[a|e|c] w1]; simpl in *; try done.
  eapply touches_trans; [done | apply Hk].
Qed.

Lemma keeps_try_except_not_found {A} (body handler : M A) :
  keeps P Q body -> keeps P Q handler ->
  keeps P Q (try_except_not_found body handler).
Proof.
  intros Hm Hk w. unfold try_except_not_found. specialize (Hm w).
  destruct (body w) as [[a|e|c] w1]; simpl in *; try done.
  destruct e; try done. eapply touches_trans; [done | apply Hk].
Qed.

Lemma keeps_now : keeps P Q now.
Proof. intros w. apply touches_clock. Qed.

Lemma keeps_randbelow n : keeps P Q (randbelow n).
Proof. intros w. apply touches_randoms. Qed.

Lemma keeps_emit ev : P ev -> keeps P Q (emit ev).
Proof. intros Hev w. by apply touches_event. Qed.

Lemma keeps_choice {A} (seq : list A) : keeps P Q (choice seq).
Proof.
  destruct seq; [apply keeps_raise |].
  apply keeps_bind; [apply keeps_randbelow | intros; apply keeps_lift].
Qed.

Lemma keeps_sample_pool {A} k : forall (pool : list A) active,
  keeps P Q (sample_pool pool active k).
Proof.
  induction k as [|k IH]; intros pool active; [apply keeps_ret |].
  simpl. apply keeps_bind; [apply keeps_randbelow | intros j].
  apply keeps_bind; [apply keeps_lift | intros chosen].
  apply keeps_bind; [apply keeps_lift | intros moved].
  apply keeps_bind; [apply IH | intros; apply keeps_ret].
Qed.

Lemma keeps_sample {A} (population : list A) k :
  keeps P Q (sample population k).
Proof.
  unfold sample. repeat case_match;
    auto using keeps_raise, keeps_lift, keeps_sample_pool.
Qed.

Lemma keeps_compose_post self interest rqd kw :
  keeps P Q (compose_post self interest rqd kw).
Proof.
  unfold compose_post.
  repeat (apply keeps_bind; [| intros ?]);
    auto using keeps_lift, keeps_choice, keeps_sample, keeps_now, keeps_ret.
Qed.

Lemma keeps_compose_each self interest rqd ks : forall posts,
  keeps P Q (compose_each self interest rqd ks posts).
Proof.
  induction ks as [|kw ks IH]; intros posts; [apply keeps_ret |].
  simpl. apply keeps_bind; [apply keeps_compose_post | intros; apply IH].
Qed.

Lemma keeps_create_social_media_posts self interest rqd ks :
  keeps P Q (create_social_media_posts self interest rqd ks).
Proof. apply keeps_compose_each. Qed.
End Footprint.

(** ** The post composer *)

Section ComposerFacts.
Variable self : SocialMediaGenerator.
Variable interest_data : gmap string Z.
Variable related_queries_data : gmap string (gmap string Ranked).

(** What a post that the loop body returns looks like. *)
Lemma compose_post_inv kw w p w' :
  compose_post self interest_data related_queries_data kw w = (Ok p, w') ->
  composed self interest_data related_queries_data kw p.
Proof.
  unfold compose_post. intros H. ok_inv H.
  apply lift_ok_inv in Hstep as [Hctx ->].
  apply choice_ok_inv in Hstep0 as [Hty ->].
  apply lift_ok_inv in Hstep1 as [Hpool ->].
  apply choice_ok_inv in Hstep2 as [Htpl ->].
  apply lift_ok_inv in Hstep3 as [Hfmt ->].
  apply sample_ok_inv in Hstep4 as (Hlen & Hsub & ->).
  unfold now in Hstep5. injection Hstep5 as <- <-.
  apply ret_ok_inv in H as [-> ->].
  exists a. split; [done |].
  unfold getitem in Hpool.
  destruct (post_templates self !! a0) as [pool|] eqn:Epool; [| done].
  injection Hpool as ->.
  eexists a1, a2, a3, a4, _. simpl. by repeat split.
Qed.

(** The loop body returns a post whenever the context builder returns a
    context and the generator is plain. *)
Lemma compose_post_total kw ctx w :
  plain_generator self ->
  generate_context kw interest_data
    (related_queries_for related_queries_data kw) = Ok ctx ->
  exists p w',
    compose_post self interest_data related_queries_data kw w = (Ok p, w').
Proof.
  intros [Hpools Htags] Hctx. unfold compose_post.
  fold (related_queries_for related_queries_data kw). rewrite Hctx.
  rewrite (bind_ok _ _ _ ctx w) by done.
  destruct (choice_eq template_types w) as (ty & Hty & E); [done |].
  rewrite (bind_ok _ _ _ _ _ E).
  destruct (Hpools ty) as (pool & Hpool & Hne & Hplain);
    [by eapply list_elem_of_lookup_2 |].
  unfold getitem. rewrite Hpool.
  set (w1 := with_randoms_used _ w).
  rewrite (bind_ok _ _ w1 pool w1) by done.
  destruct (choice_eq pool w1) as (template & Htpl & E1); [done |].
  rewrite (bind_ok _ _ _ _ _ E1).
  assert (plain_template template = true) as Hp.
  { rewrite Forall_forall in Hplain. apply Hplain.
    by eapply list_elem_of_lookup_2. }
  rewrite (format_plain _ kw ctx Hp).
  set (w2 := with_randoms_used _ w1).
  rewrite (bind_ok _ _ w2 _ w2) by done.
  destruct (sample_spec (hashtags_kenya self) 3 w2) as (tags & E2 & _);
    [lia | lia |].
  rewrite (bind_ok _ _ _ _ _ E2).
  unfold bind, ret, now. eauto.
Qed.

Lemma compose_each_inv ks : forall acc w posts w',
  compose_each self interest_data related_queries_data ks acc w
  = (Ok posts, w') ->
  exists new,
    posts = acc ++ new /\
    Forall2 (composed self interest_data related_queries_data) ks new.
Proof.
  induction ks as [|kw ks IH]; intros acc w posts w' H; simpl in H.
  - apply ret_ok_inv in H as [-> _]. exists []. by rewrite app_nil_r.
  - ok_inv H. apply compose_post_inv in Hstep.
    apply IH in H as (new & -> & Hnew).
    exists (a :: new). rewrite <- app_assoc. split; [done |].
    by constructor.
Qed.

Lemma compose_each_total ks : forall acc w,
  plain_generator self ->
  (forall kw, kw ∈ ks -> exists ctx,
     generate_context kw interest_data
       (related_queries_for related_queries_data kw) = Ok ctx) ->
  exists posts w',
    compose_each self interest_data related_queries_data ks acc w
    = (Ok posts, w').
Proof.
  induction ks as [|kw ks IH]; intros acc w Hgen Hctx; simpl.
  - unfold ret. eauto.
  - destruct (Hctx kw) as (ctx & Ec); [apply list_elem_of_here |].
    destruct (compose_post_total kw ctx w Hgen Ec) as (p & w1 & E).
    rewrite (bind_ok _ _ _ _ _ E). apply IH; [done |].
    intros kw' Hin. by apply Hctx, list_elem_of_further.
Qed.

(** Once a keyword's context cannot be built, the loop ends there: no
    list of posts is returned, whatever was composed before. *)
Lemma compose_each_stops ks : forall acc w kw,
  kw ∈ ks ->
  is_ok (generate_context kw interest_data
           (related_queries_for related_queries_data kw)) = false ->
  is_ok (compose_each self interest_data related_queries_data ks acc w).1
  = false.
Proof.
  induction ks as [|kw0 ks IH]; intros acc w kw Hin Hbad.
  - by apply elem_of_nil in Hin.
  - simpl. unfold bind at 1.
    destruct (compose_post _ _ _ kw0 w) as [[p|e|c] w1] eqn:E;
      [| done..].
    apply elem_of_cons in Hin as [<- | Hin]; [| by eapply IH].
    apply compose_post_inv in E as (ctx & Ec & _).
    fold (related_queries_for related_queries_data kw) in Hbad.
    by rewrite Ec in Hbad.
Qed.
End ComposerFacts.

(** ** The built-in tables *)

Lemma new_generator_pool ty :
  ty ∈ template_types ->
  exists pool, post_templates new_generator !! ty = Some pool /\
    pool <> [] /\
    Forall (fun t => plain_template t = true /\
                     has_placeholder "keyword" t = true /\
                     has_placeholder "context" t = true) pool.
Proof.
  unfold template_types. intros Hin. list_cases Hin; subst ty.
  all: eexists; (split; [reflexivity |]); (split; [done |]).
  all: repeat constructor.
Qed.

Lemma new_generator_plain : plain_generator new_generator.
Proof.
  split; [| simpl; lia].
  intros ty (pool & Hpool & Hne & Hall)%new_generator_pool.
  exists pool. repeat split; try done.
  eapply Forall_impl; [done |]. by intros t (? & _).
Qed.

Lemma hashtags_kenya_NoDup : NoDup (hashtags_kenya new_generator).
Proof. apply (bool_decide_unpack _). by vm_compute. Qed.

(** A post of the built-in generator contains its keyword: every built-in
    template has the keyword placeholder. *)
Lemma composed_from_contains_keyword kw ctx p :
  composed_from new_generator kw ctx p -> contains (content p) kw.
Proof.
  intros (pool & template & body & tags & t & Hty & Hpool & Htpl & Hfmt
          & _ & _ & -> & _).
  destruct (new_generator_pool _ Hty) as (pool' & Hpool' & _ & Hall).
  assert (pool' = pool) as -> by congruence.
  rewrite Forall_forall in Hall.
  destruct (Hall _ Htpl) as (Hplain & Hkw & _).
  rewrite (format_plain _ _ _ Hplain) in Hfmt. injection Hfmt as <-.
  apply contains_append_r, render_contains_keyword.
  by apply bool_decide_eq_true in Hkw.
Qed.
(** The two choices of a composition step, by the outcomes of the
    generator: the first picks the template type, the second the template
    in that type's pool. *)
Lemma compose_post_choices self interest_data rqd kw w p w' :
  compose_post self interest_data rqd kw w = (Ok p, w') ->
  template_types !! (randoms w (randoms_used w) mod length template_types)
  = Some (template_type p) /\
  exists pool template ctx body tags,
    post_templates self !! template_type p = Some pool /\
    pool !! (randoms w (S (randoms_used w)) mod length pool) = Some template /\
    format template (post_kwargs kw ctx) = Ok body /\
    content p = body +:+ " " +:+ join " " tags.
Proof.
  unfold compose_post. intros H. ok_inv H.
  apply lift_ok_inv in Hstep as [Hctx ->].
  destruct (choice_eq template_types w) as (ty & Hty & E); [done |].
  rewrite E in Hstep0. injection Hstep0 as <- <-.
  apply lift_ok_inv in Hstep1 as [Hpool ->].
  unfold getitem in Hpool.
  destruct (post_templates self !! ty) as [pool|] eqn:Epool; [| done].
  injection Hpool as <-.
  assert (pool <> []) as Hne.
  { intros ->. discriminate Hstep2. }
  destruct (choice_eq pool (with_randoms_used (S (randoms_used w)) w))
    as (template & Htpl & E1); [done |].
  rewrite E1 in Hstep2. injection Hstep2 as <- <-.
  apply lift_ok_inv in Hstep3 as [Hfmt ->].
  unfold now in Hstep5. injection Hstep5 as <- <-.
  apply ret_ok_inv in H as [-> ->]. simpl.
  split; [done |]. by exists pool, template, a, a3, a4.
Qed.

(** ** The steps of a run *)

Lemma now_eq w :
  now w = (Ok (clock w (clock_reads w)), with_clock_reads (S (clock_reads w)) w).
Proof. reflexivity. Qed.

Lemma print_eq m w :
  print m w = (Ok tt, with_events (events w ++ [Printed m]) w).
Proof. reflexivity. Qed.

Lemma bind_snd {A B} (m : M A) (k : A -> M B) w a w1 :
  m w = (Ok a, w1) -> (bind m k w).2 = (k a w1).2.
Proof. intros E. by rewrite (bind_ok _ _ _ _ _ E). Qed.

Lemma get_trending_searches_eq w :
  get_trending_searches w
  = (Ok (fetched_keywords (source w)),
     with_events (events w ++ trending_events (source w)) w).
Proof.
  unfold get_trending_searches, try_except, request, bind, emit,
    fetched_keywords, trending_events.
  simpl. destruct (trending (source w)) as [column | e]; simpl.
  - destruct column; reflexivity.
  - unfold print, emit, bind, ret. simpl. by rewrite <- app_assoc.
Qed.

Lemma get_related_queries_eq kw w :
  get_related_queries kw w
  = (Ok (related_answer (source w) kw),
     with_events (events w ++ related_events (source w) kw) w).
Proof.
  unfold get_related_queries, try_except, request, bind, emit,
    related_answer, related_events.
  simpl. destruct (related (source w) [kw]) as [d | e]; simpl.
  - reflexivity.
  - unfold print, emit, bind, ret. simpl. by rewrite <- app_assoc.
Qed.

Lemma fetch_related_eq keywords : forall acc w,
  fetch_related keywords acc w
  = (Ok (related_data (source w) keywords acc),
     with_events
       (events w ++ concat (related_events (source w) <$> keywords)) w).
Proof.
  induction keywords as [|kw ks IH]; intros acc w.
  - simpl. unfold ret. rewrite app_nil_r. by destruct w.
  - simpl. rewrite (bind_ok _ _ _ _ _ (get_related_queries_eq kw w)).
    rewrite IH. simpl. by rewrite <- app_assoc.
Qed.

Lemma related_requests_app evs evs' :
  related_requests (evs ++ evs')
  = related_requests evs ++ related_requests evs'.
Proof. apply omap_app. Qed.

Lemma related_requests_related_events src keywords :
  related_requests (concat (related_events src <$> keywords))
  = (fun kw => [kw]) <$> keywords.
Proof.
  induction keywords as [|kw ks IH]; [done |].
  rewrite fmap_cons, concat_cons, related_requests_app, IH.
  unfold related_events. by destruct (related src [kw]).
Qed.

Lemma related_data_lookup src keywords : forall acc kw,
  related_data src keywords acc !! kw
  = if decide (kw ∈ keywords) then Some (related_answer src kw)
    else acc !! kw.
Proof.
  induction keywords as [|k ks IH]; intros acc kw; simpl.
  - destruct (decide (kw ∈ [])) as [H | H]; [by apply elem_of_nil in H | done].
  - rewrite IH. destruct (decide (kw ∈ ks)) as [Hin | Hnin].
    + rewrite decide_True; [done | by apply list_elem_of_further].
    + destruct (decide (kw = k)) as [-> | Hne].
      * rewrite decide_True; [| by apply list_elem_of_here].
        by rewrite lookup_insert_eq.
      * rewrite decide_False; [by rewrite lookup_insert_ne |].
        by intros [-> | ?]%elem_of_cons.
Qed.



Section RunFootprint.
Variable P : Event -> Prop.
Variable Q : string -> Prop.
Hypothesis P_printed : forall m, P (Printed m).

Lemma keeps_print m : keeps P Q (print m).
Proof. apply keeps_emit, P_printed. Qed.

Lemma keeps_request {A} r (response : TrendSource -> Response A) :
P (Requested r) -> keeps P Q (request r response).
Proof.
intros Hr. apply keeps_bind; [by apply keeps_emit |].
intros _ w. apply touches_refl.
Qed.

Lemma keeps_get_trending_searches :
P (Requested TrendingSearches) -> keeps P Q get_trending_searches.
Proof.
intros Hr. apply keeps_try_except.
- apply keeps_bind; [by apply keeps_request |].
  intros column. case_match; apply keeps_ret.
- intros e. apply keeps_bind; [apply keeps_print |].
  intros; apply keeps_ret.
Qed.

Lemma keeps_get_interest_over_time keywords :
(forall kw_list, P (Requested (InterestOverTime kw_list))) ->
keeps P Q (get_interest_over_time keywords).
Proof.
intros Hr. apply keeps_try_except.
- destruct keywords; [apply keeps_ret |].
  apply keeps_bind; [by apply keeps_request |].
  intros frame. case_match; apply keeps_ret.
- intros e. apply keeps_bind; [apply keeps_print |].
  intros; apply keeps_ret.
Qed.

Lemma keeps_open_for_writing filename :
P (Opened filename ForWriting) -> Q filename ->
keeps P Q (open_for_writing filename).
Proof.
intros Hp Hq. apply keeps_bind; [by apply keeps_emit |].
intros _ w. simpl. case_decide; [apply touches_refl |].
by apply touches_file.
Qed.

Lemma keeps_open_for_reading filename :
P (Opened filename ForReading) -> keeps P Q (open_for_reading filename).
Proof.
intros Hp. apply keeps_bind; [by apply keeps_emit |].
intros _ w. simpl. case_match; apply touches_refl.
Qed.

Lemma keeps_json_dump data filename :
Q filename -> keeps P Q (json_dump data filename).
Proof.
intros Hq. unfold json_dump. case_match; [| apply keeps_raise].
intros w. by apply touches_file.
Qed.

Lemma keeps_save_to data filename :
P (Opened filename ForWriting) -> Q filename ->
keeps P Q
  (try_except
     (run open_for_writing filename;
      run json_dump data filename;
      print (MsgDataSaved filename))
     (fun e => print (MsgErrorSavingData e))).
Proof.
intros Hp Hq. apply keeps_try_except; [| intros; apply keeps_print].
apply keeps_bind; [by apply keeps_open_for_writing | intros _].
apply keeps_bind; [by apply keeps_json_dump | intros _].
apply keeps_print.
Qed.

Lemma keeps_save_data data :
(forall t, P (Opened (data_filename t) ForWriting)) ->
(forall t, Q (data_filename t)) ->
keeps P Q (save_data data None).
Proof.
intros Hp Hq w. unfold save_data.
set (t := clock w (clock_reads w)).
rewrite (bind_snd _ _ w (data_filename t)
           (with_clock_reads (S (clock_reads w)) w)) by done.
eapply touches_trans; [apply touches_clock |].
by apply keeps_save_to.
Qed.

Lemma keeps_print_posts posts : forall i, keeps P Q (print_posts posts i).
Proof.
induction posts as [|p posts IH]; intros i; [apply keeps_ret |].
simpl. apply keeps_bind; [apply keeps_print | intros; apply IH].
Qed.

(** What follows step 3 in a run: composing, saving and reporting. *)
Lemma keeps_run_tail self trending_keywords interest_data related_queries_data :
(forall t, P (Opened (data_filename t) ForWriting)) ->
(forall t, Q (data_filename t)) ->
keeps P Q
  (run print MsgGenerating;
   do posts <- create_social_media_posts (post_generator self)
                 interest_data related_queries_data trending_keywords;
   do t <- now;
   run save_data (automation_data (isoformat t) trending_keywords
                    interest_data related_queries_data posts) None;
   run print (MsgGenerated (length posts));
   run print_posts posts 1;
   do t <- now;
   print (MsgCompleted t)).
Proof.
intros Hp Hq.
apply keeps_bind; [apply keeps_print | intros _].
apply keeps_bind; [apply keeps_create_social_media_posts | intros posts].
apply keeps_bind; [apply keeps_now | intros t].
apply keeps_bind; [by apply keeps_save_data | intros _].
apply keeps_bind; [apply keeps_print | intros _].
apply keeps_bind; [apply keeps_print_posts | intros _].
apply keeps_bind; [apply keeps_now | intros t'].
apply keeps_print.
Qed.

Lemma keeps_get_related_queries kw :
P (Requested (RelatedQueriesOf [kw])) -> keeps P Q (get_related_queries kw).
Proof.
intros Hr. apply keeps_try_except.
- apply keeps_bind; [by apply keeps_request | intros; apply keeps_ret].
- intros e. apply keeps_bind; [apply keeps_print |].
  intros; apply keeps_ret.
Qed.

Lemma keeps_fetch_related keywords : forall acc,
(forall kw, P (Requested (RelatedQueriesOf [kw]))) ->
keeps P Q (fetch_related keywords acc).
Proof.
induction keywords as [|kw ks IH]; intros acc Hr; [apply keeps_ret |].
simpl. apply keeps_bind; [by apply keeps_get_related_queries |].
intros rq. by apply IH.
Qed.

(** A whole run adds only events in [P] and changes only files in [Q],
  when [P] holds of every request and of opening the output file for
  writing, and [Q] of the output file. *)
Lemma keeps_run_automation self :
(forall r, P (Requested r)) ->
(forall t, P (Opened (data_filename t) ForWriting)) ->
(forall t, Q (data_filename t)) ->
keeps P Q (run_automation self).
Proof.
intros Hr Hp Hq. unfold run_automation.
apply keeps_bind; [apply keeps_now | intros t].
apply keeps_bind; [apply keeps_print | intros _].
apply keeps_try_except; [| intros; apply keeps_print].
apply keeps_bind; [apply keeps_print | intros _].
apply keeps_bind; [by apply keeps_get_trending_searches | intros ks].
destruct ks as [|kw ks]; [apply keeps_print |].
apply keeps_bind; [apply keeps_print | intros _].
apply keeps_bind; [apply keeps_print | intros _].
apply keeps_bind; [by apply keeps_get_interest_over_time | intros interest].
apply keeps_bind; [apply keeps_print | intros _].
apply keeps_bind; [by apply keeps_fetch_related | intros rqd].
by apply keeps_run_tail.
Qed.
End RunFootprint.





Lemma touches_files P w w' :
  touches P (fun _ => False) w w' -> files w' = files w.
Proof.
  intros (_ & _ & _ & _ & _ & Hf). apply map_eq. intros path.
  apply Hf. tauto.
Qed.





(** ** The composer on plain generators *)

Lemma generate_context_total kw interest_data (rq : gmap string Ranked) :
  truth (get_ranked rq "top") = Ok false ->
  generate_context kw interest_data rq
  = Ok (match interest_data !! kw with
        | None => fallback_context
        | Some score =>
            if decide (80 < score)%Z then peak_phrase
            else if decide (50 < score)%Z then growing_phrase
            else momentum_phrase
        end).
Proof.
  rewrite generate_context_cases. unfold interest_parts.
  destruct (get_ranked rq "top") as [|df|[|r items]]; try discriminate.
  all: intros _; destruct (interest_data !! kw); repeat case_decide; done.
Qed.

Lemma Forall2_composed_keywords self interest_data rqd ks posts :
  Forall2 (composed self interest_data rqd) ks posts ->
  keyword <$> posts = ks.
Proof.
  induction 1 as [|kw p ks posts Hp _ IH]; [done |].
  destruct Hp as (ctx & _ & Hp).
  destruct Hp as (? & ? & ? & ? & ? & _ & _ & _ & _ & _ & _ & _ & Hkw & _).
  rewrite fmap_cons. by rewrite IH, Hkw.
Qed.

(** On a plain generator the composer returns one post per keyword of the
    first five, in their order, as long as no related-queries entry of
    theirs makes the context builder raise. *)
Lemma create_posts_plain self interest_data rqd ks w :
  plain_generator self ->
  (forall kw, kw ∈ take 5 ks ->
     truth (get_ranked (related_queries_for rqd kw) "top") = Ok false) ->
  exists posts w',
    create_social_media_posts self interest_data rqd ks w = (Ok posts, w') /\
    Forall2 (composed self interest_data rqd) (take 5 ks) posts.
Proof.
  intros Hgen Htop. unfold create_social_media_posts.
  destruct (compose_each_total self interest_data rqd (take 5 ks) [] w Hgen)
    as (posts & w' & E).
  { intros kw Hin. eexists. by apply generate_context_total, Htop. }
  exists posts, w'. split; [done |].
  by apply compose_each_inv in E as (new & -> & Hnew).
Qed.

Lemma create_posts_inv self interest_data rqd ks w posts w' :
  create_social_media_posts self interest_data rqd ks w = (Ok posts, w') ->
  Forall2 (composed self interest_data rqd) (take 5 ks) posts.
Proof.
  intros E. by apply compose_each_inv in E as (new & -> & Hnew).
Qed.

Lemma try_except_ok {A} (body : M A) handler w a w1 :
  body w = (Ok a, w1) -> try_except body handler w = (Ok a, w1).
Proof. unfold try_except. by intros ->. Qed.

(** A run whose result is known by evaluation, with the world it ends
    in. *)
Lemma run_result {A} (m : M A) w r : (m w).1 = r -> m w = (r, (m w).2).
Proof. intros <-. by destruct (m w). Qed.

(** ** Sanity checks *)

Example context_score_95 :
  generate_context "NTSA" (<["NTSA" := 95%Z]> ∅) ∅ = Ok peak_phrase.
Proof. reflexivity. Qed.

Example context_score_81 :
  generate_context "NTSA" (<["NTSA" := 81%Z]> ∅) ∅ = Ok peak_phrase.
Proof. reflexivity. Qed.

Example context_score_80 :
  generate_context "NTSA" (<["NTSA" := 80%Z]> ∅) ∅ = Ok growing_phrase.
Proof. reflexivity. Qed.

Example context_score_60 :
  generate_context "NTSA" (<["NTSA" := 60%Z]> ∅) ∅ = Ok growing_phrase.
Proof. reflexivity. Qed.

Example context_score_50 :
  generate_context "NTSA" (<["NTSA" := 50%Z]> ∅) ∅ = Ok momentum_phrase.
Proof. reflexivity. Qed.

Example context_score_10 :
  generate_context "NTSA" (<["NTSA" := 10%Z]> ∅) ∅ = Ok momentum_phrase.
Proof. reflexivity. Qed.

Example context_no_score :
  generate_context "NTSA" ∅ (<["top" := NoneValue]> ∅) = Ok fallback_context.
Proof. reflexivity. Qed.

Example context_related_list :
  generate_context "NTSA" ∅
    (<["top" := ListValue [{| query := "ntsa tims"; value := 100 |}]]> ∅)
  = Raise AttributeError.
Proof. reflexivity. Qed.

Example format_fills_placeholders :
  format "Trending: '{keyword}' - {context} #KOT" (post_kwargs "NTSA" "Now!")
  = Ok "Trending: 'NTSA' - Now! #KOT".
Proof. reflexivity. Qed.

Example format_ignores_unused_arguments :
  format bare_template (post_kwargs "NTSA" "Now!") = Ok bare_template.
Proof. reflexivity. Qed.

Example format_unknown_field :
  format "{keyword} in {county}" (post_kwargs "NTSA" "Now!")
  = Raise (KeyError "county").
Proof. reflexivity. Qed.

Example format_escaped_braces :
  format "{{{keyword}}}" (post_kwargs "NTSA" "Now!") = Ok "{NTSA}".
Proof. reflexivity. Qed.

Example format_single_brace :
  format "50% off}" (post_kwargs "NTSA" "Now!") = Raise ValueError.
Proof. reflexivity. Qed.

Example sample_three_of_ten :
  (sample (hashtags_kenya new_generator) 3 (world_of no_trends ∅)).1
  = Ok ["#Kenya"; "#Nairobi"; "#KenyaTrends"].
Proof. reflexivity. Qed.

Example py_len_counts_code_points : py_len "🇰🇪 KOT" = 6.
Proof. reflexivity. Qed.

(** ** The claims *)

(** C1 (the code diverges from the claim).  On the keywords and interest
    scores of the specification's scenario, with related queries for the
    first keyword as pytrends delivers them (a frame under [top]), the
    composer returns no list of posts at all: the truth test of the frame
    in the context builder raises [ValueError] at the first keyword, in
    every world.  The claim promises three posts here. *)
Theorem composer_raises_on_related_frame w :
  create_social_media_posts new_generator ntsa_interest ntsa_related
    scenario_keywords w
  = (Raise ValueError, w).
Proof. reflexivity. Qed.

(** C2 (the code diverges from the claim).  The context builder returns no
    string when the keyword's related queries hold a frame under [top]: it
    raises [ValueError], with a score (where the claim expects the peak
    phrase joined with the related-searches phrase) and without one, be the
    frame empty (where the claim expects the fallback string) or not. *)
Theorem context_builder_raises_on_frame :
  generate_context "NTSA" ntsa_interest ntsa_queries = Raise ValueError /\
  generate_context "NTSA" ∅ ntsa_queries = Raise ValueError /\
  generate_context "NTSA" ∅ (<["top" := FrameValue (Frame [])]> ∅)
  = Raise ValueError.
Proof. repeat split; reflexivity. Qed.

(** C3 (the code diverges from the claim).  What [load_previous_trends]
    does, by the state of the log file: a missing file gives the empty
    list; a file [json.load] rejects gives no list, the [JSONDecodeError]
    leaves the function, and nothing is printed (the only event is the
    opening of the file); a document gives its [processed_keywords].  In
    particular, on a log cut short in the middle of its list the call
    raises and prints nothing. *)
Theorem load_previous_trends_outcomes filename w :
  load_previous_trends filename w
  = (match files w !! filename with
     | None => Ok (PList [])
     | Some (Document data) =>
         value_get data "processed_keywords" (PList [])
     | Some (Malformed _) | Some Truncated => Raise JSONDecodeError
     end,
     with_events (events w ++ [Opened filename ForReading]) w) /\
  (load_previous_trends previous_trends_file
     (world_of no_trends corrupt_log)).1 = Raise JSONDecodeError /\
  events (load_previous_trends previous_trends_file
            (world_of no_trends corrupt_log)).2
  = [Opened previous_trends_file ForReading].
Proof.
  split; [| by vm_compute].
  unfold load_previous_trends, try_except_not_found, open_for_reading,
    bind, emit, lift, ret. simpl.
  destruct (files w !! filename) as [[data | text |] |]; simpl; try done.
  by destruct data.
Qed.

(** C4, as amended.  When no trending keyword was fetched, the composer, if
    called, returns the empty list; the run itself stops before it: it
    prints that no keywords were found and returns normally, having written
    no file. *)
Theorem run_without_keywords self w :
  fetched_keywords (source w) = [] ->
  (forall gen interest_data rqd w0,
     create_social_media_posts gen interest_data rqd [] w0 = (Ok [], w0)) /\
  exists w',
    run_automation self w = (Ok tt, w') /\
    files w' = files w /\
    events w'
    = events w
      ++ [Printed (MsgStarting (clock w (clock_reads w)));
          Printed MsgFetchingTrends]
      ++ trending_events (source w) ++ [Printed MsgNoKeywords].
Proof.
  intros Hks. split; [done |].
  unfold run_automation.
  rewrite (bind_ok _ _ _ _ _ (now_eq w)).
  rewrite (bind_ok _ _ _ _ _ (print_eq _ _)).
  eexists. split; [| split].
  - apply try_except_ok.
    rewrite (bind_ok _ _ _ _ _ (print_eq _ _)).
    rewrite (bind_ok _ _ _ _ _ (get_trending_searches_eq _)).
    cbn [source events with_events with_clock_reads]. rewrite Hks.
    apply print_eq.
  - reflexivity.
  - cbn [source events with_events with_clock_reads].
    by rewrite <- !app_assoc.
Qed.

Lemma run_without_keywords_witness :
  (forall gen interest_data rqd w0,
     create_social_media_posts gen interest_data rqd [] w0 = (Ok [], w0)) /\
  exists w',
    run_automation new_system (world_of no_trends ∅) = (Ok tt, w') /\
    files w' = ∅ /\
    events w'
    = [Printed (MsgStarting noon); Printed MsgFetchingTrends;
       Requested TrendingSearches; Printed MsgNoKeywords].
Proof.
  apply (run_without_keywords new_system (world_of no_trends ∅)).
  reflexivity.
Defined.

(** C4, the claim as stated fails: in a run that fetches no keyword, no
    file exists afterwards, so no output file with an empty list of posts
    was written. *)
Lemma empty_run_writes_no_file :
  fetched_keywords (source (world_of no_trends ∅)) = [] /\
  ~ exists path body,
      files (run_automation new_system (world_of no_trends ∅)).2 !! path
      = Some body.
Proof.
  split; [reflexivity |]. intros (path & body & H).
  vm_compute in H. discriminate.
Qed.

Lemma data_filename_not_the_log t : data_filename t <> previous_trends_file.
Proof. discriminate. Qed.

(** Opening an output file for writing is no opening of the log. *)
Lemma opened_output_shape t :
  (forall mode, Opened (data_filename t) ForWriting
                <> Opened previous_trends_file mode) /\
  (forall path mode, Opened (data_filename t) ForWriting = Opened path mode ->
     mode = ForWriting /\ exists t', path = data_filename t').
Proof.
  split.
  - intros mode E. injection E as E _. by destruct (data_filename_not_the_log t).
  - intros path mode E. injection E as <- <-. split; [reflexivity |].
    exists t. reflexivity.
Qed.

(** C5, as amended.  No run reads or writes the processed-keyword log: the
    file under its name is after the run what it was before, and among the
    events the run adds there is no opening of that file, neither for
    reading nor for writing.  Every file the run opens it opens for
    writing, under the name of an output file,
    [kenya_trends_data_<timestamp>.json]; and no file of another name is
    changed.  ([load_previous_trends] and [save_processed_trends] are
    defined but [run_automation] calls neither.) *)
Theorem run_never_opens_the_log self w :
  files (run_automation self w).2 !! previous_trends_file
  = files w !! previous_trends_file /\
  (exists evs,
    events (run_automation self w).2 = events w ++ evs /\
    (forall mode, Opened previous_trends_file mode ∉ evs) /\
    (forall path mode, Opened path mode ∈ evs ->
       mode = ForWriting /\ exists t, path = data_filename t)) /\
  (forall path, (forall t, path <> data_filename t) ->
     files (run_automation self w).2 !! path = files w !! path).
Proof.
  set (P := fun ev =>
    (forall mode, ev <> Opened previous_trends_file mode) /\
    (forall path mode, ev = Opened path mode ->
       mode = ForWriting /\ exists t, path = data_filename t)).
  set (Q := fun path => exists t, path = data_filename t).
  assert (forall m, P (Printed m)) as Hprinted
    by (intros m; split; intros; discriminate).
  assert (forall r, P (Requested r)) as Hrequested
    by (intros r; split; intros; discriminate).
  destruct (keeps_run_automation P Q Hprinted self Hrequested
              opened_output_shape (fun t => ex_intro _ t eq_refl) w)
    as (_ & _ & _ & _ & (evs & Hevs & Hall) & Hfiles).
  rewrite Forall_forall in Hall.
  split; [| split].
  - apply Hfiles. intros [t Ht]. by destruct (data_filename_not_the_log t).
  - exists evs. split; [done |]. split.
    + intros mode Hin. exact (proj1 (Hall _ Hin) mode eq_refl).
    + intros path mode Hin. exact (proj2 (Hall _ Hin) path mode eq_refl).
  - intros path Hpath. apply Hfiles. intros [t Ht]. by apply (Hpath t).
Qed.

(** C5, the claim as stated fails: a run that finds the log in place and
    works on six fetched keywords never opens it, and leaves it as it
    was. *)
Lemma run_ignores_the_log :
  files (world_of kenya_trends kept_log) !! previous_trends_file <> None /\
  (Opened previous_trends_file ForReading
     ∉ events (run_automation new_system (world_of kenya_trends kept_log)).2) /\
  (Opened previous_trends_file ForWriting
     ∉ events (run_automation new_system (world_of kenya_trends kept_log)).2).
Proof.
  split; [done |].
  assert (exists evs,
    events (run_automation new_system (world_of kenya_trends kept_log)).2
    = evs /\
    Forall (fun ev => forall mode, ev <> Opened previous_trends_file mode) evs)
    as (evs & -> & Hall).
  { eexists. split; [by vm_compute |]. repeat constructor; discriminate. }
  rewrite Forall_forall in Hall.
  split; intros Hin; exact (Hall _ Hin _ eq_refl).
Qed.

Lemma submseteq_NoDup {A} (l k : list A) : l ⊆+ k -> NoDup k -> NoDup l.
Proof.
  intros (l' & Hp & Hs)%submseteq_sublist_r Hk. rewrite Hp.
  by eapply sublist_NoDup.
Qed.

(** C6.  Every post the composer returns records the length of its final
    content as its character count, carries one of the four category tags,
    and ends in a space and three hashtags joined by spaces, taken from the
    generator's hashtag pool without replacement (no item of the pool is
    used twice, so the three differ); what stands before them is a template
    of the post's category, formatted for the post's keyword. *)
Theorem post_invariants ks interest_data rqd w posts w' p :
  create_social_media_posts new_generator interest_data rqd ks w
  = (Ok posts, w') ->
  p ∈ posts ->
  character_count p = py_len (content p) /\
  template_type p ∈ defined_categories /\
  exists body tags,
    content p = body +:+ " " +:+ join " " tags /\
    length tags = 3 /\
    tags ⊆+ hashtags_kenya new_generator /\
    NoDup tags /\
    exists pool template ctx,
      post_templates new_generator !! template_type p = Some pool /\
      template ∈ pool /\
      format template (post_kwargs (keyword p) ctx) = Ok body.
Proof.
  intros Hrun Hin. apply create_posts_inv in Hrun.
  apply list_elem_of_lookup in Hin as (i & Hi).
  destruct (Forall2_lookup_r _ _ _ _ _ Hrun Hi) as (kw & _ & ctx & _ & Hp).
  destruct Hp as (pool & template & body & tags & t & Hty & Hpool & Htpl
                  & Hfmt & Hlen & Hsub & Hcontent & Hkw & _ & _ & Hcount).
  split; [done |]. split.
  { unfold template_types in Hty. unfold defined_categories.
    list_cases Hty; rewrite Hty; in_list. }
  exists body, tags. repeat split; try done.
  - eapply submseteq_NoDup; [done | apply hashtags_kenya_NoDup].
  - exists pool, template, ctx. by rewrite Hkw.
Qed.

Lemma post_invariants_witness :
  character_count ntsa_post = py_len (content ntsa_post) /\
  template_type ntsa_post ∈ defined_categories /\
  exists body tags,
    content ntsa_post = body +:+ " " +:+ join " " tags /\
    length tags = 3 /\
    tags ⊆+ hashtags_kenya new_generator /\
    NoDup tags /\
    exists pool template ctx,
      post_templates new_generator !! template_type ntsa_post = Some pool /\
      template ∈ pool /\
      format template (post_kwargs (keyword ntsa_post) ctx) = Ok body.
Proof.
  apply (post_invariants ["NTSA"] ntsa_interest ∅ (world_of no_trends ∅)
           [ntsa_post]
           (create_social_media_posts new_generator ntsa_interest ∅ ["NTSA"]
              (world_of no_trends ∅)).2).
  - apply (run_result
             (create_social_media_posts new_generator ntsa_interest ∅
                ["NTSA"])
             (world_of no_trends ∅)).
    by vm_compute.
  - apply list_elem_of_here.
Defined.

(** C7, the claim as stated fails: not every one of the four categories
    can be selected.  No state of the random generator makes the choice of
    the template type come out as [news]. *)
Lemma news_is_never_chosen :
  ~ (forall category, category ∈ defined_categories ->
       exists w, (choice template_types w).1 = Ok category).
Proof.
  intros H. destruct (H "news") as (w & Hw).
  { unfold defined_categories. in_list. }
  destruct (choice template_types w) as [r w'] eqn:E. simpl in Hw. subst r.
  apply choice_ok_inv in E as [Hin _].
  unfold template_types in Hin. list_cases Hin; discriminate.
Qed.

(** C7, as amended.  At each composition step the template type is the
    item of the three-item list [trending, educational, engagement] at the
    index the generator yields for [range(3)], and the template the item of
    that type's pool at the index the generator yields next for the range
    of the pool's length.  Every type, and every template of a pool, stands
    at exactly one index: when the generator's outcomes are equally likely,
    so are the three types, and so are the templates of the chosen pool.
    [news] is not in the list and has no pool. *)
Theorem template_choice_by_index :
  (forall interest_data rqd kw w p w',
     compose_post new_generator interest_data rqd kw w = (Ok p, w') ->
     template_types !! (randoms w (randoms_used w) mod length template_types)
     = Some (template_type p) /\
     exists pool template ctx body tags,
       post_templates new_generator !! template_type p = Some pool /\
       pool !! (randoms w (S (randoms_used w)) mod length pool)
       = Some template /\
       format template (post_kwargs kw ctx) = Ok body /\
       content p = body +:+ " " +:+ join " " tags) /\
  length template_types = 3 /\
  (forall ty, ty ∈ template_types ->
     exists j, j < 3 /\ template_types !! j = Some ty /\
       forall j', template_types !! j' = Some ty -> j' = j) /\
  ("news" ∉ template_types) /\
  post_templates new_generator !! "news" = None /\
  (forall ty, ty ∈ template_types ->
     exists pool,
       post_templates new_generator !! ty = Some pool /\
       forall template, template ∈ pool ->
         exists j, j < length pool /\ pool !! j = Some template /\
           forall j', pool !! j' = Some template -> j' = j).
Proof.
  assert (forall (seq : list string) x, NoDup seq -> x ∈ seq ->
            exists j, j < length seq /\ seq !! j = Some x /\
              forall j', seq !! j' = Some x -> j' = j) as Hone.
  { intros seq x Hnd (j & Hj)%list_elem_of_lookup. exists j.
    split; [by eapply lookup_lt_Some |]. split; [done |].
    intros j' Hj'. by eapply NoDup_lookup. }
  split; [| split; [| split; [| split; [| split]]]].
  - intros interest_data rqd kw w p w'. apply compose_post_choices.
  - reflexivity.
  - intros ty Hin. apply (Hone template_types); [| done].
    apply (bool_decide_unpack _). by vm_compute.
  - unfold template_types. intros Hin. list_cases Hin; discriminate.
  - reflexivity.
  - intros ty Hin.
    assert (exists pool, post_templates new_generator !! ty = Some pool /\
              NoDup pool) as (pool & Hpool & Hnd).
    { unfold template_types in Hin. list_cases Hin; subst ty.
      all: eexists; split; [reflexivity |].
      all: apply (bool_decide_unpack _); by vm_compute. }
    exists pool. split; [done |]. intros t Ht. by apply Hone.
Qed.

Lemma template_choice_by_index_witness :
  template_types !! (0 mod length template_types)
  = Some (template_type ntsa_post) /\
  exists pool template ctx body tags,
    post_templates new_generator !! template_type ntsa_post = Some pool /\
    pool !! (1 mod length pool) = Some template /\
    format template (post_kwargs "NTSA" ctx) = Ok body /\
    content ntsa_post = body +:+ " " +:+ join " " tags.
Proof.
  apply (proj1 template_choice_by_index ntsa_interest ∅ "NTSA"
           (world_of no_trends ∅) ntsa_post
           (compose_post new_generator ntsa_interest ∅ "NTSA"
              (world_of no_trends ∅)).2).
  apply (run_result (compose_post new_generator ntsa_interest ∅ "NTSA")
           (world_of no_trends ∅)).
  by vm_compute.
Defined.

(** C8.  For every category string the template selector of [config.py]
    returns a pool, without raising; the pool is not empty; it is the
    category's own pool when the category is one of the four defined ones,
    and the [trending] pool for every other string. *)
Theorem get_template_by_category_total category :
  exists pool,
    Config.get_template_by_category category = Ok pool /\
    pool <> [] /\
    (if decide (category ∈ defined_categories)
     then Config.POST_TEMPLATES !! category = Some pool
     else Config.POST_TEMPLATES !! category = None /\
          Config.POST_TEMPLATES !! "trending" = Some pool).
Proof.
  unfold Config.get_template_by_category, defined_categories.
  destruct (decide (category ∈ _)) as [Hin | Hnin].
  - list_cases Hin; subst category.
    all: eexists; split; [reflexivity |]; split; done.
  - assert (Config.POST_TEMPLATES !! category = None) as Hnone.
    { unfold Config.POST_TEMPLATES.
      rewrite !lookup_insert_ne, lookup_empty; [done | ..];
        intros <-; apply Hnin; in_list. }
    rewrite Hnone. eexists. split; [reflexivity |]. split; done.
Qed.

(** C9, the claim as stated fails: a template with neither placeholder is
    formatted like any other, and the composer returns a post for the
    keyword it was selected for. *)
Lemma bare_template_gives_a_post :
  has_placeholder "keyword" bare_template = false /\
  has_placeholder "context" bare_template = false /\
  (create_social_media_posts bare_generator ∅ ∅ ["NTSA"]
     (world_of no_trends ∅)).1 = Ok [bare_post].
Proof. repeat split; by vm_compute. Qed.

(** C9, as amended.  The composer checks no template for its placeholders
    and rejects no item on their account.  Let the generator have plain
    templates (each of the three template types has a pool, not empty, of
    templates made of literal text without braces and of the two
    placeholders: both, one or none of them) and a hashtag pool of 3 to 21
    items, and let no keyword of the first five have a frame or a
    non-empty list under [top] of its related queries.  Then a template
    that lacks the keyword or the context placeholder is formatted without
    error, the argument it does not use being ignored: the composer returns
    one post per keyword of the first five, in their order, each made of a
    template of the pool of its type with the placeholders it has filled
    in, followed by a space and the hashtags. *)
Theorem composer_never_rejects_a_template self interest_data rqd ks w :
  plain_generator self ->
  (forall kw, kw ∈ take 5 ks ->
     truth (get_ranked (related_queries_for rqd kw) "top") = Ok false) ->
  exists posts w',
    create_social_media_posts self interest_data rqd ks w = (Ok posts, w') /\
    keyword <$> posts = take 5 ks /\
    Forall (fun p => exists pool template ctx tags,
              post_templates self !! template_type p = Some pool /\
              template ∈ pool /\
              content p = render (keyword p) ctx (segments_of template)
                          +:+ " " +:+ join " " tags) posts.
Proof.
  intros Hgen Htop.
  destruct (create_posts_plain self interest_data rqd ks w Hgen Htop)
    as (posts & w' & E & Hall).
  exists posts, w'. split; [done |]. split.
  { by eapply Forall2_composed_keywords. }
  eapply Forall2_Forall_r; [exact Hall |].
  apply Forall_forall. intros kw _ p (ctx & _ & Hp).
  destruct Hp as (pool & template & body & tags & t & Hty & Hpool & Htpl
                  & Hfmt & _ & _ & Hcontent & Hkw & _).
  exists pool, template, ctx, tags. repeat split; try done.
  destruct Hgen as [Hpools _].
  destruct (Hpools _ Hty) as (pool' & Hpool' & _ & Hplain).
  assert (pool' = pool) as -> by congruence.
  rewrite Forall_forall in Hplain.
  rewrite (format_plain _ _ _ (Hplain _ Htpl)) in Hfmt.
  injection Hfmt as <-. by rewrite Hcontent, Hkw.
Qed.

Lemma bare_generator_plain : plain_generator bare_generator.
Proof.
  split; [| simpl; lia].
  intros ty Hin. unfold template_types in Hin. list_cases Hin; subst ty.
  all: exists [bare_template]; repeat split; try done.
  all: by repeat constructor.
Qed.

Lemma composer_never_rejects_a_template_witness :
  exists posts w',
    create_social_media_posts bare_generator ∅ ∅ ["NTSA"]
      (world_of no_trends ∅) = (Ok posts, w') /\
    keyword <$> posts = take 5 ["NTSA"] /\
    Forall (fun p => exists pool template ctx tags,
              post_templates bare_generator !! template_type p = Some pool /\
              template ∈ pool /\
              content p = render (keyword p) ctx (segments_of template)
                          +:+ " " +:+ join " " tags) posts.
Proof.
  apply (composer_never_rejects_a_template bare_generator ∅ ∅ ["NTSA"]
           (world_of no_trends ∅) bare_generator_plain).
  intros kw Hin. reflexivity.
Defined.

Lemma run_related_elem w kw :
  kw ∈ take 3 (fetched_keywords (source w)) ->
  run_related w !! kw = Some (related_answer (source w) kw).
Proof.
  intros Hin. unfold run_related. rewrite related_data_lookup.
  by rewrite decide_True.
Qed.




(** ** Beyond the claims: what holds where the truth test does not raise *)

(** X1.  When no keyword of the first five has a frame or a non-empty list
    under [top] of its related queries, the composer returns exactly
    [min(5, len(keywords))] posts, in the order of the keywords, each with
    its keyword in the keyword field and as a substring of its content. *)
Theorem composer_one_post_per_keyword ks interest_data rqd w :
  (forall kw, kw ∈ take 5 ks ->
     truth (get_ranked (related_queries_for rqd kw) "top") = Ok false) ->
  exists posts w',
    create_social_media_posts new_generator interest_data rqd ks w
    = (Ok posts, w') /\
    length posts = min 5 (length ks) /\
    keyword <$> posts = take 5 ks /\
    Forall (fun p => contains (content p) (keyword p)) posts.
Proof.
  intros Htop.
  destruct (create_posts_plain new_generator interest_data rqd ks w
              new_generator_plain Htop) as (posts & w' & E & Hall).
  exists posts, w'. split; [done |].
  pose proof (Forall2_composed_keywords _ _ _ _ _ Hall) as Hkws.
  split; [| split; [done |]].
  - rewrite <- (length_fmap keyword), Hkws, length_take. lia.
  - eapply Forall2_Forall_r; [exact Hall |].
    apply Forall_forall. intros kw _ p (ctx & _ & Hp).
    assert (keyword p = kw) as ->.
    { by destruct Hp
        as (? & ? & ? & ? & ? & _ & _ & _ & _ & _ & _ & _ & -> & _). }
    by eapply composed_from_contains_keyword.
Qed.

Lemma composer_one_post_per_keyword_witness :
  exists posts w',
    create_social_media_posts new_generator ntsa_interest ∅
      scenario_keywords (world_of no_trends ∅)
    = (Ok posts, w') /\
    length posts = min 5 (length scenario_keywords) /\
    keyword <$> posts = take 5 scenario_keywords /\
    Forall (fun p => contains (content p) (keyword p)) posts.
Proof.
  apply (composer_one_post_per_keyword scenario_keywords ntsa_interest ∅
           (world_of no_trends ∅)).
  intros kw _. reflexivity.
Defined.

(** X2.  When the value under [top] is [None], missing, or an empty list,
    the context builder returns a string: the peak phrase for a score above
    80, the growing phrase for a score above 50 and at most 80, the
    momentum phrase for any other score, and the fallback string when the
    keyword has no score.  One phrase is emitted for a keyword with a score
    and none otherwise, so the join puts no space in. *)
Theorem context_tier_by_score kw interest_data (rq : gmap string Ranked) :
  truth (get_ranked rq "top") = Ok false ->
  length (interest_parts kw interest_data)
  = (if interest_data !! kw is Some _ then 1 else 0) /\
  generate_context kw interest_data rq
  = Ok (match interest_parts kw interest_data with
        | [] => fallback_context
        | parts => join " " parts
        end) /\
  generate_context kw interest_data rq
  = Ok (match interest_data !! kw with
        | None => fallback_context
        | Some score =>
            if decide (80 < score)%Z then peak_phrase
            else if decide (50 < score)%Z then growing_phrase
            else momentum_phrase
        end).
Proof.
  intros Htop. split; [| split].
  - apply interest_parts_length.
  - rewrite generate_context_cases.
    by destruct (get_ranked rq "top") as [|df|[|r items]].
  - by apply generate_context_total.
Qed.

Lemma context_tier_by_score_witness :
  length (interest_parts "NTSA" ntsa_interest) = 1 /\
  generate_context "NTSA" ntsa_interest ∅ = Ok (join " " [peak_phrase]) /\
  generate_context "NTSA" ntsa_interest ∅ = Ok peak_phrase.
Proof.
  apply (context_tier_by_score "NTSA" ntsa_interest ∅). reflexivity.
Defined.

(** X3.  The defect behind C1 and C2 in general: as soon as one keyword of
    the first five has a frame under [top] of its related queries, the
    composer returns no list of posts, for any generator and in any
    world. *)
Theorem composer_stops_at_a_frame self interest_data rqd ks w kw df :
  kw ∈ take 5 ks ->
  related_queries_for rqd kw !! "top" = Some (FrameValue df) ->
  is_ok (create_social_media_posts self interest_data rqd ks w).1 = false.
Proof.
  intros Hin Htop. unfold create_social_media_posts.
  eapply compose_each_stops; [exact Hin |].
  rewrite generate_context_cases. unfold get_ranked. by rewrite Htop.
Qed.

Lemma composer_stops_at_a_frame_witness :
  is_ok (create_social_media_posts new_generator ntsa_interest ntsa_related
           scenario_keywords (world_of no_trends ∅)).1 = false.
Proof.
  apply (composer_stops_at_a_frame new_generator ntsa_interest ntsa_related
           scenario_keywords (world_of no_trends ∅) "NTSA" ntsa_frame).
  - apply list_elem_of_here.
  - reflexivity.
Defined.
(** * More of the program: properties beyond the claims *)

(** ** Substrings and ASCII lowering *)

Lemma prefix_append (p s : string) : String.prefix p (p +:+ s) = true.
Proof.
  induction p as [|a p IH]; [by destruct s |].
  rewrite append_cons. simpl. by destruct (ascii_dec a a).
Qed.

Lemma is_substring_nil (needle : string) :
  is_substring needle "" = String.prefix needle "".
Proof. unfold is_substring. apply orb_false_r. Qed.

Lemma is_substring_cons (needle : string) c hay :
  is_substring needle (String c hay)
  = String.prefix needle (String c hay) || is_substring needle hay.
Proof. reflexivity. Qed.

(** The test [needle in hay] decides [contains]. *)
Lemma is_substring_contains (needle hay : string) :
  is_substring needle hay = true <-> contains hay needle.
Proof.
  split.
  - induction hay as [|c hay IH].
    + rewrite is_substring_nil. intros H%prefix_drop.
      exists "", (drop_chars (String.length needle) "").
      by rewrite append_nil_l.
    + rewrite is_substring_cons. intros [H%prefix_drop | H%IH]%orb_prop.
      * exists "", (drop_chars (String.length needle) (String c hay)).
        by rewrite append_nil_l.
      * destruct H as (b & a & ->). by exists (String c b), a.
  - intros (b & a & ->). induction b as [|c b IH].
    + rewrite append_nil_l.
      destruct (needle +:+ a) as [|c s] eqn:E.
      * by rewrite is_substring_nil, <- E, prefix_append.
      * by rewrite is_substring_cons, <- E, prefix_append.
    + rewrite append_cons, is_substring_cons, IH. apply orb_true_r.
Qed.

Lemma contains_trans (a b c : string) :
  contains a b -> contains b c -> contains a c.
Proof.
  intros (p & q & ->) (p' & q' & ->).
  exists (p +:+ p'), (q' +:+ q). by rewrite !append_assoc.
Qed.

Lemma ascii_lower_append (a b : string) :
  ascii_lower (a +:+ b) = ascii_lower a +:+ ascii_lower b.
Proof.
  induction a as [|c a IH]; [done |]. rewrite append_cons. simpl.
  by rewrite IH.
Qed.

Lemma contains_ascii_lower (a b : string) :
  contains a b -> contains (ascii_lower a) (ascii_lower b).
Proof.
  intros (p & q & ->). exists (ascii_lower p), (ascii_lower q).
  by rewrite !ascii_lower_append.
Qed.

Lemma is_ascii_append (a b : string) :
  is_ascii (a +:+ b) = is_ascii a && is_ascii b.
Proof.
  induction a as [|c a IH]; [done |]. rewrite append_cons. simpl.
  by rewrite IH, andb_assoc.
Qed.

Lemma lower_ascii (s : string) : is_ascii s = true -> lower s = Ok (ascii_lower s).
Proof. unfold lower. by intros ->. Qed.

(** ** The context table: [Config.get_kenyan_context] *)

Lemma context_matches_contains kl context :
  context_matches kl context = true <-> contains kl (ascii_lower context).
Proof. apply is_substring_contains. Qed.

Lemma existsb_context_matches kl contexts :
  existsb (context_matches kl) contexts = true
  <-> exists context, context ∈ contexts /\ contains kl (ascii_lower context).
Proof.
  rewrite existsb_exists. split; intros (x & Hin & H); exists x.
  - by rewrite list_elem_of_In, <- context_matches_contains.
  - by rewrite <- list_elem_of_In, context_matches_contains.
Qed.

(** The inner loop is a test for a matching context. *)
Lemma search_contexts_existsb kl contexts :
  forallb is_ascii contexts = true ->
  Config.search_contexts kl contexts
  = Ok (existsb (context_matches kl) contexts).
Proof.
  induction contexts as [|x xs IH]; [done |].
  intros [Hx Hxs]%andb_prop. cbn [Config.search_contexts existsb].
  rewrite (lower_ascii _ Hx). cbn [mbind Result_bind rbind].
  unfold context_matches at 1.
  destruct (is_substring (ascii_lower x) kl); [done |]. by apply IH.
Qed.

(** The outer loop returns the category of the first item with a matching
    context, and the default when there is none. *)
Lemma search_categories_find kl items :
  ascii_table items = true ->
  Config.search_categories kl items
  = Ok (match list_find
                (fun item => existsb (context_matches kl) item.2 = true) items
        with
        | Some (_, item) => Config.related_to item.1
        | None => Config.trending_topic
        end).
Proof.
  induction items as [|[category contexts] items IH]; [done |].
  intros [Hx Hxs]%andb_prop. cbn [Config.search_categories list_find].
  rewrite (search_contexts_existsb _ _ Hx). cbn [mbind Result_bind rbind snd].
  destruct (existsb (context_matches kl) contexts) eqn:E.
  - by rewrite decide_True.
  - rewrite decide_False by done. rewrite (IH Hxs).
    by destruct (list_find _ items) as [[i item]|].
Qed.

Lemma KENYAN_CONTEXTS_ascii : ascii_table Config.KENYAN_CONTEXTS = true.
Proof. by vm_compute. Qed.

Lemma get_kenyan_context_find keyword :
  is_ascii keyword = true ->
  Config.get_kenyan_context keyword
  = Ok (match list_find
                (fun item =>
                   existsb (context_matches (ascii_lower keyword)) item.2 = true)
                Config.KENYAN_CONTEXTS
        with
        | Some (_, item) => Config.related_to item.1
        | None => Config.trending_topic
        end).
Proof.
  intros H. unfold Config.get_kenyan_context. rewrite (lower_ascii _ H).
  cbn [mbind Result_bind rbind].
  apply search_categories_find, KENYAN_CONTEXTS_ascii.
Qed.

(** X4.  [get_kenyan_context] on an ASCII keyword: the answer names the
    first category, in the order of the table, one of whose contexts occurs
    in the keyword when letter case is ignored; no context of an earlier
    category occurs in it.  The default answer is given exactly when no
    context of the table occurs in the keyword. *)
Theorem get_kenyan_context_first_match keyword :
  is_ascii keyword = true ->
  (exists i category contexts context,
     Config.KENYAN_CONTEXTS !! i = Some (category, contexts) /\
     Config.get_kenyan_context keyword = Ok (Config.related_to category) /\
     context ∈ contexts /\
     contains (ascii_lower keyword) (ascii_lower context) /\
     forall j category' contexts' context',
       j < i -> Config.KENYAN_CONTEXTS !! j = Some (category', contexts') ->
       context' ∈ contexts' ->
       ~ contains (ascii_lower keyword) (ascii_lower context'))
  \/
  (Config.get_kenyan_context keyword = Ok Config.trending_topic /\
   forall category contexts context,
     (category, contexts) ∈ Config.KENYAN_CONTEXTS -> context ∈ contexts ->
     ~ contains (ascii_lower keyword) (ascii_lower context)).
Proof.
  intros Hascii. rewrite (get_kenyan_context_find _ Hascii).
  destruct (list_find _ Config.KENYAN_CONTEXTS) as [[i [category contexts]]|]
    eqn:E.
  - left. apply list_find_Some in E as (Hi & Hm & Hfirst).
    apply existsb_context_matches in Hm as (context & Hin & Hc).
    exists i, category, contexts, context. repeat split; try done.
    intros j category' contexts' context' Hj Hl Hin' Hc'.
    apply (Hfirst j _ Hl Hj). apply existsb_context_matches. by exists context'.
  - right. split; [done |]. apply list_find_None in E.
    rewrite Forall_forall in E.
    intros category contexts context Hitem Hin Hc.
    apply (E _ Hitem). apply existsb_context_matches. by exists context.
Qed.

Lemma get_kenyan_context_first_match_witness :
  (exists i category contexts context,
     Config.KENYAN_CONTEXTS !! i = Some (category, contexts) /\
     Config.get_kenyan_context "KCSE 2024" = Ok (Config.related_to category) /\
     context ∈ contexts /\
     contains (ascii_lower "KCSE 2024") (ascii_lower context) /\
     forall j category' contexts' context',
       j < i -> Config.KENYAN_CONTEXTS !! j = Some (category', contexts') ->
       context' ∈ contexts' ->
       ~ contains (ascii_lower "KCSE 2024") (ascii_lower context'))
  \/
  (Config.get_kenyan_context "KCSE 2024" = Ok Config.trending_topic /\
   forall category contexts context,
     (category, contexts) ∈ Config.KENYAN_CONTEXTS -> context ∈ contexts ->
     ~ contains (ascii_lower "KCSE 2024") (ascii_lower context)).
Proof. apply (get_kenyan_context_first_match "KCSE 2024"). reflexivity. Defined.

Lemma length_append (a b : string) :
  String.length (a +:+ b) = String.length a + String.length b.
Proof.
  induction a as [|c a IH]; [done |]. rewrite append_cons. simpl. by rewrite IH.
Qed.

Lemma append_inj_r (a b s : string) : a +:+ s = b +:+ s -> a = b.
Proof.
  revert b. induction a as [|x a IH]; intros [|y b] E; [done | ..].
  - apply (f_equal String.length) in E. rewrite append_nil_l in E.
    rewrite append_cons in E. simpl in E. rewrite length_append in E. lia.
  - apply (f_equal String.length) in E. rewrite append_nil_l in E.
    rewrite append_cons in E. simpl in E. rewrite length_append in E. lia.
  - rewrite !append_cons in E. injection E as -> E. by rewrite (IH _ E).
Qed.

Lemma related_to_inj c c' : Config.related_to c = Config.related_to c' -> c = c'.
Proof.
  unfold Config.related_to. intros E.
  apply (append_inj_r _ _ " in Kenya").
  change ("Related to " +:+ (c +:+ " in Kenya")
          = "Related to " +:+ (c' +:+ " in Kenya")) in E.
  rewrite !append_cons, append_nil_l in E. by simplify_eq.
Qed.

Lemma related_to_not_default c : Config.related_to c <> Config.trending_topic.
Proof. discriminate. Qed.

Lemma KENYAN_CONTEXTS_categories : NoDup (Config.KENYAN_CONTEXTS.*1).
Proof. apply (bool_decide_unpack _). by vm_compute. Qed.

Lemma is_ascii_contains (s t : string) :
  contains s t -> is_ascii s = true -> is_ascii t = true.
Proof.
  intros (b & a & ->). rewrite !is_ascii_append.
  by intros [_ [H _]%andb_prop]%andb_prop.
Qed.

(** X5.  A keyword that [get_kenyan_context] places in a category keeps a
    category when text is added around it: the longer keyword is placed in
    the same category or in one that stands earlier in the table, never in
    a later one and never in none. *)
Theorem get_kenyan_context_extension keyword keyword' i category contexts :
  is_ascii keyword' = true ->
  contains keyword' keyword ->
  Config.KENYAN_CONTEXTS !! i = Some (category, contexts) ->
  Config.get_kenyan_context keyword = Ok (Config.related_to category) ->
  exists j category' contexts',
    j <= i /\
    Config.KENYAN_CONTEXTS !! j = Some (category', contexts') /\
    Config.get_kenyan_context keyword' = Ok (Config.related_to category').
Proof.
  intros Hascii' Hsub Hi Hres.
  pose proof (is_ascii_contains _ _ Hsub Hascii') as Hascii.
  rewrite (get_kenyan_context_find _ Hascii) in Hres.
  rewrite (get_kenyan_context_find _ Hascii').
  destruct (list_find _ Config.KENYAN_CONTEXTS) as [[i0 item0]|] eqn:E;
    [| exfalso; apply (related_to_not_default category); congruence].
  assert (item0.1 = category) as Hcat by (apply related_to_inj; congruence).
  apply list_find_Some in E as (Hi0 & Hm & _).
  assert (i0 = i) as ->.
  { eapply (NoDup_lookup _ _ _ category KENYAN_CONTEXTS_categories).
    - by rewrite list_lookup_fmap, Hi0, <- Hcat.
    - by rewrite list_lookup_fmap, Hi. }
  assert (existsb (context_matches (ascii_lower keyword')) item0.2 = true)
    as Hm'.
  { apply existsb_context_matches in Hm as (context & Hin & Hc).
    apply existsb_context_matches. exists context. split; [done |].
    eapply contains_trans; [| exact Hc]. by apply contains_ascii_lower. }
  destruct (list_find
              (fun item =>
                 existsb (context_matches (ascii_lower keyword')) item.2 = true)
              Config.KENYAN_CONTEXTS) as [[j [category' contexts']]|] eqn:E'.
  - apply list_find_Some in E' as (Hj & _ & Hfirst).
    exists j, category', contexts'. split; [| done].
    destruct (decide (j <= i)) as [|Hgt]; [done |].
    exfalso. apply (Hfirst i item0 Hi0); [lia | done].
  - apply list_find_None in E'. rewrite Forall_forall in E'.
    exfalso. apply (E' item0); [by eapply list_elem_of_lookup_2 | done].
Qed.

Lemma get_kenyan_context_extension_witness :
  exists j category' contexts',
    j <= 4 /\
    Config.KENYAN_CONTEXTS !! j = Some (category', contexts') /\
    Config.get_kenyan_context "KCSE 2024 results for Olympics team"
    = Ok (Config.related_to category').
Proof.
  eapply (get_kenyan_context_extension "KCSE 2024"
            "KCSE 2024 results for Olympics team" 4 "education").
  - reflexivity.
  - exists "", " results for Olympics team". reflexivity.
  - reflexivity.
  - reflexivity.
Defined.

Lemma context_matches_shadow kl x y :
  contains (ascii_lower x) (ascii_lower y) ->
  context_matches kl y = false -> context_matches kl x = false.
Proof.
  intros Hxy Hy. destruct (context_matches kl x) eqn:Hx; [| done].
  apply context_matches_contains in Hx.
  assert (context_matches kl y = true) as Hy'.
  { apply context_matches_contains. by eapply contains_trans. }
  congruence.
Qed.

Lemma existsb_false_elem {A} (f : A -> bool) l x :
  existsb f l = false -> x ∈ l -> f x = false.
Proof.
  intros H Hin. destruct (f x) eqn:E; [| done].
  assert (existsb f l = true) as H'.
  { apply existsb_exists. exists x. by rewrite <- list_elem_of_In. }
  congruence.
Qed.

(** Every context of the table, taken as a keyword, is placed in its own
    category, but for two that contain a context of an earlier one. *)
Lemma contexts_as_keywords :
  forallb (fun item =>
    forallb (fun context =>
      match Config.get_kenyan_context context with
      | Ok answer =>
          String.eqb answer
            (Config.related_to
               (if decide (context = "Olympics") then "politics"
                else if decide (context = "startup ecosystem") then "business"
                else item.1))
      | _ => false
      end) item.2) Config.KENYAN_CONTEXTS = true.
Proof. by vm_compute. Qed.

(** X6.  Two entries of the context table never decide an answer: the
    sports context [Olympics] contains the politics context [MP], and the
    technology context [startup ecosystem] the business context [startup],
    so a keyword they occur in is placed earlier.  The table without them
    gives the same answer for every keyword.  Every other context, taken as
    a keyword, is placed in its own category. *)
Theorem kenyan_contexts_dead_entries :
  (forall keyword_lower,
     Config.search_categories keyword_lower
       (drop_context "technology" "startup ecosystem"
          (drop_context "sports" "Olympics" Config.KENYAN_CONTEXTS))
     = Config.search_categories keyword_lower Config.KENYAN_CONTEXTS) /\
  (forall category contexts context,
     (category, contexts) ∈ Config.KENYAN_CONTEXTS -> context ∈ contexts ->
     Config.get_kenyan_context context
     = Ok (Config.related_to
             (if decide (context = "Olympics") then "politics"
              else if decide (context = "startup ecosystem") then "business"
              else category))).
Proof.
  split.
  - intros kl.
    set (pruned := drop_context _ _ (drop_context _ _ _)).
    vm_compute in pruned. subst pruned. unfold Config.KENYAN_CONTEXTS.
    cbn [Config.search_categories].
    rewrite !search_contexts_existsb by (by vm_compute).
    cbn [mbind Result_bind rbind].
    match goal with
    | |- (if ?c then _ else _) = _ => destruct c eqn:Hpolitics; [done |]
    end.
    assert (context_matches kl "Olympics" = false) as Holympics.
    { apply (context_matches_shadow kl "Olympics" "MP").
      - by exists "oly", "ics".
      - eapply existsb_false_elem; [exact Hpolitics | in_list]. }
    match goal with
    | |- (if ?a then _ else _) = (if ?b then _ else _) =>
        assert (a = b) as -> by (cbn [existsb]; by rewrite Holympics)
    end.
    do 2 (match goal with
          | |- (if ?c then _ else _) = _ => destruct c; [done |]
          end).
    match goal with
    | |- (if ?c then _ else _) = _ => destruct c eqn:Hbusiness; [done |]
    end.
    assert (context_matches kl "startup ecosystem" = false) as Hstartup.
    { apply (context_matches_shadow kl "startup ecosystem" "startup").
      - by exists "", " ecosystem".
      - eapply existsb_false_elem; [exact Hbusiness | in_list]. }
    match goal with
    | |- (if ?c then _ else _) = _ => destruct c; [done |]
    end.
    match goal with
    | |- (if ?a then _ else _) = (if ?b then _ else _) =>
        assert (a = b) as -> by (cbn [existsb]; by rewrite Hstartup)
    end.
    done.
  - intros category contexts context Hitem Hin.
    pose proof contexts_as_keywords as H.
    rewrite forallb_forall in H. apply list_elem_of_In in Hitem.
    specialize (H _ Hitem). simpl in H. rewrite forallb_forall in H.
    apply list_elem_of_In in Hin. specialize (H _ Hin).
    destruct (Config.get_kenyan_context context) as [answer | |]; try done.
    by apply String.eqb_eq in H as ->.
Qed.

(** ** The template table of [Config] under [str.format] *)

Lemma render_contains_context kw ctx segs :
  Field "context" ∈ segs -> contains (render kw ctx segs) ctx.
Proof.
  induction segs as [|s segs IH]; [by intros ?%elem_of_nil |].
  rewrite render_cons. intros [<- | Hin]%elem_of_cons.
  - apply contains_append_r, contains_refl.
  - by apply contains_append_l, IH.
Qed.

(** A template with both placeholders and no other brace formats to a text
    that contains the keyword and the context. *)
Lemma format_both_placeholders template kw ctx :
  plain_template template = true ->
  has_placeholder "keyword" template = true ->
  has_placeholder "context" template = true ->
  exists body,
    format template (post_kwargs kw ctx) = Ok body /\
    contains body kw /\ contains body ctx.
Proof.
  intros Hplain Hkw%bool_decide_eq_true Hctx%bool_decide_eq_true.
  exists (render kw ctx (segments_of template)).
  split; [by apply format_plain |].
  split; [by apply render_contains_keyword | by apply render_contains_context].
Qed.

Lemma get_template_by_category_key category :
  exists key pool,
    key ∈ defined_categories /\
    Config.POST_TEMPLATES !! key = Some pool /\
    Config.get_template_by_category category = Ok pool.
Proof.
  unfold Config.get_template_by_category.
  destruct (Config.POST_TEMPLATES !! category) as [pool|] eqn:E.
  - exists category, pool. split; [| done].
    unfold Config.POST_TEMPLATES in E. unfold defined_categories.
    repeat (apply lookup_insert_Some in E as [[<- _] | [_ E]]; [in_list |]).
    by rewrite lookup_empty in E.
  - eexists "trending", _. split; [unfold defined_categories; in_list |].
    split; reflexivity.
Qed.

Lemma POST_TEMPLATES_placeholders key pool :
  key ∈ defined_categories ->
  Config.POST_TEMPLATES !! key = Some pool ->
  Forall (fun t => plain_template t = true /\
                   has_placeholder "keyword" t = true /\
                   has_placeholder "context" t = true) pool.
Proof.
  unfold defined_categories. intros Hin. list_cases Hin; subst key.
  all: intros [= <-]; repeat constructor.
Qed.

(** X7.  Whatever category is asked for, every template of the pool
    [get_template_by_category] returns can be formatted with a keyword and a
    context: [format] does not raise, and the text it gives contains both,
    for every keyword and every context. *)
Theorem config_templates_format category kw ctx :
  exists pool,
    Config.get_template_by_category category = Ok pool /\
    pool <> [] /\
    Forall (fun template =>
              exists body,
                format template (post_kwargs kw ctx) = Ok body /\
                contains body kw /\ contains body ctx) pool.
Proof.
  destruct (get_template_by_category_key category)
    as (key & pool & Hkey & Hpool & Hget).
  exists pool. split; [done |].
  pose proof (POST_TEMPLATES_placeholders _ _ Hkey Hpool) as Hall.
  split.
  { intros ->. unfold defined_categories in Hkey.
    list_cases Hkey; subst key; discriminate Hpool. }
  eapply Forall_impl; [exact Hall |].
  intros t (Hplain & Hkw & Hctx). by apply format_both_placeholders.
Qed.

(** ** The fetchers of [GoogleTrendsKenya] *)

Lemma with_events_nil w : with_events (events w ++ []) w = w.
Proof. rewrite app_nil_r. by destruct w. Qed.

Lemma get_interest_over_time_eq keywords w :
  get_interest_over_time keywords w
  = (Ok (interest_answer (source w) keywords),
     with_events (events w ++ interest_events (source w) keywords) w).
Proof.
  unfold get_interest_over_time, try_except, interest_answer, interest_events.
  destruct keywords as [|kw ks]; [by rewrite with_events_nil |].
  unfold request, bind, emit. simpl.
  destruct (interest_rows (source w) _) as [frame | e]; simpl.
  - by destruct (last frame).
  - unfold print, emit, bind, ret. simpl. by rewrite <- app_assoc.
Qed.

(** X8.  [get_trending_searches] never raises.  It sends one request and
    returns at most ten keywords, the first ten of the column the service
    answered, in its order; when the request fails it prints the error and
    returns the empty list. *)
Theorem get_trending_searches_outcomes w :
  exists keywords,
    get_trending_searches w
    = (Ok keywords,
       with_events
         (events w ++ Requested TrendingSearches ::
            match trending (source w) with
            | Answer _ => []
            | Failure e => [Printed (MsgErrorTrending e)]
            end) w) /\
    length keywords <= 10 /\
    match trending (source w) with
    | Answer column =>
        keywords = take 10 column /\ keywords `prefix_of` column
    | Failure _ => keywords = []
    end.
Proof.
  exists (fetched_keywords (source w)).
  split; [apply get_trending_searches_eq |].
  unfold fetched_keywords. destruct (trending (source w)) as [column | e].
  - split; [rewrite length_take; lia |]. split; [done |].
    exists (drop 10 column). by rewrite take_drop.
  - simpl. split; [lia | done].
Qed.

(** X9.  [get_interest_over_time] never raises.  Given no keyword it sends
    no request and returns the empty dictionary; otherwise it sends one
    request, for the first five keywords, and returns the last row of the
    answer without the key [isPartial], or the empty dictionary when the
    answer has no row or the request fails, in which case the error is
    printed.  The key [isPartial] is never in the result. *)
Theorem get_interest_over_time_outcomes keywords w :
  exists interest_data evs,
    get_interest_over_time keywords w
    = (Ok interest_data, with_events (events w ++ evs) w) /\
    interest_data !! "isPartial" = None /\
    match keywords with
    | [] => interest_data = ∅ /\ evs = []
    | _ =>
        match interest_rows (source w) (take 5 keywords) with
        | Answer frame =>
            evs = [Requested (InterestOverTime (take 5 keywords))] /\
            interest_data
            = match last frame with
              | Some latest_data => delete "isPartial" latest_data
              | None => ∅
              end
        | Failure e =>
            evs = [Requested (InterestOverTime (take 5 keywords));
                   Printed (MsgErrorInterest e)] /\
            interest_data = ∅
        end
    end.
Proof.
  exists (interest_answer (source w) keywords),
         (interest_events (source w) keywords).
  split; [apply get_interest_over_time_eq |].
  unfold interest_answer, interest_events.
  destruct keywords as [|kw ks]; [done |].
  destruct (interest_rows (source w) _) as [frame | e]; [| done].
  split; [| done]. destruct (last frame); [apply lookup_delete_eq | done].
Qed.

(** X10.  [get_related_queries] never raises.  It sends one request, for
    the keyword alone, and returns the answer's entry for the keyword, or
    the empty dictionary when the answer has no such entry or the request
    fails, in which case the error is printed. *)
Theorem get_related_queries_outcomes kw w :
  exists related_queries,
    get_related_queries kw w
    = (Ok related_queries,
       with_events
         (events w ++ Requested (RelatedQueriesOf [kw]) ::
            match related (source w) [kw] with
            | Answer _ => []
            | Failure e => [Printed (MsgErrorRelated e)]
            end) w) /\
    match related (source w) [kw] with
    | Answer answer => related_queries = default ∅ (answer !! kw)
    | Failure _ => related_queries = ∅
    end.
Proof.
  exists (related_answer (source w) kw).
  split; [apply get_related_queries_eq |].
  unfold related_answer. by destruct (related (source w) [kw]).
Qed.

(** ** Files *)

(** Writing [data] to [path]: opening, dumping and reporting, under the
    handler of [save_data]. *)
Lemma save_to_eq data path w :
  try_except
    (run open_for_writing path;
     run json_dump data path;
     print (MsgDataSaved path))
    (fun e => print (MsgErrorSavingData e)) w
  = (Ok tt,
     if decide (path ∈ write_protected w)
     then with_events
            (events w ++ [Opened path ForWriting;
                          Printed (MsgErrorSavingData PermissionError)]) w
     else if serializable data
     then with_events
            (events w ++ [Opened path ForWriting; Printed (MsgDataSaved path)])
            (with_files (<[path := Document data]> (files w)) w)
     else with_events
            (events w ++ [Opened path ForWriting;
                          Printed (MsgErrorSavingData TypeError)])
            (with_files (<[path := Truncated]> (files w)) w)).
Proof.
  unfold try_except, open_for_writing, json_dump, bind, print, emit, raise.
  simpl. case_decide; simpl.
  - by rewrite <- app_assoc.
  - destruct (serializable data); simpl.
    + unfold with_events, with_files. simpl.
      by rewrite insert_insert_eq, <- app_assoc.
    + unfold with_events, with_files. simpl. by rewrite <- app_assoc.
Qed.

Lemma save_data_eq data filename w :
  let w0 := if reads_clock filename
            then with_clock_reads (S (clock_reads w)) w else w in
  save_data data filename w
  = try_except
      (run open_for_writing (target_path filename (clock w (clock_reads w)));
       run json_dump data (target_path filename (clock w (clock_reads w)));
       print (MsgDataSaved (target_path filename (clock w (clock_reads w)))))
      (fun e => print (MsgErrorSavingData e)) w0.
Proof.
  unfold save_data, target_path, reads_clock.
  destruct filename as [name|]; [destruct (decide (name = "")) as [E | E] |].
  - rewrite bool_decide_eq_true_2 by done. reflexivity.
  - rewrite bool_decide_eq_false_2 by done. reflexivity.
  - reflexivity.
Qed.

(** X11.  [save_data] never raises.  It writes to the file it is given, or
    to one named after the clock when it is given none or an empty name,
    and touches no other file.  A file it cannot open is left as it was and
    the error is printed; data [json.dump] rejects leaves the file opened
    and unfinished, and the error is printed; otherwise the file holds the
    data and the success line is printed. *)
Theorem save_data_outcomes data filename w :
  exists w',
    save_data data filename w = (Ok tt, w') /\
    clock_reads w'
    = (if reads_clock filename then S (clock_reads w) else clock_reads w) /\
    (forall other,
       other <> target_path filename (clock w (clock_reads w)) ->
       files w' !! other = files w !! other) /\
    let path := target_path filename (clock w (clock_reads w)) in
    if decide (path ∈ write_protected w)
    then files w' = files w /\
         events w' = events w ++ [Opened path ForWriting;
                                  Printed (MsgErrorSavingData PermissionError)]
    else if serializable data
    then files w' = <[path := Document data]> (files w) /\
         events w' = events w ++ [Opened path ForWriting;
                                  Printed (MsgDataSaved path)]
    else files w' = <[path := Truncated]> (files w) /\
         events w' = events w ++ [Opened path ForWriting;
                                  Printed (MsgErrorSavingData TypeError)].
Proof.
  rewrite save_data_eq. cbv zeta. rewrite save_to_eq.
  set (path := target_path filename (clock w (clock_reads w))).
  eexists. split; [reflexivity |].
  assert (write_protected
            (if reads_clock filename
             then with_clock_reads (S (clock_reads w)) w else w)
          = write_protected w) as Hwp by (by destruct (reads_clock filename)).
  rewrite Hwp.
  destruct (decide (path ∈ write_protected w));
    [| destruct (serializable data)];
    destruct (reads_clock filename); simpl; repeat split; try done.
  all: intros other Hne; by rewrite lookup_insert_ne.
Qed.

(** ** The name of the output file *)

Lemma append_inj_length (a b c d : string) :
  String.length a = String.length b -> a +:+ c = b +:+ d -> a = b /\ c = d.
Proof.
  revert b. induction a as [|x a IH]; intros [|y b] Hlen E; try done.
  rewrite !append_cons in E. injection E as -> E. simpl in Hlen.
  destruct (IH b) as [-> ->]; [lia | done | done].
Qed.

Lemma length_digits width n : String.length (digits width n) = width.
Proof.
  revert n. induction width as [|width IH]; intros n; [done |].
  simpl. rewrite length_append, IH. simpl. lia.
Qed.

Lemma digit_inj a b : digit a = digit b -> a mod 10 = b mod 10.
Proof.
  unfold digit. intros E. apply (f_equal nat_of_ascii) in E.
  pose proof (Nat.mod_upper_bound a 10). pose proof (Nat.mod_upper_bound b 10).
  rewrite !nat_ascii_embedding in E by lia. lia.
Qed.

(** Numbers that fit the width are printed differently. *)
Lemma digits_inj width : forall a b,
  a < 10 ^ width -> b < 10 ^ width ->
  digits width a = digits width b -> a = b.
Proof.
  induction width as [|width IH]; intros a b Ha Hb E.
  - simpl in Ha, Hb. lia.
  - simpl in E. apply append_inj_length in E as [E1 E2];
      [| by rewrite !length_digits].
    injection E2 as E2%digit_inj.
    rewrite Nat.pow_succ_r' in Ha, Hb.
    assert (a / 10 = b / 10) as Hdiv.
    { apply IH; [| | done]; apply Nat.Div0.div_lt_upper_bound; lia. }
    rewrite (Nat.div_mod_eq a 10), (Nat.div_mod_eq b 10). lia.
Qed.

Lemma strftime_compact_inj t1 t2 :
  valid_datetime t1 -> valid_datetime t2 ->
  strftime_compact t1 = strftime_compact t2 -> same_second t1 t2.
Proof.
  intros (Hy1 & Hm1 & Hd1 & HH1 & HM1 & HS1 & _)
         (Hy2 & Hm2 & Hd2 & HH2 & HM2 & HS2 & _) E.
  unfold strftime_compact in E.
  apply append_inj_length in E as [Ey E]; [| by rewrite !length_digits].
  apply append_inj_length in E as [Em E]; [| by rewrite !length_digits].
  apply append_inj_length in E as [Ed E]; [| by rewrite !length_digits].
  apply append_inj_length in E as [_ E]; [| done].
  apply append_inj_length in E as [EH E]; [| by rewrite !length_digits].
  apply append_inj_length in E as [EM ES]; [| by rewrite !length_digits].
  assert (forall n, (Z.of_nat n <= 9999)%Z -> n < 10 ^ 4) as Hfour.
  { intros n Hn. apply Nat2Z.inj_lt. rewrite Nat2Z.inj_pow.
    change (Z.of_nat 10 ^ Z.of_nat 4)%Z with 10000%Z. lia. }
  assert (forall n, n < 100 -> n < 10 ^ 2) as Htwo by (intros n Hn; simpl; lia).
  repeat split.
  - apply (digits_inj 4); [apply Hfour; lia | apply Hfour; lia | done].
  - apply (digits_inj 2); [apply Htwo; lia | apply Htwo; lia | done].
  - apply (digits_inj 2); [apply Htwo; lia | apply Htwo; lia | done].
  - apply (digits_inj 2); [apply Htwo; lia | apply Htwo; lia | done].
  - apply (digits_inj 2); [apply Htwo; lia | apply Htwo; lia | done].
  - apply (digits_inj 2); [apply Htwo; lia | apply Htwo; lia | done].
Qed.

Lemma same_second_strftime t1 t2 :
  same_second t1 t2 -> strftime_compact t1 = strftime_compact t2.
Proof.
  intros (Ey & Em & Ed & EH & EM & ES). unfold strftime_compact.
  by rewrite Ey, Em, Ed, EH, EM, ES.
Qed.

Lemma data_filename_inj t1 t2 :
  data_filename t1 = data_filename t2 ->
  strftime_compact t1 = strftime_compact t2.
Proof.
  unfold data_filename. intros E.
  apply append_inj_length in E as [_ E]; [| done].
  by apply append_inj_r in E.
Qed.

(** X12.  The name [save_data] makes up for the output file tells the
    second of the clock reading and nothing more: two valid readings give
    one name exactly when they agree down to the second.  The name is 38
    characters long. *)
Theorem data_filename_by_second t1 t2 :
  valid_datetime t1 -> valid_datetime t2 ->
  (data_filename t1 = data_filename t2 <-> same_second t1 t2) /\
  String.length (data_filename t1) = 38.
Proof.
  intros H1 H2. split; [split |].
  - intros E%data_filename_inj. by apply strftime_compact_inj.
  - intros E%same_second_strftime. unfold data_filename. by rewrite E.
  - unfold data_filename, strftime_compact.
    by rewrite !length_append, !length_digits.
Qed.

Lemma valid_noon : valid_datetime noon.
Proof. unfold valid_datetime. simpl. lia. Qed.

Lemma valid_noon_later : valid_datetime noon_later.
Proof. unfold valid_datetime. simpl. lia. Qed.

Lemma data_filename_by_second_witness :
  (data_filename noon = data_filename noon_later
   <-> same_second noon noon_later) /\
  String.length (data_filename noon) = 38.
Proof.
  apply (data_filename_by_second noon noon_later valid_noon valid_noon_later).
Defined.

(** X13.  Two calls of [save_data] that make up their own file names, on
    data that [json.dump] accepts, at clock readings that are dates of
    four-digit years, and with both files free to be opened for writing:
    both calls return; when the two clock readings fall in the same second
    the second call overwrites the file of the first, whose data is lost;
    otherwise the two names differ and each call leaves a file of its
    own. *)
Theorem save_data_twice data1 data2 w :
  valid_datetime (clock w (clock_reads w)) ->
  valid_datetime (clock w (S (clock_reads w))) ->
  serializable data1 = true -> serializable data2 = true ->
  data_filename (clock w (clock_reads w)) ∉ write_protected w ->
  data_filename (clock w (S (clock_reads w))) ∉ write_protected w ->
  exists w',
    (run save_data data1 None; save_data data2 None) w = (Ok tt, w') /\
    (same_second (clock w (clock_reads w)) (clock w (S (clock_reads w))) ->
     files w'
     = <[data_filename (clock w (clock_reads w)) := Document data2]> (files w))
    /\
    (~ same_second (clock w (clock_reads w)) (clock w (S (clock_reads w))) ->
     data_filename (clock w (clock_reads w))
     <> data_filename (clock w (S (clock_reads w))) /\
     files w'
     = <[data_filename (clock w (S (clock_reads w))) := Document data2]>
         (<[data_filename (clock w (clock_reads w)) := Document data1]>
            (files w))).
Proof.
  intros Hv1 Hv2 Hs1 Hs2 Hp1 Hp2.
  set (t1 := clock w (clock_reads w)) in *.
  set (t2 := clock w (S (clock_reads w))) in *.
  assert (save_data data1 None w
          = (Ok tt,
             with_events
               (events w ++ [Opened (data_filename t1) ForWriting;
                             Printed (MsgDataSaved (data_filename t1))])
               (with_files (<[data_filename t1 := Document data1]> (files w))
                  (with_clock_reads (S (clock_reads w)) w)))) as E1.
  { rewrite save_data_eq. cbv zeta. rewrite save_to_eq.
    cbn [reads_clock target_path write_protected with_clock_reads files
         events].
    fold t1. rewrite decide_False by exact Hp1. by rewrite Hs1. }
  rewrite (bind_ok _ _ _ _ _ E1).
  rewrite save_data_eq. cbv zeta. rewrite save_to_eq.
  cbn [reads_clock target_path write_protected with_clock_reads with_events
       with_files files events clock clock_reads].
  fold t2. rewrite decide_False by exact Hp2. rewrite Hs2.
  eexists. split; [reflexivity |].
  cbn [files with_events with_files with_clock_reads]. split.
  - intros Hsame. apply same_second_strftime in Hsame.
    assert (data_filename t2 = data_filename t1) as ->
      by (unfold data_filename; by rewrite Hsame).
    apply insert_insert_eq.
  - intros Hdiff. split; [| done].
    intros E%data_filename_inj. by apply Hdiff, strftime_compact_inj.
Qed.

Lemma save_data_twice_witness :
  (exists w',
     (run save_data (PStr "first") None; save_data (PStr "second") None)
       (world_of no_trends ∅) = (Ok tt, w') /\
     (same_second noon noon ->
      files w' = <[data_filename noon := Document (PStr "second")]> ∅) /\
     (~ same_second noon noon ->
      data_filename noon <> data_filename noon /\
      files w'
      = <[data_filename noon := Document (PStr "second")]>
          (<[data_filename noon := Document (PStr "first")]> ∅))) /\
  (exists w',
     (run save_data (PStr "first") None; save_data (PStr "second") None)
       ticking_world = (Ok tt, w') /\
     (same_second (clock ticking_world 0) (clock ticking_world 1) ->
      files w'
      = <[data_filename (clock ticking_world 0) :=
            Document (PStr "second")]> ∅) /\
     (~ same_second (clock ticking_world 0) (clock ticking_world 1) ->
      data_filename (clock ticking_world 0)
      <> data_filename (clock ticking_world 1) /\
      files w'
      = <[data_filename (clock ticking_world 1) := Document (PStr "second")]>
          (<[data_filename (clock ticking_world 0) :=
               Document (PStr "first")]> ∅))).
Proof.
  split.
  - apply (save_data_twice (PStr "first") (PStr "second")
             (world_of no_trends ∅) valid_noon valid_noon eq_refl eq_refl).
    + by vm_compute.
    + by vm_compute.
  - apply (save_data_twice (PStr "first") (PStr "second") ticking_world).
    + unfold valid_datetime. cbn. lia.
    + unfold valid_datetime. cbn. lia.
    + reflexivity.
    + reflexivity.
    + by vm_compute.
    + by vm_compute.
Defined.

(** ** The processed-keyword log *)

Lemma serializable_strings (items : list string) :
  forallb serializable (PStr <$> items) = true.
Proof. induction items as [|x xs IH]; [done | exact IH]. Qed.

Lemma save_processed_trends_eq keywords filename w :
  save_processed_trends keywords filename w
  = (Ok tt,
     let w0 := with_clock_reads (S (clock_reads w)) w in
     if decide (filename ∈ write_protected w)
     then with_events
            (events w ++ [Opened filename ForWriting;
                          Printed (MsgErrorSavingProcessed PermissionError)])
            w0
     else with_events (events w ++ [Opened filename ForWriting])
            (with_files
               (<[filename :=
                    Document (processed_document keywords
                                (clock w (clock_reads w)))]> (files w)) w0)).
Proof.
  unfold save_processed_trends, try_except, open_for_writing, json_dump,
    bind, now, print, emit, raise, processed_document.
  cbn [write_protected with_clock_reads with_events events files].
  case_decide.
  - cbn [with_events events]. by rewrite <- app_assoc.
  - assert (serializable
              (PDict [("processed_keywords", PList (PStr <$> keywords));
                      ("last_updated",
                       PStr (isoformat (clock w (clock_reads w))))]) = true)
      as ->.
    { cbn [serializable forallb snd]. by rewrite serializable_strings. }
    unfold with_events, with_files. simpl. by rewrite insert_insert_eq.
Qed.

(** X14.  What [save_processed_trends] writes, [load_previous_trends] reads
    back: after a save to a file that can be written, whatever the file
    held before, a load from it returns the saved keywords, in their order,
    and leaves the file as it is.  The save overwrites: nothing of an
    earlier log is kept. *)
Theorem processed_trends_round_trip keywords filename w :
  filename ∉ write_protected w ->
  exists w1 w2,
    save_processed_trends keywords filename w = (Ok tt, w1) /\
    files w1
    = <[filename := Document (processed_document keywords
                                (clock w (clock_reads w)))]> (files w) /\
    load_previous_trends filename w1
    = (Ok (PList (PStr <$> keywords)), w2) /\
    files w2 = files w1.
Proof.
  intros Hfree. rewrite save_processed_trends_eq. cbv zeta.
  rewrite decide_False by exact Hfree.
  eexists _, _. split; [reflexivity |]. split; [reflexivity |].
  unfold load_previous_trends, try_except_not_found, open_for_reading,
    bind, emit, lift.
  cbn [files with_events with_files with_clock_reads].
  rewrite lookup_insert_eq. split; reflexivity.
Qed.

Lemma processed_trends_round_trip_witness :
  exists w1 w2,
    save_processed_trends ["NTSA"; "HELB"] previous_trends_file
      (world_of no_trends corrupt_log) = (Ok tt, w1) /\
    files w1
    = <[previous_trends_file :=
          Document (processed_document ["NTSA"; "HELB"] noon)]> corrupt_log /\
    load_previous_trends previous_trends_file w1
    = (Ok (PList (PStr <$> ["NTSA"; "HELB"])), w2) /\
    files w2 = files w1.
Proof.
  apply (processed_trends_round_trip ["NTSA"; "HELB"] previous_trends_file
           (world_of no_trends corrupt_log)).
  by vm_compute.
Defined.

(** X15.  [save_processed_trends] never raises, and reads the clock once.
    When the file cannot be opened for writing it prints the error and
    leaves every file as it was; otherwise it changes the one file, which
    then holds the keywords and the time of the clock reading, and prints
    nothing. *)
Theorem save_processed_trends_outcomes keywords filename w :
  exists w',
    save_processed_trends keywords filename w = (Ok tt, w') /\
    clock_reads w' = S (clock_reads w) /\
    if decide (filename ∈ write_protected w)
    then files w' = files w /\
         events w'
         = events w ++ [Opened filename ForWriting;
                        Printed (MsgErrorSavingProcessed PermissionError)]
    else files w'
         = <[filename := Document (processed_document keywords
                                     (clock w (clock_reads w)))]> (files w) /\
         events w' = events w ++ [Opened filename ForWriting].
Proof.
  rewrite save_processed_trends_eq. cbv zeta.
  eexists. split; [reflexivity |].
  by destruct (decide (filename ∈ write_protected w)).
Qed.

(** ** The composer: what it uses of the world *)

Lemma world_after_posts w a a' b b' :
  a = a' -> b = b' ->
  with_clock_reads a (with_randoms_used b w)
  = with_clock_reads a' (with_randoms_used b' w).
Proof. by intros -> ->. Qed.

Lemma world_after_posts_twice w a b c d :
  with_clock_reads a
    (with_randoms_used b (with_clock_reads c (with_randoms_used d w)))
  = with_clock_reads a (with_randoms_used b w).
Proof. reflexivity. Qed.

(** One pass of the loop body draws five outcomes of the random generator
    (the template type, the template, three hashtags) and reads the clock
    once, for the timestamp. *)
Lemma compose_post_world self interest_data rqd kw w p w' :
  compose_post self interest_data rqd kw w = (Ok p, w') ->
  w' = with_clock_reads (S (clock_reads w))
         (with_randoms_used (randoms_used w + 5) w) /\
  timestamp p = isoformat (clock w (clock_reads w)).
Proof.
  unfold compose_post. intros H. ok_inv H.
  apply lift_ok_inv in Hstep as [_ ->].
  apply choice_ok_inv in Hstep0 as [_ ->].
  apply lift_ok_inv in Hstep1 as [_ ->].
  apply choice_ok_inv in Hstep2 as [_ ->].
  apply lift_ok_inv in Hstep3 as [_ ->].
  apply sample_ok_inv in Hstep4 as (_ & _ & ->).
  unfold now in Hstep5. injection Hstep5 as <- <-.
  apply ret_ok_inv in H as [-> ->]. split; [| done].
  cbn [clock_reads randoms_used with_randoms_used with_clock_reads].
  apply (world_after_posts w); lia.
Qed.

Lemma compose_each_world self interest_data rqd ks : forall acc w posts w',
  compose_each self interest_data rqd ks acc w = (Ok posts, w') ->
  exists new,
    posts = acc ++ new /\
    w' = with_clock_reads (clock_reads w + length new)
           (with_randoms_used (randoms_used w + 5 * length new) w) /\
    forall i p, new !! i = Some p ->
      timestamp p = isoformat (clock w (clock_reads w + i)).
Proof.
  induction ks as [|kw ks IH]; intros acc w posts w' H; simpl in H.
  - apply ret_ok_inv in H as [-> ->]. exists []. rewrite app_nil_r.
    split; [done |]. split; [| by intros i p ?].
    simpl. rewrite !Nat.add_0_r. by destruct w.
  - ok_inv H. apply compose_post_world in Hstep as [-> Hstamp].
    apply IH in H as (new & -> & -> & Hnew).
    exists (a :: new). rewrite <- app_assoc. split; [done |]. split.
    + rewrite world_after_posts_twice.
      cbn [clock_reads randoms_used with_randoms_used with_clock_reads length].
      apply (world_after_posts w); lia.
    + intros [|i] p Hp.
      * injection Hp as <-. by rewrite Nat.add_0_r.
      * specialize (Hnew i p Hp).
        cbn [clock clock_reads with_randoms_used with_clock_reads] in Hnew.
        rewrite Hnew. do 2 f_equal. lia.
Qed.

(** The composer adds no event and changes no file, whatever its outcome. *)
Lemma composer_quiet self interest_data rqd ks w :
  events (create_social_media_posts self interest_data rqd ks w).2 = events w /\
  files (create_social_media_posts self interest_data rqd ks w).2 = files w.
Proof.
  pose proof (keeps_create_social_media_posts (fun _ => False)
                (fun _ => False) self interest_data rqd ks w) as Hk.
  split; [| by eapply touches_files].
  destruct Hk as (_ & _ & _ & _ & (evs & -> & Hevs) & _).
  destruct evs as [|ev evs]; [by rewrite app_nil_r |].
  by apply Forall_cons in Hevs as [[] _].
Qed.

(** X16.  The composer acts on the random generator and the clock alone.
    Whether it returns or raises, it prints nothing, sends no request and
    leaves every file as it is.  When it returns, it has drawn five random
    outcomes and read the clock once for each post, and the timestamp of
    the post at position [i] is the [i]-th of these clock readings. *)
Theorem composer_footprint self interest_data rqd ks w :
  events (create_social_media_posts self interest_data rqd ks w).2 = events w /\
  files (create_social_media_posts self interest_data rqd ks w).2 = files w /\
  forall posts w',
    create_social_media_posts self interest_data rqd ks w = (Ok posts, w') ->
    w' = with_clock_reads (clock_reads w + length posts)
           (with_randoms_used (randoms_used w + 5 * length posts) w) /\
    forall i p, posts !! i = Some p ->
      timestamp p = isoformat (clock w (clock_reads w + i)).
Proof.
  destruct (composer_quiet self interest_data rqd ks w) as [Hevents Hfiles].
  split; [done |]. split; [done |].
  intros posts w' E. unfold create_social_media_posts in E.
  by apply compose_each_world in E as (new & -> & -> & Hnew).
Qed.

Lemma composer_footprint_witness :
  exists posts w',
    create_social_media_posts new_generator ntsa_interest kenya_related
      kenya_keywords (world_of kenya_trends ∅) = (Ok posts, w') /\
    w' = with_clock_reads (0 + length posts)
           (with_randoms_used (0 + 5 * length posts)
              (world_of kenya_trends ∅)) /\
    forall i p, posts !! i = Some p -> timestamp p = isoformat noon.
Proof.
  exists kenya_posts,
    (create_social_media_posts new_generator ntsa_interest kenya_related
       kenya_keywords (world_of kenya_trends ∅)).2.
  assert (create_social_media_posts new_generator ntsa_interest kenya_related
            kenya_keywords (world_of kenya_trends ∅)
          = (Ok kenya_posts,
             (create_social_media_posts new_generator ntsa_interest
                kenya_related kenya_keywords (world_of kenya_trends ∅)).2))
    as E by (apply run_result; by vm_compute).
  split; [exact E |].
  exact (proj2 (proj2 (composer_footprint new_generator ntsa_interest
                         kenya_related kenya_keywords
                         (world_of kenya_trends ∅))) _ _ E).
Defined.

(** ** The length of a post *)

Lemma field_count_cons name s segs :
  field_count name (s :: segs)
  = (if decide (s = Field name) then 1 else 0) + field_count name segs.
Proof.
  unfold field_count. rewrite filter_cons. by case_decide.
Qed.

(** The length of a formatted plain template: its literal text, and the
    keyword and the context once for each of their fields. *)
Lemma py_len_render kw ctx segs :
  forallb plain_segment segs = true ->
  py_len (render kw ctx segs)
  = literal_length segs + field_count "keyword" segs * py_len kw
    + field_count "context" segs * py_len ctx.
Proof.
  induction segs as [|s segs IH]; [done |].
  intros [Hs Hsegs]%andb_prop. specialize (IH Hsegs).
  rewrite render_cons, py_len_append, IH, !field_count_cons.
  destruct s as [text | name].
  - rewrite !decide_False by done. simpl. lia.
  - apply orb_prop in Hs as [->%bool_decide_eq_true | ->%bool_decide_eq_true].
    + rewrite decide_True by done.
      rewrite (decide_True (P := Field "keyword" = Field "keyword")) by done.
      rewrite (decide_False (P := Field "keyword" = Field "context")) by done.
      simpl. lia.
    + rewrite decide_False by done.
      rewrite (decide_False (P := Field "context" = Field "keyword")) by done.
      rewrite (decide_True (P := Field "context" = Field "context")) by done.
      simpl. lia.
Qed.

Lemma py_len_join_three a b c :
  py_len (join " " [a; b; c]) = py_len a + py_len b + py_len c + 2.
Proof.
  cbn [join]. rewrite !py_len_append.
  change (py_len " ") with 1. lia.
Qed.

(** The built-in templates: both placeholders once, and between 63 and 93
    code points of literal text. *)
Lemma new_generator_pool_lengths ty pool t :
  ty ∈ template_types ->
  post_templates new_generator !! ty = Some pool ->
  t ∈ pool ->
  plain_template t = true /\
  has_placeholder "context" t = true /\
  field_count "keyword" (segments_of t) = 1 /\
  field_count "context" (segments_of t) = 1 /\
  63 <= literal_length (segments_of t) <= 93.
Proof.
  unfold template_types. intros Hin Hpool Ht.
  list_cases Hin; subst ty.
  1: change (Some trending_templates = Some pool) in Hpool.
  2: change (Some educational_templates = Some pool) in Hpool.
  3: change (Some engagement_templates = Some pool) in Hpool.
  all: injection Hpool as <-.
  all: unfold trending_templates, educational_templates,
         engagement_templates in Ht.
  all: list_cases Ht; subst t.
  all: repeat (split; [by vm_compute |]).
  all: vm_compute; lia.
Qed.

Lemma hashtags_kenya_lengths tag :
  tag ∈ hashtags_kenya new_generator -> 4 <= py_len tag <= 13.
Proof.
  cbn [hashtags_kenya new_generator]. intros Hin.
  list_cases Hin; subst tag; vm_compute; lia.
Qed.

Lemma context_lengths ctx :
  ctx ∈ tier_phrases ++ [fallback_context] -> 31 <= py_len ctx <= 36.
Proof.
  unfold tier_phrases. intros Hin. cbn [app] in Hin.
  list_cases Hin; subst ctx; vm_compute; lia.
Qed.

(** X17.  The length of a post of the built-in generator.  The content
    contains the context phrase built for the keyword, and the character
    count is the length of the keyword plus that of the context plus
    between 78 and 135 characters of template text and hashtags, hence the
    length of the keyword plus 109 to 171.  Nothing shortens a post: with a
    keyword of at most 109 characters it stays within [MAX_POST_LENGTH],
    with one of 172 or more it exceeds it. *)
Theorem post_length_bounds ks interest_data rqd w posts w' p :
  create_social_media_posts new_generator interest_data rqd ks w
  = (Ok posts, w') ->
  p ∈ posts ->
  exists ctx,
    generate_context (keyword p) interest_data
      (related_queries_for rqd (keyword p)) = Ok ctx /\
    contains (content p) ctx /\
    py_len (keyword p) + py_len ctx + 78 <= character_count p
      <= py_len (keyword p) + py_len ctx + 135 /\
    py_len (keyword p) + 109 <= character_count p
      <= py_len (keyword p) + 171 /\
    (py_len (keyword p) <= 109 -> character_count p <= Config.MAX_POST_LENGTH)
    /\
    (172 <= py_len (keyword p) -> Config.MAX_POST_LENGTH < character_count p).
Proof.
  intros Hrun Hin. apply create_posts_inv in Hrun.
  apply list_elem_of_lookup in Hin as (i & Hi).
  destruct (Forall2_lookup_r _ _ _ _ _ Hrun Hi) as (kw & _ & ctx & Hctx & Hp).
  destruct Hp as (pool & template & body & tags & t & Hty & Hpool & Htpl
                  & Hfmt & Hlen & Hsub & Hcontent & Hkw & _ & _ & Hcount).
  subst kw. exists ctx. split; [done |].
  destruct (new_generator_pool_lengths _ _ _ Hty Hpool Htpl)
    as (Hplain & Hhas & Hkws & Hctxs & Hlit).
  rewrite (format_plain _ _ _ Hplain) in Hfmt. injection Hfmt as <-.
  assert (contains (content p) ctx) as Hcontains.
  { rewrite Hcontent. apply contains_append_r, render_contains_context.
    by apply bool_decide_eq_true in Hhas. }
  split; [done |].
  pose proof (generate_context_ok_inv _ _ _ _ Hctx) as [_ Hphrase].
  apply context_lengths in Hphrase.
  assert (py_len (keyword p) + py_len ctx + 78 <= character_count p
          <= py_len (keyword p) + py_len ctx + 135) as Hbounds.
  { rewrite Hcount, Hcontent, !py_len_append.
    rewrite py_len_render
      by (by apply forallb_forall; unfold plain_template in Hplain;
          rewrite forallb_forall in Hplain).
    rewrite Hkws, Hctxs. change (py_len " ") with 1.
    destruct tags as [|a [|b [|c [|d tags]]]]; try discriminate Hlen.
    rewrite py_len_join_three.
    assert (forall tag, tag ∈ [a; b; c] -> 4 <= py_len tag <= 13) as Htags.
    { intros tag Htag. apply hashtags_kenya_lengths.
      by eapply elem_of_submseteq. }
    pose proof (Htags a ltac:(in_list)).
    pose proof (Htags b ltac:(in_list)).
    pose proof (Htags c ltac:(in_list)). lia. }
  split; [done |]. unfold Config.MAX_POST_LENGTH. lia.
Qed.

Lemma post_length_bounds_witness :
  exists ctx,
    generate_context (keyword ntsa_post) ntsa_interest
      (related_queries_for ∅ (keyword ntsa_post)) = Ok ctx /\
    contains (content ntsa_post) ctx /\
    py_len (keyword ntsa_post) + py_len ctx + 78 <= character_count ntsa_post
      <= py_len (keyword ntsa_post) + py_len ctx + 135 /\
    py_len (keyword ntsa_post) + 109 <= character_count ntsa_post
      <= py_len (keyword ntsa_post) + 171 /\
    (py_len (keyword ntsa_post) <= 109 ->
     character_count ntsa_post <= Config.MAX_POST_LENGTH) /\
    (172 <= py_len (keyword ntsa_post) ->
     Config.MAX_POST_LENGTH < character_count ntsa_post).
Proof.
  apply (post_length_bounds ["NTSA"] ntsa_interest ∅ (world_of no_trends ∅)
           [ntsa_post]
           (create_social_media_posts new_generator ntsa_interest ∅ ["NTSA"]
              (world_of no_trends ∅)).2).
  - apply (run_result
             (create_social_media_posts new_generator ntsa_interest ∅
                ["NTSA"])
             (world_of no_trends ∅)).
    by vm_compute.
  - apply list_elem_of_here.
Defined.

(** ** A whole run *)

Lemma try_except_bind_ok {A B} (m : M A) (k : A -> M B) handler w a w1 :
  m w = (Ok a, w1) ->
  try_except (bind m k) handler w = try_except (k a) handler w1.
Proof. intros E. unfold try_except. by rewrite (bind_ok _ _ _ _ _ E). Qed.

Lemma world_eq w1 w2 :
  randoms w1 = randoms w2 -> randoms_used w1 = randoms_used w2 ->
  clock w1 = clock w2 -> clock_reads w1 = clock_reads w2 ->
  source w1 = source w2 -> files w1 = files w2 ->
  write_protected w1 = write_protected w2 -> events w1 = events w2 ->
  w1 = w2.
Proof. destruct w1, w2. simpl. by intros -> -> -> -> -> -> -> ->. Qed.

(** A run with at least one keyword, up to the call of the composer: the
    steps before it return, and what follows runs under the handler of the
    run in the world [before_composer]. *)
Lemma run_automation_unfold self w :
  fetched_keywords (source w) <> [] ->
  run_automation self w
  = try_except
      (do posts <- create_social_media_posts (post_generator self)
                     (run_interest w) (run_related w)
                     (fetched_keywords (source w));
       do t <- now;
       run save_data (automation_data (isoformat t)
                        (fetched_keywords (source w)) (run_interest w)
                        (run_related w) posts) None;
       run print (MsgGenerated (length posts));
       run print_posts posts 1;
       do t <- now;
       print (MsgCompleted t))
      (fun e => print (MsgErrorAutomation e))
      (before_composer w).
Proof.
  intros Hks. unfold run_automation.
  rewrite (bind_ok _ _ _ _ _ (now_eq w)).
  rewrite (bind_ok _ _ _ _ _ (print_eq _ _)).
  rewrite (try_except_bind_ok _ _ _ _ _ _ (print_eq _ _)).
  rewrite (try_except_bind_ok _ _ _ _ _ _ (get_trending_searches_eq _)).
  cbn [source events with_events with_clock_reads].
  unfold run_interest, run_related, before_composer, run_prefix.
  destruct (fetched_keywords (source w)) as [|kw ks]; [done |].
  rewrite (try_except_bind_ok _ _ _ _ _ _ (print_eq _ _)).
  rewrite (try_except_bind_ok _ _ _ _ _ _ (print_eq _ _)).
  rewrite (try_except_bind_ok _ _ _ _ _ _ (get_interest_over_time_eq _ _)).
  rewrite (try_except_bind_ok _ _ _ _ _ _ (print_eq _ _)).
  rewrite (try_except_bind_ok _ _ _ _ _ _ (fetch_related_eq _ _ _)).
  rewrite (try_except_bind_ok _ _ _ _ _ _ (print_eq _ _)).
  cbn [source events with_events with_clock_reads].
  f_equal. apply world_eq; try reflexivity.
  cbn [events with_events]. by rewrite <- !app_assoc.
Qed.

Lemma print_posts_eq posts : forall i w,
  print_posts posts i w
  = (Ok tt, with_events (events w ++ post_events posts i) w).
Proof.
  induction posts as [|p posts IH]; intros i w.
  - unfold post_events. simpl. unfold ret. by rewrite with_events_nil.
  - simpl. rewrite (bind_ok _ _ _ _ _ (print_eq _ _)). rewrite IH.
    f_equal. apply world_eq; try reflexivity.
    cbn [events with_events]. rewrite <- app_assoc. f_equal.
    unfold post_events. rewrite imap_cons, Nat.add_0_r. cbn [app]. f_equal.
    apply imap_ext. intros j q _. simpl. do 2 f_equal. lia.
Qed.

Lemma save_data_none data w :
  let path := data_filename (clock w (clock_reads w)) in
  let w0 := with_clock_reads (S (clock_reads w)) w in
  save_data data None w
  = (Ok tt,
     if decide (path ∈ write_protected w)
     then with_events
            (events w ++ [Opened path ForWriting;
                          Printed (MsgErrorSavingData PermissionError)]) w0
     else if serializable data
     then with_events
            (events w ++ [Opened path ForWriting; Printed (MsgDataSaved path)])
            (with_files (<[path := Document data]> (files w)) w0)
     else with_events
            (events w ++ [Opened path ForWriting;
                          Printed (MsgErrorSavingData TypeError)])
            (with_files (<[path := Truncated]> (files w)) w0)).
Proof. cbv zeta. rewrite save_data_eq. cbv zeta. by rewrite save_to_eq. Qed.

(** What follows the composer in a run: the document is saved under a name
    made from the next clock reading but one, the posts are printed, and the
    run reports completion, whatever became of the file. *)
Lemma run_tail_eq keywords interest_data rqd posts w :
  let data := automation_data (isoformat (clock w (clock_reads w))) keywords
                interest_data rqd posts in
  let path := data_filename (clock w (S (clock_reads w))) in
  let saved :=
    if decide (path ∈ write_protected w)
    then (files w, MsgErrorSavingData PermissionError)
    else if serializable data
    then (<[path := Document data]> (files w), MsgDataSaved path)
    else (<[path := Truncated]> (files w), MsgErrorSavingData TypeError) in
  (do t <- now;
   run save_data (automation_data (isoformat t) keywords interest_data rqd
                    posts) None;
   run print (MsgGenerated (length posts));
   run print_posts posts 1;
   do t <- now;
   print (MsgCompleted t)) w
  = (Ok tt,
     with_events
       (events w
        ++ [Opened path ForWriting; Printed saved.2;
            Printed (MsgGenerated (length posts))]
        ++ post_events posts 1
        ++ [Printed (MsgCompleted (clock w (S (S (clock_reads w)))))])
       (with_files saved.1 (with_clock_reads (S (S (S (clock_reads w)))) w))).
Proof.
  cbv zeta.
  rewrite (bind_ok _ _ _ _ _ (now_eq w)).
  rewrite (bind_ok _ _ _ _ _ (save_data_none _ _)).
  cbn [write_protected clock clock_reads with_clock_reads].
  set (path := data_filename (clock w (S (clock_reads w)))).
  set (data := automation_data _ _ _ _ _).
  destruct (decide (path ∈ write_protected w)) as [Hp | Hp];
    [| destruct (serializable data)].
  all: rewrite (bind_ok _ _ _ _ _ (print_eq _ _)).
  all: rewrite (bind_ok _ _ _ _ _ (print_posts_eq _ _ _)).
  all: rewrite (bind_ok _ _ _ _ _ (now_eq _)).
  all: rewrite print_eq.
  all: f_equal; apply world_eq; try reflexivity.
  all: cbn [events with_events with_files with_clock_reads clock clock_reads
            fst snd].
  all: by rewrite <- !app_assoc.
Qed.

Lemma try_except_bind_raise {A B} (m : M A) (k : A -> M B) handler w e w1 :
  m w = (Raise e, w1) -> try_except (bind m k) handler w = handler e w1.
Proof. intros E. unfold try_except, bind. by rewrite E. Qed.

Lemma try_except_bind_beyond {A B} (m : M A) (k : A -> M B) handler w c w1 :
  m w = (Beyond c, w1) -> try_except (bind m k) handler w = (Beyond c, w1).
Proof. intros E. unfold try_except, bind. by rewrite E. Qed.


(** ** The composer on a plain generator never leaves the fragment *)

Section PlainComposer.
Variable self : SocialMediaGenerator.
Variable interest_data : gmap string Z.
Variable rqd : gmap string (gmap string Ranked).
Hypothesis Hplain : plain_generator self.

Lemma compose_post_plain_cases kw w :
  (exists p w', compose_post self interest_data rqd kw w = (Ok p, w')) \/
  (exists e, e ∈ context_errors /\
     compose_post self interest_data rqd kw w = (Raise e, w)).
Proof.
  destruct (generate_context kw interest_data (related_queries_for rqd kw))
    as [ctx | e | c] eqn:E.
  - left. by eapply compose_post_total.
  - right. exists e. split.
    + rewrite generate_context_cases in E. unfold context_errors.
      destruct (get_ranked _ "top") as [|df|[|r items]];
        try discriminate; injection E as <-; in_list.
    + unfold compose_post. fold (related_queries_for rqd kw). by rewrite E.
  - rewrite generate_context_cases in E.
    by destruct (get_ranked _ "top") as [|df|[|r items]].
Qed.

Lemma compose_each_plain_cases ks : forall acc w,
  (exists posts w',
     compose_each self interest_data rqd ks acc w = (Ok posts, w')) \/
  (exists e w', e ∈ context_errors /\
     compose_each self interest_data rqd ks acc w = (Raise e, w')).
Proof.
  induction ks as [|kw ks IH]; intros acc w; simpl.
  - left. unfold ret. eauto.
  - destruct (compose_post_plain_cases kw w) as [(p & w1 & E) | (e & He & E)].
    + rewrite (bind_ok _ _ _ _ _ E). apply IH.
    + right. exists e, w. split; [done |]. unfold bind. by rewrite E.
Qed.
End PlainComposer.



(** ** What [json.dump] accepts of the run's document *)

Lemma serializable_dict_value {V} (f : V -> PyValue) (d : gmap string V) :
  serializable (dict_value f d) = true
  <-> map_Forall (fun _ v => serializable (f v) = true) d.
Proof.
  unfold dict_value. cbn [serializable]. rewrite forallb_forall. split.
  - intros H key v Hv. apply (H (key, f v)). apply list_elem_of_In.
    apply elem_of_map_to_list. by rewrite lookup_fmap, Hv.
  - intros H [key v'] Hin%list_elem_of_In%elem_of_map_to_list.
    rewrite lookup_fmap in Hin.
    destruct (d !! key) as [v|] eqn:Hv; [| done]. injection Hin as <-.
    by apply (H key).
Qed.

Lemma serializable_ranked_value v :
  serializable (ranked_value v) = negb (is_frame v).
Proof.
  destruct v as [|df|items]; try done. cbn [ranked_value serializable is_frame].
  induction items as [|r items IH]; [done | exact IH].
Qed.

Lemma serializable_related_queries (d : gmap string Ranked) :
  serializable (dict_value ranked_value d) = true <-> frameless d.
Proof.
  rewrite serializable_dict_value. unfold frameless.
  split; intros H key v Hv; specialize (H key v Hv); cbv beta in *.
  - rewrite serializable_ranked_value in H. by destruct (is_frame v).
  - rewrite serializable_ranked_value. by rewrite H.
Qed.

Lemma serializable_posts (posts : list Post) :
  forallb serializable (post_value <$> posts) = true.
Proof. induction posts as [|p posts IH]; [done | exact IH]. Qed.

(** The document of step 5 can be written exactly when no related-queries
    entry holds a frame. *)
Lemma serializable_automation_data ts keywords interest_data rqd posts :
  serializable (automation_data ts keywords interest_data rqd posts) = true
  <-> map_Forall (fun _ d => frameless d) rqd.
Proof.
  unfold automation_data. cbn [serializable forallb snd].
  rewrite serializable_strings, serializable_posts.
  assert (serializable (dict_value PInt interest_data) = true) as ->.
  { by apply serializable_dict_value. }
  cbn [andb]. rewrite andb_true_r. rewrite serializable_dict_value.
  split; intros H kw d Hd; specialize (H kw d Hd); cbv beta in *;
    by apply serializable_related_queries.
Qed.

Lemma run_related_lookup w kw d :
  run_related w !! kw = Some d ->
  kw ∈ take 3 (fetched_keywords (source w)) /\
  d = related_answer (source w) kw.
Proof.
  unfold run_related. rewrite related_data_lookup.
  case_decide; [| by rewrite lookup_empty]. by intros [= <-].
Qed.

(** ** Runs in which the composer returns *)

Lemma top_falsy_first_five w :
  (forall kw, kw ∈ take 3 (fetched_keywords (source w)) ->
     truth (get_ranked (related_answer (source w) kw) "top") = Ok false) ->
  forall kw, kw ∈ take 5 (fetched_keywords (source w)) ->
    truth (get_ranked (related_queries_for (run_related w) kw) "top")
    = Ok false.
Proof.
  intros Htop kw _. unfold related_queries_for, run_related.
  rewrite related_data_lookup. case_decide; [by apply Htop | done].
Qed.

(** When no keyword of the first three has a frame or a non-empty list
    under [top], the composer returns and the run goes on to its last line;
    the output file depends on whether it can be opened and on whether the
    document can be serialized. *)
Lemma run_completes self w :
  plain_generator (post_generator self) ->
  fetched_keywords (source w) <> [] ->
  (forall kw, kw ∈ take 3 (fetched_keywords (source w)) ->
     truth (get_ranked (related_answer (source w) kw) "top") = Ok false) ->
  exists posts wc w',
    create_social_media_posts (post_generator self) (run_interest w)
      (run_related w) (fetched_keywords (source w)) (before_composer w)
    = (Ok posts, wc) /\
    keyword <$> posts = take 5 (fetched_keywords (source w)) /\
    run_automation self w = (Ok tt, w') /\
    let path := data_filename (clock w (clock_reads w + length posts + 2)) in
    let data :=
      automation_data
        (isoformat (clock w (clock_reads w + length posts + 1)))
        (fetched_keywords (source w)) (run_interest w) (run_related w) posts in
    let saved :=
      if decide (path ∈ write_protected w)
      then (files w, MsgErrorSavingData PermissionError)
      else if serializable data
      then (<[path := Document data]> (files w), MsgDataSaved path)
      else (<[path := Truncated]> (files w), MsgErrorSavingData TypeError) in
    files w' = saved.1 /\
    events w'
    = events w ++ run_prefix w
      ++ [Opened path ForWriting; Printed saved.2;
          Printed (MsgGenerated (length posts))]
      ++ post_events posts 1
      ++ [Printed (MsgCompleted (clock w (clock_reads w + length posts + 3)))].
Proof.
  intros Hplain Hks Htop.
  destruct (create_posts_plain (post_generator self) (run_interest w)
              (run_related w) (fetched_keywords (source w))
              (before_composer w) Hplain (top_falsy_first_five w Htop))
    as (posts & wc & E & Hall).
  exists posts, wc. eexists. split; [exact E |].
  split; [by eapply Forall2_composed_keywords |].
  rewrite (run_automation_unfold _ _ Hks).
  rewrite (try_except_bind_ok _ _ _ _ _ _ E).
  unfold try_except. rewrite run_tail_eq. cbv zeta.
  split; [reflexivity |].
  unfold create_social_media_posts in E.
  apply compose_each_world in E as (new & Hnew & -> & _).
  cbn [app] in Hnew. subst new.
  cbn [files events clock clock_reads write_protected with_events with_files
       with_clock_reads with_randoms_used before_composer].
  replace (S (S (clock_reads w) + length posts))
    with (clock_reads w + length posts + 2) by lia.
  replace (S (clock_reads w) + length posts)
    with (clock_reads w + length posts + 1) by lia.
  replace (S (clock_reads w + length posts + 2))
    with (clock_reads w + length posts + 3) by lia.
  split; [done |]. by rewrite <- !app_assoc.
Qed.

(** X19.  A run that succeeds.  With plain templates, at least one fetched
    keyword, related queries that hold no frame and nothing truthy under
    [top] for the first three keywords, and an output file that can be
    written, the run returns normally and leaves exactly one new file.  The
    file holds the fetched keywords, the interest data, the related queries
    and one post for each of the first five keywords, in their order; its
    name is made from the clock reading after the one that gives the
    document's timestamp.  The run prints the saved line, the posts,
    numbered from 1, and the completion line. *)
Theorem run_saves_its_posts self w :
  plain_generator (post_generator self) ->
  fetched_keywords (source w) <> [] ->
  (forall kw, kw ∈ take 3 (fetched_keywords (source w)) ->
     truth (get_ranked (related_answer (source w) kw) "top") = Ok false /\
     frameless (related_answer (source w) kw)) ->
  (forall t, data_filename t ∉ write_protected w) ->
  exists posts wc w',
    create_social_media_posts (post_generator self) (run_interest w)
      (run_related w) (fetched_keywords (source w)) (before_composer w)
    = (Ok posts, wc) /\
    keyword <$> posts = take 5 (fetched_keywords (source w)) /\
    run_automation self w = (Ok tt, w') /\
    files w'
    = <[data_filename (clock w (clock_reads w + length posts + 2)) :=
          Document
            (automation_data
               (isoformat (clock w (clock_reads w + length posts + 1)))
               (fetched_keywords (source w)) (run_interest w) (run_related w)
               posts)]> (files w) /\
    events w'
    = events w ++ run_prefix w
      ++ [Opened (data_filename
                    (clock w (clock_reads w + length posts + 2))) ForWriting;
          Printed (MsgDataSaved
                     (data_filename
                        (clock w (clock_reads w + length posts + 2))));
          Printed (MsgGenerated (length posts))]
      ++ post_events posts 1
      ++ [Printed (MsgCompleted (clock w (clock_reads w + length posts + 3)))].
Proof.
  intros Hplain Hks Hrelated Hfree.
  destruct (run_completes self w Hplain Hks) as
    (posts & wc & w' & E & Hkws & Hrun & Hfiles & Hevents).
  { intros kw Hin. by apply Hrelated. }
  exists posts, wc, w'. split; [done |]. split; [done |]. split; [done |].
  cbv zeta in Hfiles, Hevents.
  rewrite decide_False in Hfiles, Hevents by apply Hfree.
  assert (serializable
            (automation_data
               (isoformat (clock w (clock_reads w + length posts + 1)))
               (fetched_keywords (source w)) (run_interest w) (run_related w)
               posts) = true) as Hser.
  { apply serializable_automation_data. intros kw d Hd.
    apply run_related_lookup in Hd as [Hin ->]. by apply Hrelated. }
  rewrite Hser in Hfiles, Hevents. by split.
Qed.

Lemma run_saves_its_posts_witness :
  exists posts wc w',
    create_social_media_posts new_generator
      (run_interest (world_of kenya_trends ∅))
      (run_related (world_of kenya_trends ∅)) kenya_keywords
      (before_composer (world_of kenya_trends ∅))
    = (Ok posts, wc) /\
    keyword <$> posts = take 5 kenya_keywords /\
    run_automation new_system (world_of kenya_trends ∅) = (Ok tt, w') /\
    files w'
    = <[data_filename noon :=
          Document
            (automation_data (isoformat noon) kenya_keywords
               (run_interest (world_of kenya_trends ∅))
               (run_related (world_of kenya_trends ∅)) posts)]> ∅ /\
    events w'
    = [] ++ run_prefix (world_of kenya_trends ∅)
      ++ [Opened (data_filename noon) ForWriting;
          Printed (MsgDataSaved (data_filename noon));
          Printed (MsgGenerated (length posts))]
      ++ post_events posts 1
      ++ [Printed (MsgCompleted noon)].
Proof.
  apply (run_saves_its_posts new_system (world_of kenya_trends ∅)
           new_generator_plain).
  - discriminate.
  - intros kw Hin. cbn [source world_of] in Hin.
    change (kw ∈ ["NTSA"; "KCSE 2024"; "Harambee Stars"]) in Hin.
    list_cases Hin; subst kw.
    all: split; [by vm_compute | apply (bool_decide_unpack _); by vm_compute].
  - intros t. apply not_elem_of_empty.
Defined.

(** X20.  A run that reports success without a usable output file.  The
    run is one of a generator with plain templates (each of the three
    template types has a pool, not empty, of templates made of literal text
    without braces and the two placeholders) and a hashtag pool of 3 to 21
    items, and its output file can be opened for writing.  When the related
    queries of one of the first three keywords hold a frame under some key,
    while nothing truthy stands under [top] for any of the first three, the
    composer returns its posts, but [json.dump] rejects the document: the
    output file is left opened and unfinished, the error is printed, and
    the run goes on to print the posts and the completion line and returns
    normally. *)
Theorem run_leaves_unfinished_file self w kw key df :
  plain_generator (post_generator self) ->
  (forall kw', kw' ∈ take 3 (fetched_keywords (source w)) ->
     truth (get_ranked (related_answer (source w) kw') "top") = Ok false) ->
  kw ∈ take 3 (fetched_keywords (source w)) ->
  related_answer (source w) kw !! key = Some (FrameValue df) ->
  data_filename
    (clock w (clock_reads w
              + min 5 (length (fetched_keywords (source w))) + 2))
    ∉ write_protected w ->
  exists posts w',
    keyword <$> posts = take 5 (fetched_keywords (source w)) /\
    run_automation self w = (Ok tt, w') /\
    files w'
    = <[data_filename (clock w (clock_reads w + length posts + 2)) :=
          Truncated]> (files w) /\
    events w'
    = events w ++ run_prefix w
      ++ [Opened (data_filename
                    (clock w (clock_reads w + length posts + 2))) ForWriting;
          Printed (MsgErrorSavingData TypeError);
          Printed (MsgGenerated (length posts))]
      ++ post_events posts 1
      ++ [Printed (MsgCompleted (clock w (clock_reads w + length posts + 3)))].
Proof.
  intros Hplain Htop Hin Hframe Hfree.
  assert (fetched_keywords (source w) <> []) as Hks.
  { intros E. rewrite E in Hin. by apply elem_of_nil in Hin. }
  destruct (run_completes self w Hplain Hks Htop) as
    (posts & wc & w' & E & Hkws & Hrun & Hfiles & Hevents).
  exists posts, w'. split; [done |]. split; [done |].
  cbv zeta in Hfiles, Hevents.
  assert (length posts = min 5 (length (fetched_keywords (source w)))) as Hlen.
  { rewrite <- (length_fmap keyword), Hkws, length_take. lia. }
  rewrite <- Hlen in Hfree.
  rewrite decide_False in Hfiles, Hevents by exact Hfree.
  assert (serializable
            (automation_data
               (isoformat (clock w (clock_reads w + length posts + 1)))
               (fetched_keywords (source w)) (run_interest w) (run_related w)
               posts) = false) as Hser.
  { apply not_true_is_false. intros Hser%serializable_automation_data.
    specialize (Hser kw _ (run_related_elem w kw Hin) key _ Hframe).
    discriminate Hser. }
  rewrite Hser in Hfiles, Hevents. by split.
Qed.

Lemma run_leaves_unfinished_file_witness :
  exists posts w',
    keyword <$> posts = take 5 scenario_keywords /\
    run_automation new_system (world_of rising_trends ∅) = (Ok tt, w') /\
    files w' = <[data_filename noon := Truncated]> ∅ /\
    events w'
    = [] ++ run_prefix (world_of rising_trends ∅)
      ++ [Opened (data_filename noon) ForWriting;
          Printed (MsgErrorSavingData TypeError);
          Printed (MsgGenerated (length posts))]
      ++ post_events posts 1
      ++ [Printed (MsgCompleted noon)].
Proof.
  apply (run_leaves_unfinished_file new_system (world_of rising_trends ∅)
           "NTSA" "rising" ntsa_frame new_generator_plain).
  - intros kw Hin. cbn [source world_of] in Hin.
    change (kw ∈ ["NTSA"; "KCSE 2024"; "Harambee Stars"]) in Hin.
    list_cases Hin; subst kw; by vm_compute.
  - apply list_elem_of_here.
  - by vm_compute.
  - apply not_elem_of_empty.
Defined.

(** ** Runs in which the composer raises *)

(** X21.  A run cut short by related queries.  With plain templates, when
    the service answers with a frame under [top] for one of the first three
    keywords (that is, when it has related queries for it), the composer
    raises inside the run: the run prints the error as its last line,
    writes no file and prints no post, and still returns normally. *)
Theorem run_aborts_on_related_frame self w kw df :
  plain_generator (post_generator self) ->
  kw ∈ take 3 (fetched_keywords (source w)) ->
  related_answer (source w) kw !! "top" = Some (FrameValue df) ->
  exists e w',
    e ∈ context_errors /\
    run_automation self w = (Ok tt, w') /\
    files w' = files w /\
    events w' = events w ++ run_prefix w ++ [Printed (MsgErrorAutomation e)].
Proof.
  intros Hplain Hin Hframe.
  assert (fetched_keywords (source w) <> []) as Hks.
  { intros E. rewrite E in Hin. by apply elem_of_nil in Hin. }
  rewrite (run_automation_unfold _ _ Hks).
  pose proof (composer_quiet (post_generator self) (run_interest w)
                (run_related w) (fetched_keywords (source w))
                (before_composer w)) as [Hevents Hfiles].
  assert (is_ok (create_social_media_posts (post_generator self)
                   (run_interest w) (run_related w)
                   (fetched_keywords (source w)) (before_composer w)).1
          = false) as Hstops.
  { unfold create_social_media_posts.
    apply (compose_each_stops _ _ _ _ _ _ kw).
    - apply list_elem_of_lookup in Hin as (i & Hi).
      apply lookup_take_Some in Hi as [Hi Hlt].
      apply list_elem_of_lookup. exists i. rewrite lookup_take_lt by lia. done.
    - assert (related_queries_for (run_related w) kw
              = related_answer (source w) kw) as ->.
      { unfold related_queries_for. by rewrite (run_related_elem w kw Hin). }
      rewrite generate_context_cases. unfold get_ranked. by rewrite Hframe. }
  unfold create_social_media_posts in *.
  destruct (compose_each_plain_cases _ (run_interest w) (run_related w)
              Hplain (take 5 (fetched_keywords (source w))) []
              (before_composer w))
    as [(posts & wc & E) | (e & wc & He & E)].
  { by rewrite E in Hstops. }
  rewrite E in Hevents, Hfiles. cbn [snd] in Hevents, Hfiles.
  exists e. eexists. split; [done |].
  rewrite (try_except_bind_raise _ _ _ _ _ _ E). rewrite print_eq.
  split; [reflexivity |]. cbn [files events with_events].
  rewrite Hevents, Hfiles. cbn [files events with_events with_clock_reads
                                before_composer].
  split; [done |]. by rewrite <- app_assoc.
Qed.

Lemma run_aborts_on_related_frame_witness :
  exists e w',
    e ∈ context_errors /\
    run_automation new_system (world_of ntsa_trends ∅) = (Ok tt, w') /\
    files w' = ∅ /\
    events w'
    = [] ++ run_prefix (world_of ntsa_trends ∅)
      ++ [Printed (MsgErrorAutomation e)].
Proof.
  apply (run_aborts_on_related_frame new_system (world_of ntsa_trends ∅)
           "NTSA" ntsa_frame new_generator_plain).
  - apply list_elem_of_here.
  - by vm_compute.
Defined.

(** ** The platform stubs *)

Lemma take_chars_cons n c rest :
  take_chars n (String c rest)
  = if is_continuation c then String c (take_chars n rest)
    else match n with
         | 0 => ""
         | S n' => String c (take_chars n' rest)
         end.
Proof. reflexivity. Qed.

(** A slice holds as many code points as asked for, or all there are. *)
Lemma py_len_take_chars s : forall n,
  py_len (take_chars n s) = min n (py_len s).
Proof.
  induction s as [|c s IH]; intros n; [simpl; lia |].
  rewrite take_chars_cons. cbn [py_len].
  destruct (is_continuation c) eqn:Ec.
  - cbn [py_len]. rewrite Ec, IH. lia.
  - destruct n as [|n]; [done |]. cbn [py_len]. rewrite Ec, IH. lia.
Qed.

Lemma take_chars_prefix s : forall n,
  exists rest, s = take_chars n s +:+ rest.
Proof.
  induction s as [|c s IH]; intros n; [by exists "" |].
  rewrite take_chars_cons. destruct (is_continuation c).
  - destruct (IH n) as (rest & E). exists rest.
    by rewrite append_cons, <- E.
  - destruct n as [|n]; [by exists (String c s) |].
    destruct (IH n) as (rest & E). exists rest.
    by rewrite append_cons, <- E.
Qed.

Lemma take_chars_all s : forall n, py_len s <= n -> take_chars n s = s.
Proof.
  induction s as [|c s IH]; intros n Hn; [done |].
  rewrite take_chars_cons. cbn [py_len] in Hn.
  destruct (is_continuation c).
  - by rewrite IH by lia.
  - destruct n as [|n]; [lia |]. by rewrite IH by lia.
Qed.

(** X22.  The three platform stubs post nothing and report success: for
    every content, and whether or not a credential is set, each returns
    [True] and prints one line, made of its tag, the first hundred
    characters of the content (all of it when it is shorter) and three
    dots, which are added even when nothing was cut. *)
Theorem platform_stubs_report_success self content :
  exists excerpt rest,
    content = excerpt +:+ rest /\
    py_len excerpt = min 100 (py_len content) /\
    (py_len content <= 100 -> excerpt = content) /\
    post_to_twitter self content
    = (["[TWITTER] Would post: " +:+ excerpt +:+ "..."], true) /\
    post_to_facebook self content
    = (["[FACEBOOK] Would post: " +:+ excerpt +:+ "..."], true) /\
    post_to_linkedin self content
    = (["[LINKEDIN] Would post: " +:+ excerpt +:+ "..."], true).
Proof.
  destruct (take_chars_prefix content 100) as (rest & E).
  exists (take_chars 100 content), rest. split; [done |].
  split; [apply py_len_take_chars |].
  split; [apply take_chars_all |]. done.
Qed.

(** ** Step 3 of a run: the dictionary of related queries *)

(** X23.  The loop that fetches related queries never raises.  It sends
    one request per listed keyword, in order, also for a keyword listed
    twice, and returns a dictionary whose keys are the listed keywords and
    nothing else, each with what [get_related_queries] returned for it. *)
Theorem fetch_related_entries keywords w :
  exists rqd,
    fetch_related keywords ∅ w
    = (Ok rqd,
       with_events
         (events w ++ concat (related_events (source w) <$> keywords)) w) /\
    related_requests (concat (related_events (source w) <$> keywords))
    = (fun kw => [kw]) <$> keywords /\
    dom rqd = list_to_set keywords /\
    forall kw, kw ∈ keywords ->
      rqd !! kw = Some (related_answer (source w) kw).
Proof.
  exists (related_data (source w) keywords ∅).
  split; [apply fetch_related_eq |].
  split; [apply related_requests_related_events |].
  split.
  - apply set_eq. intros kw.
    rewrite elem_of_dom, elem_of_list_to_set, related_data_lookup.
    case_decide; [by split; [| eauto] |].
    rewrite lookup_empty. split; [by intros [? ?] | done].
  - intros kw Hin. rewrite related_data_lookup. by rewrite decide_True.
Qed.

(** ** The context builder: what it can return *)

(** X24.  The related-searches phrase is never produced.  Whatever the
    keyword, the interest data and the related queries, a context that
    [generate_context] returns is one of four fixed strings, the three tier
    phrases and the fallback, and it returns one only when the value under
    [top] is [None], missing or an empty list; otherwise it raises. *)
Theorem context_is_one_of_four kw interest_data (rq : gmap string Ranked) :
  match generate_context kw interest_data rq with
  | Ok ctx =>
      ctx ∈ [peak_phrase; growing_phrase; momentum_phrase; fallback_context] /\
      truth (get_ranked rq "top") = Ok false /\
      forall related_query, ctx <> related_phrase related_query /\
        ~ contains ctx "Related searches"
  | Raise e =>
      e ∈ context_errors /\ truth (get_ranked rq "top") <> Ok false
  | Beyond _ => False
  end.
Proof.
  assert (forall ctx,
            ctx ∈ [peak_phrase; growing_phrase; momentum_phrase;
                   fallback_context] ->
            forall related_query, ctx <> related_phrase related_query /\
              ~ contains ctx "Related searches") as Hnever.
  { intros ctx Hctx related_query. split.
    - list_cases Hctx; subst ctx; discriminate.
    - intros Hc%is_substring_contains.
      list_cases Hctx; subst ctx; by vm_compute in Hc. }
  rewrite generate_context_cases. unfold interest_parts.
  destruct (get_ranked rq "top") as [|df|[|r items]].
  2, 4: split; [unfold context_errors; in_list | discriminate].
  all: split; [destruct (interest_data !! kw); repeat case_decide; in_list |].
  all: split; [done |].
  all: apply Hnever.
  all: destruct (interest_data !! kw); repeat case_decide; in_list.
Qed.

(** ** A run whose output file cannot be opened *)

(** X25.  A run that cannot write its output.  The run is one of a
    generator with plain templates (each of the three template types has a
    pool, not empty, of templates made of literal text without braces and
    the two placeholders) and a hashtag pool of 3 to 21 items; at least one
    keyword was fetched, and nothing truthy stands under [top] of the
    related queries of the first three.  When the output file cannot be
    opened for writing, the run prints the error, leaves every file as it
    was, and goes on: it prints the posts and the completion line and
    returns normally.  The posts are then nowhere but in the printed
    lines. *)
Theorem run_reports_unwritable_output self w :
  plain_generator (post_generator self) ->
  fetched_keywords (source w) <> [] ->
  (forall kw, kw ∈ take 3 (fetched_keywords (source w)) ->
     truth (get_ranked (related_answer (source w) kw) "top") = Ok false) ->
  data_filename
    (clock w (clock_reads w
              + min 5 (length (fetched_keywords (source w))) + 2))
    ∈ write_protected w ->
  exists posts w',
    keyword <$> posts = take 5 (fetched_keywords (source w)) /\
    run_automation self w = (Ok tt, w') /\
    files w' = files w /\
    events w'
    = events w ++ run_prefix w
      ++ [Opened (data_filename
                    (clock w (clock_reads w + length posts + 2))) ForWriting;
          Printed (MsgErrorSavingData PermissionError);
          Printed (MsgGenerated (length posts))]
      ++ post_events posts 1
      ++ [Printed (MsgCompleted (clock w (clock_reads w + length posts + 3)))].
Proof.
  intros Hplain Hks Htop Hprotected.
  destruct (run_completes self w Hplain Hks Htop) as
    (posts & wc & w' & E & Hkws & Hrun & Hfiles & Hevents).
  exists posts, w'. split; [done |]. split; [done |].
  cbv zeta in Hfiles, Hevents.
  assert (length posts = min 5 (length (fetched_keywords (source w)))) as Hlen.
  { rewrite <- (length_fmap keyword), Hkws, length_take. lia. }
  rewrite <- Hlen in Hprotected.
  rewrite decide_True in Hfiles, Hevents by exact Hprotected. by split.
Qed.

Lemma run_reports_unwritable_output_witness :
  exists posts w',
    keyword <$> posts = take 5 kenya_keywords /\
    run_automation new_system read_only_world = (Ok tt, w') /\
    files w' = ∅ /\
    events w'
    = [] ++ run_prefix read_only_world
      ++ [Opened (data_filename noon) ForWriting;
          Printed (MsgErrorSavingData PermissionError);
          Printed (MsgGenerated (length posts))]
      ++ post_events posts 1
      ++ [Printed (MsgCompleted noon)].
Proof.
  apply (run_reports_unwritable_output new_system read_only_world
           new_generator_plain).
  - discriminate.
  - intros kw Hin. cbn [source read_only_world] in Hin.
    change (kw ∈ ["NTSA"; "KCSE 2024"; "Harambee Stars"]) in Hin.
    list_cases Hin; subst kw; by vm_compute.
  - change (data_filename noon ∈ ({[data_filename noon]} : gset string)).
    by apply elem_of_singleton.
Defined.

(** ** Templates with a field the composer has no argument for *)

Lemma free_of_weaken (cs cs' s : string) :
  (forall c, char_in c cs' = true -> char_in c cs = true) ->
  free_of cs s = true -> free_of cs' s = true.
Proof.
  intros Hsub. induction s as [|c s IH]; [done |]. cbn [free_of].
  intros [Hc Hs]%andb_prop. rewrite (IH Hs), andb_true_r.
  destruct (char_in c cs') eqn:E; [| done]. by rewrite (Hsub _ E) in Hc.
Qed.

(** Reading a field name up to its closing brace. *)
Lemma format_go_field kwargs name : forall acc rest,
  free_of "{}" name = true ->
  format_go kwargs (name +:+ "}" +:+ rest) (Some acc)
  = rbind (field_value (acc +:+ name) kwargs) (fun v =>
    rmap (String.append v) (format_go kwargs rest None)).
Proof.
  induction name as [|c name IH]; intros acc rest Hfree.
  - rewrite append_nil_l, append_nil_r. reflexivity.
  - apply andb_prop in Hfree as [Hc Hname].
    rewrite append_cons. cbn [format_go].
    assert (Ascii.eqb c "}" = false) as ->.
    { apply Ascii.eqb_neq. intros ->. done. }
    assert (Ascii.eqb c "{" = false) as ->.
    { apply Ascii.eqb_neq. intros ->. done. }
    rewrite (IH _ _ Hname). by rewrite append_assoc.
Qed.

(** An opening brace that no second one follows starts a field. *)
Lemma format_go_open kwargs c rest :
  c <> "{"%char ->
  format_go kwargs (String "{" (String c rest)) None
  = format_go kwargs (String c rest) (Some "").
Proof.
  intros Hc. cbn [format_go]. change (Ascii.eqb "{" "{") with true. cbv iota.
  destruct c as [[] [] [] [] [] [] [] []]; try reflexivity. by destruct Hc.
Qed.

(** Index fields, the empty field, an index beyond every [Py_ssize_t], a
    nested field in a format specification, and a brace in a field name. *)
Example format_index_fields :
  format "{0} is trending" (post_kwargs "NTSA" "now") = Raise IndexError /\
  format "{} is trending" (post_kwargs "NTSA" "now") = Raise IndexError /\
  format "{99999999999999999999}" (post_kwargs "NTSA" "now")
  = Raise ValueError /\
  format "{4keyword}" (post_kwargs "NTSA" "now")
  = Raise (KeyError "4keyword") /\
  format "{context:{keyword}}" (post_kwargs "NTSA" "now")
  = Beyond "replacement field" /\
  format "{context{keyword}}" (post_kwargs "NTSA" "now") = Raise ValueError.
Proof. by vm_compute. Qed.

(** [str.format] on a template whose first field other than the two
    placeholders is [name], a name read as a key: it raises [KeyError] for
    that name. *)
Lemma format_unknown_field_raises kw ctx pre name post :
  forallb plain_segment pre = true ->
  free_of ".[!:{}" name = true -> get_integer 0 name = Key ->
  name <> "keyword" -> name <> "context" ->
  format (template_of (pre ++ Field name :: post)) (post_kwargs kw ctx)
  = Raise (KeyError name).
Proof.
  intros Hpre Hfree Hdigits Hkw Hctx. unfold format.
  induction pre as [|s pre IH].
  - cbn [app]. rewrite template_of_cons.
    change (segment_text (Field name)) with ("{" +:+ name +:+ "}").
    assert (free_of "{}" name = true) as Hbraces.
    { eapply free_of_weaken; [| exact Hfree]. intros c.
      unfold char_in. intros H%bool_decide_eq_true. apply bool_decide_eq_true.
      cbn in *. list_cases H; subst c; in_list. }
    assert (free_of ".[!:" name = true) as Hplain.
    { eapply free_of_weaken; [| exact Hfree]. intros c.
      unfold char_in. intros H%bool_decide_eq_true. apply bool_decide_eq_true.
      cbn in *. list_cases H; subst c; in_list. }
    destruct name as [|c name]; [by vm_compute in Hdigits |].
    rewrite !append_assoc.
    change ("{" +:+ String c name +:+ "}" +:+ template_of post)
      with (String "{" (String c (name +:+ "}" +:+ template_of post))).
    rewrite format_go_open by (intros ->; done).
    change (String c (name +:+ "}" +:+ template_of post))
      with (String c name +:+ "}" +:+ template_of post).
    rewrite (format_go_field _ _ _ _ Hbraces), append_nil_l.
    unfold field_value. rewrite Hplain, Hdigits. cbn [negb].
    unfold post_kwargs.
    rewrite !lookup_insert_ne, lookup_empty by done. reflexivity.
  - apply andb_prop in Hpre as [Hs Hpre]. specialize (IH Hpre).
    cbn [app]. rewrite template_of_cons. destruct s as [text | field].
    + cbn [segment_text]. rewrite (format_go_lit _ _ _ Hs). by rewrite IH.
    + apply orb_prop in Hs as [->%bool_decide_eq_true | ->%bool_decide_eq_true].
      * change (segment_text (Field "keyword")) with "{keyword}".
        by rewrite format_go_keyword, IH.
      * change (segment_text (Field "context")) with "{context}".
        by rewrite format_go_context, IH.
Qed.

(** X26.  A template that names a field other than the keyword and the
    context makes [format] raise [KeyError] for that name, and nothing in
    the composer catches it.  The template is plain up to that field:
    literal text without braces and the two placeholders.  The name of the
    field has none of the characters [.], [[], [!], [:] and no brace, and
    [str.format] reads it as a key of the keyword arguments: before its
    first character that is not an ASCII digit, which it has and which is
    an ASCII character, stand digits of a number below [2^31] or none (an
    empty name or a name of digits only is an index and raises
    [IndexError] or [ValueError] instead).  When the first keyword of the
    batch has no frame and no non-empty list under [top] of its related
    queries and such a template is the one chosen for it, the composer
    raises that [KeyError], having drawn two random outcomes, and returns
    no post, for this keyword or for the ones after it. *)
Theorem composer_raises_on_unknown_field self interest_data rqd kw ks w
    ty pool pre name post :
  truth (get_ranked (related_queries_for rqd kw) "top") = Ok false ->
  template_types !! (randoms w (randoms_used w) mod length template_types)
  = Some ty ->
  post_templates self !! ty = Some pool ->
  pool !! (randoms w (S (randoms_used w)) mod length pool)
  = Some (template_of (pre ++ Field name :: post)) ->
  forallb plain_segment pre = true ->
  free_of ".[!:{}" name = true -> get_integer 0 name = Key ->
  name <> "keyword" -> name <> "context" ->
  format (template_of (pre ++ Field name :: post))
    (post_kwargs kw
       (match interest_data !! kw with
        | None => fallback_context
        | Some score =>
            if decide (80 < score)%Z then peak_phrase
            else if decide (50 < score)%Z then growing_phrase
            else momentum_phrase
        end)) = Raise (KeyError name) /\
  create_social_media_posts self interest_data rqd (kw :: ks) w
  = (Raise (KeyError name), with_randoms_used (randoms_used w + 2) w).
Proof.
  intros Htop Hty Hpool Htpl Hpre Hfree Hdigits Hkw Hctx.
  pose proof (format_unknown_field_raises kw
                (match interest_data !! kw with
                 | None => fallback_context
                 | Some score =>
                     if decide (80 < score)%Z then peak_phrase
                     else if decide (50 < score)%Z then growing_phrase
                     else momentum_phrase
                 end) pre name post Hpre Hfree Hdigits Hkw Hctx) as Hfmt.
  split; [exact Hfmt |].
  unfold create_social_media_posts.
  change (take 5 (kw :: ks)) with (kw :: take 4 ks). cbn [compose_each].
  assert (compose_post self interest_data rqd kw w
          = (Raise (KeyError name), with_randoms_used (randoms_used w + 2) w))
    as E.
  { unfold compose_post. fold (related_queries_for rqd kw).
    rewrite (generate_context_total _ _ _ Htop).
    rewrite (bind_ok _ _ w _ w) by done.
    destruct (choice_eq template_types w) as (ty' & Hty' & E); [done |].
    rewrite Hty in Hty'. injection Hty' as <-.
    rewrite (bind_ok _ _ _ _ _ E).
    unfold getitem. rewrite Hpool.
    set (w1 := with_randoms_used _ w).
    rewrite (bind_ok _ _ w1 pool w1) by done.
    assert (pool <> []) as Hne by (intros ->; done).
    destruct (choice_eq pool w1) as (template & Htpl' & E1); [done |].
    subst w1. cbn [randoms randoms_used with_randoms_used] in Htpl'.
    rewrite Htpl in Htpl'. injection Htpl' as <-.
    rewrite (bind_ok _ _ _ _ _ E1). rewrite Hfmt.
    unfold bind, lift. f_equal.
    rewrite with_randoms_used_twice.
    cbn [randoms_used with_randoms_used]. f_equal. lia. }
  unfold bind. by rewrite E.
Qed.

Lemma composer_raises_on_unknown_field_witness :
  format tagged_template (post_kwargs "NTSA" fallback_context)
  = Raise (KeyError "hashtag") /\
  create_social_media_posts tagged_generator ∅ ∅ ["NTSA"; "HELB"]
    (world_of no_trends ∅)
  = (Raise (KeyError "hashtag"),
     with_randoms_used 2 (world_of no_trends ∅)).
Proof.
  apply (composer_raises_on_unknown_field tagged_generator ∅ ∅ "NTSA" ["HELB"]
           (world_of no_trends ∅) "trending" [tagged_template]
           [Field "keyword"; Lit " is trending "] "hashtag" []);
    reflexivity || discriminate.
Defined.

(** ** Loading the log and saving it again *)

(** X27.  Saving what was loaded: when the log holds a dictionary with a
    list of keywords under [processed_keywords] and the file can be opened
    for writing, loading it and saving the result leaves a log with the
    same keywords and the time of the save; every other key of the old
    document is gone. *)
Theorem log_load_then_save entries keywords filename w :
  files w !! filename = Some (Document (PDict entries)) ->
  assoc_last entries "processed_keywords" = Some (PList (PStr <$> keywords)) ->
  filename ∉ write_protected w ->
  exists w1 w2,
    load_previous_trends filename w = (Ok (PList (PStr <$> keywords)), w1) /\
    files w1 = files w /\
    save_processed_trends keywords filename w1 = (Ok tt, w2) /\
    files w2
    = <[filename := Document (processed_document keywords
                                (clock w (clock_reads w)))]> (files w).
Proof.
  intros Hfile Hkeys Hfree.
  assert (load_previous_trends filename w
          = (Ok (PList (PStr <$> keywords)),
             with_events (events w ++ [Opened filename ForReading]) w)) as E.
  { unfold load_previous_trends, try_except_not_found, open_for_reading,
      bind, emit, lift.
    cbn [files with_events]. rewrite Hfile. cbn [json_load value_get].
    by rewrite Hkeys. }
  eexists _, _. split; [exact E |]. split; [reflexivity |].
  rewrite save_processed_trends_eq. cbv zeta.
  cbn [write_protected with_events]. rewrite decide_False by exact Hfree.
  split; reflexivity.
Qed.

Lemma log_load_then_save_witness :
  exists w1 w2,
    load_previous_trends previous_trends_file (world_of no_trends kept_log)
    = (Ok (PList (PStr <$> ["NTSA"])), w1) /\
    files w1 = kept_log /\
    save_processed_trends ["NTSA"] previous_trends_file w1 = (Ok tt, w2) /\
    files w2
    = <[previous_trends_file := Document (processed_document ["NTSA"] noon)]>
        kept_log.
Proof.
  apply (log_load_then_save
           [("processed_keywords", PList [PStr "NTSA"]);
            ("last_updated", PStr "2025-05-31T12:00:00")]
           ["NTSA"] previous_trends_file (world_of no_trends kept_log)).
  - reflexivity.
  - reflexivity.
  - apply not_elem_of_empty.
Defined.

(** ** The requests of a run *)

Lemma requests_app evs evs' : requests (evs ++ evs') = requests evs ++ requests evs'.
Proof. apply omap_app. Qed.

Lemma requests_related_events src keywords :
  requests (concat (related_events src <$> keywords))
  = (fun kw => RelatedQueriesOf [kw]) <$> keywords.
Proof.
  induction keywords as [|kw ks IH]; [done |].
  rewrite fmap_cons, concat_cons, requests_app, IH.
  unfold related_events. by destruct (related src [kw]).
Qed.

Lemma requests_post_events posts : forall i, requests (post_events posts i) = [].
Proof.
  unfold post_events. induction posts as [|p posts IH]; intros i; [done |].
  rewrite imap_cons. cbn [requests omap]. cbn.
  etransitivity; [| apply (IH (S i))]. unfold requests. f_equal.
  apply imap_ext. intros j q _. simpl. do 2 f_equal. lia.
Qed.

Lemma requests_run_prefix w :
  fetched_keywords (source w) <> [] ->
  requests (run_prefix w) = run_requests (fetched_keywords (source w)).
Proof.
  intros Hks. unfold run_prefix, run_requests.
  rewrite !requests_app, requests_related_events.
  assert (requests (trending_events (source w)) = [TrendingSearches]) as ->.
  { unfold trending_events. by destruct (trending (source w)). }
  assert (requests (interest_events (source w)
                      (take 5 (fetched_keywords (source w))))
          = [InterestOverTime (take 5 (fetched_keywords (source w)))]) as ->.
  { unfold interest_events.
    destruct (fetched_keywords (source w)) as [|kw ks] eqn:E; [done |].
    change (take 5 (kw :: ks)) with (kw :: take 4 ks).
    change (take 5 (kw :: take 4 ks)) with (kw :: take 4 (take 4 ks)).
    rewrite take_take, Nat.min_id.
    by destruct (interest_rows (source w) _). }
  destruct (fetched_keywords (source w)) as [|kw ks]; [done |].
  change (requests [Printed MsgGenerating]) with (@nil Request).
  rewrite app_nil_r. reflexivity.
Qed.

Lemma run_automation_empty_eq self w :
  fetched_keywords (source w) = [] ->
  run_automation self w
  = (Ok tt,
     with_events
       (events w
        ++ [Printed (MsgStarting (clock w (clock_reads w)));
            Printed MsgFetchingTrends]
        ++ trending_events (source w) ++ [Printed MsgNoKeywords])
       (with_clock_reads (S (clock_reads w)) w)).
Proof.
  intros Hks. unfold run_automation.
  rewrite (bind_ok _ _ _ _ _ (now_eq w)).
  rewrite (bind_ok _ _ _ _ _ (print_eq _ _)).
  rewrite (try_except_bind_ok _ _ _ _ _ _ (print_eq _ _)).
  rewrite (try_except_bind_ok _ _ _ _ _ _ (get_trending_searches_eq _)).
  cbn [source events with_events with_clock_reads]. rewrite Hks.
  unfold try_except. rewrite print_eq. f_equal.
  apply world_eq; try reflexivity.
  cbn [events with_events]. by rewrite <- !app_assoc.
Qed.

(** X28.  The requests of a run, for every system and in every world: one
    for the trending searches, and, when a keyword was fetched, one for the
    interest in the first five keywords and one for the related queries of
    each of the first three, in this order.  No request is repeated after a
    failure and none follows step 3, whether the composer returns or
    raises: a run sends five requests at most. *)
Theorem run_sends_these_requests self w :
  requests (events (run_automation self w).2)
  = requests (events w) ++ run_requests (fetched_keywords (source w)) /\
  length (run_requests (fetched_keywords (source w))) <= 5.
Proof.
  split.
  - destruct (decide (fetched_keywords (source w) = [])) as [Hks | Hks].
    { rewrite (run_automation_empty_eq _ _ Hks). cbn [snd events with_events].
      rewrite !requests_app. rewrite Hks. unfold trending_events.
      by destruct (trending (source w)). }
    rewrite (run_automation_unfold _ _ Hks).
    pose proof (composer_quiet (post_generator self) (run_interest w)
                  (run_related w) (fetched_keywords (source w))
                  (before_composer w)) as [Hevents _].
    assert (requests (events (before_composer w))
            = requests (events w)
              ++ run_requests (fetched_keywords (source w))) as Hbefore.
    { unfold before_composer. cbn [events with_events].
      by rewrite requests_app, requests_run_prefix. }
    destruct (create_social_media_posts (post_generator self) (run_interest w)
                (run_related w) (fetched_keywords (source w))
                (before_composer w)) as [[posts | e | c] wc] eqn:E;
      cbn [snd] in Hevents.
    + rewrite (try_except_bind_ok _ _ _ _ _ _ E).
      unfold try_except. rewrite run_tail_eq. cbv zeta.
      cbn [snd events with_events].
      rewrite Hevents, !requests_app, requests_post_events, Hbefore.
      cbn [requests omap]. simplify_list_eq. reflexivity.
    + rewrite (try_except_bind_raise _ _ _ _ _ _ E), print_eq.
      cbn [snd events with_events].
      rewrite Hevents, requests_app, Hbefore. cbn. by rewrite app_nil_r.
    + rewrite (try_except_bind_beyond _ _ _ _ _ _ E). cbn [snd].
      by rewrite Hevents.
  - unfold run_requests.
    destruct (fetched_keywords (source w)) as [|kw ks]; [simpl; lia |].
    cbn [length]. rewrite length_fmap, length_take. lia.
Qed.

(** ** All posts or none *)

(** X29.  The composer returns all posts or none.  Whenever it returns, for
    any generator, the list has exactly [min(5, len(keywords))] posts, one
    per keyword of the first five and in their order, each for the platform
    [multiple] and with the length of its content as its character count;
    a failure at any keyword leaves no partial list. *)
Theorem composer_all_or_nothing self interest_data rqd ks w posts w' :
  create_social_media_posts self interest_data rqd ks w = (Ok posts, w') ->
  length posts = min 5 (length ks) /\
  keyword <$> posts = take 5 ks /\
  Forall (fun p => platform p = "multiple" /\
                   character_count p = py_len (content p) /\
                   template_type p ∈ template_types) posts.
Proof.
  intros E%create_posts_inv.
  pose proof (Forall2_composed_keywords _ _ _ _ _ E) as Hkws.
  split; [| split; [done |]].
  - rewrite <- (length_fmap keyword), Hkws, length_take. lia.
  - eapply Forall2_Forall_r; [exact E |].
    apply Forall_forall. intros kw _ p (ctx & _ & Hp).
    by destruct Hp as (? & ? & ? & ? & ? & ? & _ & _ & _ & _ & _ & _ & _ & _
                       & ? & ?).
Qed.

Lemma composer_all_or_nothing_witness :
  length kenya_posts = min 5 (length kenya_keywords) /\
  keyword <$> kenya_posts = take 5 kenya_keywords /\
  Forall (fun p => platform p = "multiple" /\
                   character_count p = py_len (content p) /\
                   template_type p ∈ template_types) kenya_posts.
Proof.
  apply (composer_all_or_nothing new_generator ntsa_interest kenya_related
           kenya_keywords (world_of kenya_trends ∅) kenya_posts
           (create_social_media_posts new_generator ntsa_interest
              kenya_related kenya_keywords (world_of kenya_trends ∅)).2).
  apply run_result. by vm_compute.
Defined.

Example hashtags_kenya_in_config :
  hashtags_kenya new_generator = take 10 Config.KENYA_HASHTAGS.
Proof. reflexivity. Qed.
